(** * Intraday breakout classifier: the executor's decision pipeline

    A shallow embedding of [intraday_momentum_executor.py]: the universe
    construction, the feature extraction over a window of one-minute bars,
    the breakout rule, the risk-filtered order submission, and the
    semaphore-bounded scan of the universe.

    Prices are Python floats, that is IEEE-754 binary64 numbers; they are
    modelled by Rocq's primitive floats, so that every comparison, division
    and product below is the one the interpreter performs, NaN, infinities
    and signed zeros included. *)

From Stdlib Require Import ZArith Bool List Lia.
From Stdlib Require Import Floats.PrimFloat Floats.SpecFloat Floats.FloatOps Floats.FloatAxioms.
From stdpp Require Import base list gmap strings.

Set Warnings "-inexact-float".
Local Open Scope Z_scope.

(* ===================================================================== *)
(** ** The Python layer: exceptions, floats, integers                     *)
(* ===================================================================== *)

Module Py.

(** The exceptions (all subclasses of [Exception]) that the executor can
    meet: the three raised by the arithmetic it performs, and whatever the
    broker library raises, kept opaque. *)
Inductive exn : Type :=
| ValueError
| OverflowError
| ZeroDivisionError
| IndexError
| BrokerError (code : Z).

Inductive result (A : Type) : Type :=
| Ok (a : A)
| Raise (e : exn).
Arguments Ok {A} a.
Arguments Raise {A} e.

Definition rbind {A B} (r : result A) (k : A -> result B) : result B :=
  match r with
  | Ok a => k a
  | Raise e => Raise e
  end.

(** [bool(x)] of a float: false exactly for [0.0] and [-0.0]; NaN is true. *)
Definition truthy (x : float) : bool := negb (PrimFloat.eqb x 0%float).

(** [bool(x)] of a value that may also be [None]. *)
Definition truthy_opt (x : option float) : bool :=
  match x with
  | None => false
  | Some v => truthy v
  end.

(** [x / y] on floats. *)
Definition truediv (x y : float) : result float :=
  if PrimFloat.eqb y 0%float then Raise ZeroDivisionError
  else Ok (PrimFloat.div x y).

(** [a > b], [a < b], [a <= b] on floats. *)
Definition gt (a b : float) : bool := PrimFloat.ltb b a.
Definition lt (a b : float) : bool := PrimFloat.ltb a b.
Definition le (a b : float) : bool := PrimFloat.leb a b.

(** The exact value of a finite float is [n * 2^e] for a signed mantissa
    [n].  [Z.shiftl n e] is [n * 2^e] for [0 <= e] and the floor of
    [n / 2^(-e)] otherwise. *)
Definition signed (s : bool) (m : positive) : Z := cond_Zopp s (Zpos m).

(** [math.floor(x)]. *)
Definition math_floor (x : float) : result Z :=
  match Prim2SF x with
  | S754_nan => Raise ValueError
  | S754_infinity _ => Raise OverflowError
  | S754_zero _ => Ok 0
  | S754_finite s m e => Ok (Z.shiftl (signed s m) e)
  end.

(** [int(x)]: truncation towards zero. *)
Definition int_of_float (x : float) : result Z :=
  match Prim2SF x with
  | S754_nan => Raise ValueError
  | S754_infinity _ => Raise OverflowError
  | S754_zero _ => Ok 0
  | S754_finite s m e => Ok (cond_Zopp s (Z.shiftl (Zpos m) e))
  end.

(** An integer as an unrounded dyadic number. *)
Definition SF_of_Z (n : Z) : spec_float :=
  match n with
  | Z0 => S754_zero false
  | Zpos p => S754_finite false p 0
  | Zneg p => S754_finite true p 0
  end.

(** [a / b] on integers: the quotient, rounded once to the nearest float
    (ties to even). *)
Definition int_truediv (a b : Z) : result float :=
  if Z.eqb b 0 then Raise ZeroDivisionError
  else
    match SFdiv prec emax (SF_of_Z a) (SF_of_Z b) with
    | S754_infinity _ => Raise OverflowError
    | q => Ok (SF2Prim q)
    end.

(** The integer nearest to [num / den], ties to the even one
    ([0 < den]). *)
Definition round_half_even (num den : Z) : Z :=
  let q := num / den in
  let r := num mod den in
  match 2 * r ?= den with
  | Lt => q
  | Gt => q + 1
  | Eq => if Z.even q then q else q + 1
  end.

(** [round(x, 2)]: the exact value of [x] is rounded to two decimals
    (ties to even) and the decimal obtained is converted back to the
    nearest float; NaN, infinities and zeros are returned as they are. *)
Definition round2 (x : float) : float :=
  match Prim2SF x with
  | S754_finite s m e =>
      let hundredths :=
        match e with
        | Zneg k => round_half_even (Zpos m * 100) (Z.pow_pos 2 k)
        | _ => Z.shiftl (Zpos m) e * 100
        end in
      match hundredths with
      | Zpos q =>
          SF2Prim (SFdiv prec emax (S754_finite s q 0) (S754_finite false 100 0))
      | _ => if s then neg_zero else zero
      end
  | _ => x
  end.

(** [max(a, b)]: the first argument is kept unless the second is greater. *)
Definition max2 (a b : float) : float := if gt b a then b else a.

(** [max(xs)] and [min(xs)] over an iterable: the first item is the
    candidate, and a later item replaces it when it compares greater
    (smaller); an empty iterable raises [ValueError]. *)
Definition max_of (xs : list float) : result float :=
  match xs with
  | [] => Raise ValueError
  | x :: rest => Ok (fold_left (fun best item => if gt item best then item else best) rest x)
  end.

Definition min_of (xs : list float) : result float :=
  match xs with
  | [] => Raise ValueError
  | x :: rest => Ok (fold_left (fun best item => if lt item best then item else best) rest x)
  end.

(** Index normalisation of a slice bound: a negative bound counts from
    the end, and both ends are clipped to the sequence. *)
Definition clip (len i : Z) : Z :=
  if i <? 0 then Z.max (i + len) 0 else Z.min i len.

(** [xs[start:stop]]. *)
Definition slice {A} (xs : list A) (start stop : Z) : list A :=
  let len := Z.of_nat (length xs) in
  let lo := clip len start in
  let hi := clip len stop in
  firstn (Z.to_nat (hi - lo)) (skipn (Z.to_nat lo) xs).

(** [xs[-k]] for [1 <= k]: the k-th item from the end. *)
Definition getitem_neg {A} (xs : list A) (k : nat) : result A :=
  match nth_error (rev xs) (Nat.pred k) with
  | Some x => Ok x
  | None => Raise IndexError
  end.

(** [x == x]: false only for NaN. *)
Definition is_number (x : float) : bool := PrimFloat.eqb x x.

#[global] Arguments math_floor : simpl never.
#[global] Arguments int_of_float : simpl never.
#[global] Arguments int_truediv : simpl never.
#[global] Arguments round2 : simpl never.
#[global] Arguments max2 : simpl never.

End Py.

#[export] Instance result_ret : MRet Py.result := @Py.Ok.
#[export] Instance result_bind : MBind Py.result :=
  fun A B k r => Py.rbind r k.

(* ===================================================================== *)
(** ** Data model                                                         *)
(* ===================================================================== *)

(** One-minute bar, as the broker library delivers it. *)
Module BarData.
Record t : Type := make {
  open : float;
  high : float;
  low : float;
  close : float;
  volume : float
}.
End BarData.

(** The seven values returned by [fetch_intraminute_features]. *)
Record Features : Type := mkFeatures {
  open_price : float;
  high_price : float;
  low_price : float;
  close_price : float;
  volume : float;
  prev_range_ratio : float;
  last_five_ratio : float
}.

(** [prev.high / prev.low if prev.low else 1.0] *)
Definition range_ratio_or_one (hi lo : float) : Py.result float :=
  if Py.truthy lo then Py.truediv hi lo else Py.Ok 1%float.

(** The body of [fetch_intraminute_features] after the bars have arrived.
    The integers [0] and [1] of the first [return] are the floats they equal. *)
Definition features_of_bars (bars : list BarData.t) : Py.result Features :=
  if bool_decide (bars = []) then
    (* No data available. *)
    mret (mkFeatures 0 0 0 0 0 0 1)
  else
    latest ← Py.getitem_neg bars 1;
    (* Single bar: no history. *)
    if bool_decide (length bars = 1%nat) then
      mret (mkFeatures (BarData.open latest) (BarData.high latest)
              (BarData.low latest) (BarData.close latest)
              (BarData.volume latest) 1 1)
    else
      prev ← Py.getitem_neg bars 2;
      (* Short history: use previous bar but not last-five range. *)
      if bool_decide (length bars < 6)%nat then
        prev_ratio ← range_ratio_or_one (BarData.high prev) (BarData.low prev);
        mret (mkFeatures (BarData.open latest) (BarData.high latest)
                (BarData.low latest) (BarData.close latest)
                (BarData.volume latest) prev_ratio 1)
      else
        (* Full last-five computation *)
        let recent_window := Py.slice bars (-6) (-1) in
        max_price ← Py.max_of (map BarData.high recent_window);
        min_price ← Py.min_of
                      (map BarData.low
                         (filter (fun bar => Is_true (Py.truthy (BarData.low bar)))
                            recent_window));
        prev_ratio ← range_ratio_or_one (BarData.high prev) (BarData.low prev);
        last_five ← range_ratio_or_one max_price min_price;
        mret (mkFeatures (BarData.open latest) (BarData.high latest)
                (BarData.low latest) (BarData.close latest)
                (BarData.volume latest) prev_ratio last_five).

(* ===================================================================== *)
(** ** The broker session and the effects of an evaluation                *)
(* ===================================================================== *)

Record Contract : Type := mkContract {
  symbol : string;
  exchange : string;
  currency : string
}.

Definition Stock (sym exch cur : string) : Contract := mkContract sym exch cur.

(** The two fields of a market-data ticker that are read; each may be
    absent. *)
Record Ticker : Type := mkTicker {
  bid : option float;
  ask : option float
}.

Record StopLimitOrder : Type := mkStopLimitOrder {
  action : string;
  totalQuantity : Z;
  stopPrice : float;
  lmtPrice : float;
  outsideRth : bool;
  tif : string;
  goodTillDate : Z
}.

(** What an evaluation does to the outside world: the orders it hands to the
    broker and the lines it prints. *)
Inductive event : Type :=
| PlaceOrder (contract : Contract) (order : StopLimitOrder)
| PrintEntry (sym : string) (quantity : Z) (stop limit : float)
| PrintError (sym : string) (exc : Py.exn)
| PrintHeartbeat (clock : Z).

(** The session [ib] as the answers it gives to the task of a contract: any
    request may come back with an exception instead.  Times are seconds. *)
Record IB : Type := mkIB {
  reqHistoricalDataAsync : Contract -> Py.result (list BarData.t);
  reqMktData : Contract -> Py.result Ticker;
  reqExecutions : Contract -> Py.result (list string);
  placeOrder : Contract -> StopLimitOrder -> Py.result unit;
  now : Contract -> Z
}.

(** A computation that emits events and then returns or raises. *)
Definition eff (A : Type) : Type := (list event * Py.result A)%type.

Definition eff_ret {A} (a : A) : eff A := ([], Py.Ok a).

Definition eff_bind {A B} (m : eff A) (k : A -> eff B) : eff B :=
  match m with
  | (evs, Py.Ok a) => let '(evs', r) := k a in (evs ++ evs', r)
  | (evs, Py.Raise e) => (evs, Py.Raise e)
  end.

#[export] Instance eff_mret : MRet eff := @eff_ret.
#[export] Instance eff_mbind : MBind eff := fun A B k m => eff_bind m k.

Definition lift {A} (r : Py.result A) : eff A := ([], r).
Definition emit (ev : event) : eff unit := ([ev], Py.Ok tt).

(** [try: body  except Exception as exc: handler exc] *)
Definition try_except {A} (body : eff A) (handler : Py.exn -> eff A) : eff A :=
  match body with
  | (evs, Py.Ok a) => (evs, Py.Ok a)
  | (evs, Py.Raise e) => let '(evs', r) := handler e in (evs ++ evs', r)
  end.

Definition events {A} (m : eff A) : list event := fst m.
Definition outcome {A} (m : eff A) : Py.result A := snd m.

(** The orders among the events. *)
Definition orders_of (evs : list event) : list (Contract * StopLimitOrder) :=
  flat_map (fun ev => match ev with PlaceOrder c o => [(c, o)] | _ => [] end) evs.

(* ===================================================================== *)
(** ** Market data utilities and order submission                         *)
(* ===================================================================== *)

Definition get_spread_ratio (ib : IB) (contract : Contract) : Py.result float :=
  ticker ← reqMktData ib contract;
  let bid_price := bid ticker in
  let ask_price := ask ticker in
  if negb (Py.truthy_opt bid_price) || negb (Py.truthy_opt ask_price) then
    mret infinity
  else
    match ask_price, bid_price with
    | Some a, Some b => Py.truediv a b
    | _, _ => mret infinity
    end.

Definition fetch_symbols_traded_today (ib : IB) (contract : Contract)
  : Py.result (gset string) :=
  executions ← reqExecutions ib contract;
  mret (list_to_set executions).

(** Expiry: the start of the current minute, plus the validity, minus four
    hours. *)
Definition expiration (clock minutes_valid : Z) : Z :=
  (clock - clock mod 60) + 60 * minutes_valid - 4 * 3600.

(** The call of [ib.placeOrder] is recorded before the broker answers it;
    [dollar_risk] is passed as [10] or [5] and divided as a float. *)
Definition submit_entry_order (ib : IB) (contract : Contract)
    (reference_price : float) (minutes_valid : Z) (dollar_risk : float)
  : eff unit :=
  (* Risk filters *)
  spread ← lift (get_spread_ratio ib contract);
  if Py.gt spread 1.05 then mret tt else
  traded ← lift (fetch_symbols_traded_today ib contract);
  if bool_decide (symbol contract ∈ traded) then mret tt else
  let stop_price := Py.round2 (1.02 * reference_price) in
  let limit_price := Py.round2 (1.08 * reference_price) in
  size ← lift (Py.truediv dollar_risk (Py.max2 stop_price 0.01));
  quantity ← lift (Py.int_of_float size);
  if quantity <=? 0 then mret tt else
  let order :=
    mkStopLimitOrder "BUY" quantity stop_price limit_price true "GTD"
      (expiration (now ib contract) minutes_valid) in
  emit (PlaceOrder contract order);;
  lift (placeOrder ib contract order);;
  emit (PrintEntry (symbol contract) quantity stop_price limit_price).

(** The order that [submit_entry_order] builds for a quantity. *)
Definition entry_order (reference_price : float) (minutes_valid quantity clock : Z)
  : StopLimitOrder :=
  mkStopLimitOrder "BUY" quantity
    (Py.round2 (1.02 * reference_price)) (Py.round2 (1.08 * reference_price))
    true "GTD" (expiration clock minutes_valid).

(* ===================================================================== *)
(** ** Core trading logic                                                 *)
(* ===================================================================== *)

(** [math.floor(high_price / low_price * 100) / 100] *)
Definition bar_range_ratio (high low : float) : Py.result float :=
  ratio ← Py.truediv high low;
  (* Truncate to 2 decimals *)
  hundredths ← Py.math_floor (ratio * 100);
  Py.int_truediv hundredths 100.

(** The [try] block of [evaluate_and_trade_symbol] once the seven features
    are unpacked. *)
Definition trade_on_features (ib : IB) (contract : Contract) (f : Features)
  : eff unit :=
  if negb (Py.truthy (high_price f)) || negb (Py.truthy (low_price f)) then
    mret tt
  else
    bar_range_ratio ← lift (bar_range_ratio (high_price f) (low_price f));
    (* Basic sanity and risk filters *)
    if Py.le (close_price f) (open_price f) then mret tt else
    if Py.gt bar_range_ratio 1.30 then mret tt else
    if Py.gt (prev_range_ratio f) 1.05 then mret tt else
    if Py.gt (close_price f) 5 then mret tt else
    (* Breakout logic *)
    if Py.lt 1.10 bar_range_ratio && Py.lt bar_range_ratio 1.30 then
      submit_entry_order ib contract (high_price f) 3 10
    else if Py.gt bar_range_ratio 1.05 && Py.lt (last_five_ratio f) 1.03 then
      submit_entry_order ib contract (high_price f) 3 5
    else mret tt.

Definition fetch_intraminute_features (ib : IB) (contract : Contract)
  : Py.result Features :=
  bars ← reqHistoricalDataAsync ib contract;
  features_of_bars bars.

(** The handler of the [try] block: [print(f"Error processing ...")]. *)
Definition report_error (contract : Contract) (exc : Py.exn) : eff unit :=
  emit (PrintError (symbol contract) exc).

(** The [try] block: fetch the features, then trade on them. *)
Definition try_block (ib : IB) (contract : Contract) : eff unit :=
  f ← lift (fetch_intraminute_features ib contract);
  trade_on_features ib contract f.

(** The body of [async with sem:], that is the [try] block under its
    handler. *)
Definition evaluate_and_trade_symbol (ib : IB) (contract : Contract) : eff unit :=
  try_except (try_block ib contract) (report_error contract).

(** The symbol an event is about. *)
Definition event_symbol (ev : event) : option string :=
  match ev with
  | PlaceOrder contract _ => Some (symbol contract)
  | PrintEntry sym _ _ _ => Some sym
  | PrintError sym _ => Some sym
  | PrintHeartbeat _ => None
  end.

(** An event about the symbol of a contract. *)
Definition about (c : Contract) (ev : event) : Prop :=
  event_symbol ev = Some (symbol c).

Definition is_heartbeat (ev : event) : bool :=
  match ev with
  | PrintHeartbeat _ => true
  | _ => false
  end.

(* ===================================================================== *)
(** ** Universe construction                                              *)
(* ===================================================================== *)

(** [ONLINE_TICKERS = {}]: nothing is added to the symbols of the file. *)
Definition ONLINE_TICKERS : gset string := ∅.

(** [l.remove(x)] for an [x] that occurs in [l]: the first occurrence goes. *)
Fixpoint remove_first (x : string) (l : list string) : list string :=
  match l with
  | [] => []
  | y :: rest => if decide (y = x) then rest else y :: remove_first x rest
  end.

Section Universe.

(** The order in which a set is listed by [list(...)] is not specified; it
    is a parameter, constrained only to enumerate the set once. *)
Variable iteration_order : gset string -> list string.

(** [column] is the ["symbol"] column of the universe file. *)
Definition universe_symbols (column : list string) : list string :=
  let from_file : gset string := list_to_set (take 550 column) in
  let listed := iteration_order (from_file ∪ ONLINE_TICKERS) in
  if bool_decide ("INTJ" ∈ listed) then remove_first "INTJ" listed else listed.

Definition UNIVERSE_CONTRACTS (column : list string) : list Contract :=
  map (fun sym => Stock sym "SMART" "USD") (universe_symbols column).

End Universe.

(* ===================================================================== *)
(** ** The scan cycle and the scheduler loop                              *)
(* ===================================================================== *)

(** The first exception among the results of the tasks, if any. *)
Fixpoint first_raise (rs : list (Py.result unit)) : Py.result unit :=
  match rs with
  | [] => Py.Ok tt
  | Py.Ok _ :: rest => first_raise rest
  | Py.Raise e :: _ => Py.Raise e
  end.

(** [await asyncio.gather( *tasks)]: every task runs to its end; the caller
    gets the first exception raised by a task, if there is one. *)
Definition gather (tasks : list (eff unit)) : eff unit :=
  (concat (map events tasks), first_raise (map outcome tasks)).

Definition scan_universe_once (ib : IB) (contracts : list Contract) : eff unit :=
  gather (map (evaluate_and_trade_symbol ib) contracts).

(** [iterations] turns of the [while True] loop of [run_intraday_scanner],
    from turn [k] on; [clock k] is what [datetime.now()] reads at turn [k]
    and [session k] is how the broker answers during that turn. *)
Fixpoint run_intraday_scanner (session : nat -> IB) (clock : nat -> Z)
    (contracts : list Contract) (iterations k : nat) : eff unit :=
  match iterations with
  | O => mret tt
  | S n =>
      emit (PrintHeartbeat (clock k));;
      (if 45 <? clock k mod 60
       then scan_universe_once (session k) contracts
       else mret tt);;
      run_intraday_scanner session clock contracts n (S k)
  end.

(* ===================================================================== *)
(** ** The concurrency limiter                                            *)
(* ===================================================================== *)

(** The tasks of one cycle interleave.  With respect to the semaphore a task
    is waiting for a permit, inside [async with sem:] after some of the events
    of the block, or past it with the result of the block.  [sem.acquire()]
    takes a unit of the semaphore's value when there is one and blocks
    otherwise; leaving the [async with] block gives the unit back, whether the
    block ended by returning or by raising, and it is left only when the block
    has ended.  The requests to the broker are awaited without a timeout and
    all of them come before the first event of the block: a task whose
    request is never answered stays inside the block, having emitted
    nothing.  An event is logged with the index of its task. *)
Module Limiter.

Inductive phase : Type :=
| Waiting
| Inside (emitted : nat)
| Released (r : Py.result unit).

Record state : Type := mkState {
  value : nat;
  tasks : list phase;
  log : list (nat * event)
}.

Definition init (bound n : nat) : state := mkState bound (replicate n Waiting) [].

(** A task: whether its requests are answered, and what the block then
    does. *)
Record task : Type := mkTask {
  answered : bool;
  block : eff unit
}.

Inductive step (body : nat -> task) : state -> state -> Prop :=
| step_acquire (i v : nat) (ts : list phase) (l : list (nat * event)) :
    ts !! i = Some Waiting ->
    step body (mkState (S v) ts l) (mkState v (<[i := Inside 0]> ts) l)
| step_emit (i v k : nat) (ts : list phase) (l : list (nat * event)) (ev : event) :
    ts !! i = Some (Inside k) ->
    answered (body i) = true ->
    events (block (body i)) !! k = Some ev ->
    step body (mkState v ts l)
      (mkState v (<[i := Inside (S k)]> ts) (l ++ [(i, ev)]))
| step_leave (i v k : nat) (ts : list phase) (l : list (nat * event)) :
    ts !! i = Some (Inside k) ->
    answered (body i) = true ->
    k = length (events (block (body i))) ->
    step body (mkState v ts l)
      (mkState (S v) (<[i := Released (outcome (block (body i)))]> ts) l).

Definition is_waiting (p : phase) : bool :=
  match p with Waiting => true | _ => false end.

Definition is_holding (p : phase) : bool :=
  match p with Inside _ => true | _ => false end.

Definition is_released (p : phase) : bool :=
  match p with Released _ => true | _ => false end.

(** Number of tasks holding a permit. *)
Definition holders (s : state) : nat :=
  length (List.filter is_holding (tasks s)).

(** Number of tasks waiting for one. *)
Definition waiters (s : state) : nat :=
  length (List.filter is_waiting (tasks s)).

(** The units held and the units left add up to the bound, for [n] tasks. *)
Definition accounted (bound n : nat) (s : state) : Prop :=
  (value s + holders s = bound)%nat /\ length (tasks s) = n.

(** The events logged by a task, in the order of the log. *)
Definition logged_by (i : nat) (l : list (nat * event)) : list event :=
  (filter (fun entry => entry.1 = i) l).*2.

(** What a task has emitted of the events of its block: nothing while it
    waits, the first of them inside the block, all of them once it has
    left. *)
Definition emitted_by (evs : list event) (p : phase) : list event :=
  match p with
  | Waiting => []
  | Inside k => take k evs
  | Released _ => evs
  end.

(** The steps a task has yet to take, for a block of [len] events: enter,
    emit each event, leave. *)
Definition steps_left (len : nat) (p : phase) : nat :=
  match p with
  | Waiting => (2 + len)%nat
  | Inside k => (1 + (len - k))%nat
  | Released _ => 0%nat
  end.

Definition remaining (body : nat -> task) (ts : list phase) : nat :=
  sum_list (imap (fun i p => steps_left (length (events (block (body i)))) p) ts).

(** Where a task can be: inside the block it has emitted no more events
    than the block has, and some only if its requests were answered; past
    the block, its requests were answered and its result is the block's. *)
Definition well_placed (t : task) (p : phase) : Prop :=
  match p with
  | Waiting => True
  | Inside k =>
      (k <= length (events (block t)))%nat /\ ((0 < k)%nat -> answered t = true)
  | Released r => answered t = true /\ r = outcome (block t)
  end.

Definition within (body : nat -> task) (s : state) : Prop :=
  forall i p, tasks s !! i = Some p -> well_placed (body i) p.

(** The log holds, for each task, what the task has emitted, in the order
    of its block, and only entries of tasks. *)
Definition in_order (body : nat -> task) (s : state) : Prop :=
  (forall i, logged_by i (log s)
             = emitted_by (events (block (body i)))
                 (default Waiting (tasks s !! i))) /\
  Forall (fun entry => (entry.1 < length (tasks s))%nat) (log s).

End Limiter.

(** The cycle started by [scan_universe_once]: [asyncio.Semaphore(50)] and
    one task per contract, whose block is [evaluate_and_trade_symbol]'s.
    [unanswered] tells the contracts for which a request is never
    answered. *)
Definition task_body (ib : IB) (unanswered : Contract -> bool)
    (contracts : list Contract) (i : nat) : Limiter.task :=
  match contracts !! i with
  | Some contract =>
      Limiter.mkTask (negb (unanswered contract))
        (evaluate_and_trade_symbol ib contract)
  | None => Limiter.mkTask true (mret tt)
  end.

Definition scan_start (contracts : list Contract) : Limiter.state :=
  Limiter.init 50 (length contracts).

Definition scan_step (ib : IB) (unanswered : Contract -> bool)
    (contracts : list Contract) : Limiter.state -> Limiter.state -> Prop :=
  Limiter.step (task_body ib unanswered contracts).

(** The broker answers every request, or none. *)
Definition all_answered : Contract -> bool := fun _ => false.

(* ===================================================================== *)
(** ** Decisions                                                          *)
(* ===================================================================== *)

Inductive RiskTier : Type := Strong | Mild.

Inductive TradeDecision : Type :=
| NoTrade
| Enter (riskTier : RiskTier) (referencePrice : float).

(** The budget passed as [dollar_risk] for each tier. *)
Definition dollar_risk_of (tier : RiskTier) : float :=
  match tier with
  | Strong => 10
  | Mild => 5
  end.

(** What the [try] block does with a decision. *)
Definition act (ib : IB) (contract : Contract) (d : TradeDecision) : eff unit :=
  match d with
  | NoTrade => mret tt
  | Enter tier reference => submit_entry_order ib contract reference 3 (dollar_risk_of tier)
  end.

(** The control flow of [trade_on_features] with each call of
    [submit_entry_order] replaced by the decision it stands for. *)
Definition breakout_decision (f : Features) : Py.result TradeDecision :=
  if negb (Py.truthy (high_price f)) || negb (Py.truthy (low_price f)) then
    mret NoTrade
  else
    bar_range_ratio ← bar_range_ratio (high_price f) (low_price f);
    if Py.le (close_price f) (open_price f) then mret NoTrade else
    if Py.gt bar_range_ratio 1.30 then mret NoTrade else
    if Py.gt (prev_range_ratio f) 1.05 then mret NoTrade else
    if Py.gt (close_price f) 5 then mret NoTrade else
    if Py.lt 1.10 bar_range_ratio && Py.lt bar_range_ratio 1.30 then
      mret (Enter Strong (high_price f))
    else if Py.gt bar_range_ratio 1.05 && Py.lt (last_five_ratio f) 1.03 then
      mret (Enter Mild (high_price f))
    else mret NoTrade.

(** An exception in the [try] block is caught by its handler, which places
    no order: the decision is then [NoTrade]. *)
Definition decision (f : Features) : TradeDecision :=
  match breakout_decision f with
  | Py.Ok d => d
  | Py.Raise _ => NoTrade
  end.

Definition is_strong (d : TradeDecision) : bool :=
  match d with
  | Enter Strong _ => true
  | _ => false
  end.

(** Two feature vectors that differ at most in the volume. *)
Definition same_but_volume (f g : Features) : Prop :=
  open_price f = open_price g /\ high_price f = high_price g /\
  low_price f = low_price g /\ close_price f = close_price g /\
  prev_range_ratio f = prev_range_ratio g /\
  last_five_ratio f = last_five_ratio g.

(* ===================================================================== *)
(** ** The rules as the specification words them                          *)
(* ===================================================================== *)

Module Spec.

(** [barRangeRatio = floor(high/low * 100) / 100], for a low that is not
    zero and a quotient that has a floor. *)
Definition barRangeRatio (f : Features) : option float :=
  if PrimFloat.eqb (low_price f) 0 then None
  else
    match Py.math_floor (high_price f / low_price f * 100) with
    | Py.Ok n =>
        match Py.int_truediv n 100 with
        | Py.Ok r => Some r
        | Py.Raise _ => None
        end
    | Py.Raise _ => None
    end.

(** A condition on a ratio holds only of a ratio that exists. *)
Definition holds (P : float -> bool) (r : option float) : bool :=
  match r with
  | Some v => P v
  | None => false
  end.

(** The reference rule of the breakout classifier. *)
Definition reference_rule (f : Features) : TradeDecision :=
  let r := barRangeRatio f in
  if PrimFloat.eqb (low_price f) 0
     || PrimFloat.leb (close_price f) (open_price f)
     || holds (fun v => PrimFloat.ltb 1.30 v) r
     || PrimFloat.ltb 1.05 (prev_range_ratio f)
     || PrimFloat.ltb 5.0 (close_price f)
  then NoTrade
  else if holds (fun v => PrimFloat.ltb 1.10 v && PrimFloat.ltb v 1.30) r then
    Enter Strong (high_price f)
  else if holds (fun v => PrimFloat.ltb 1.05 v) r
          && PrimFloat.ltb (last_five_ratio f) 1.03 then
    Enter Mild (high_price f)
  else NoTrade.

(** The order builder: stop, limit and quantity, when there is an order. *)
Definition order_builder (referencePrice dollarRisk : float)
  : option (float * float * Z) :=
  let stopPrice := Py.round2 (1.02 * referencePrice) in
  let limitPrice := Py.round2 (1.08 * referencePrice) in
  let floor_price := if PrimFloat.ltb stopPrice 0.01 then 0.01%float else stopPrice in
  match Py.math_floor (dollarRisk / floor_price) with
  | Py.Ok quantity =>
      if quantity <=? 0 then None else Some (stopPrice, limitPrice, quantity)
  | Py.Raise _ => None
  end.

(** The spread ratio [ask / bid], infinite when a side is missing (absent, or
    zero, which is how an empty quote reads). *)
Definition spreadRatio (t : Ticker) : float :=
  match bid t, ask t with
  | Some b, Some a =>
      if PrimFloat.eqb b 0 || PrimFloat.eqb a 0 then infinity else (a / b)%float
  | _, _ => infinity
  end.

(** The previous bar's ratio: its high over its low when that low is
    positive, else 1.0. *)
Definition prevBarRangeRatio (prev : BarData.t) : float :=
  if PrimFloat.ltb 0 (BarData.low prev)
  then (BarData.high prev / BarData.low prev)%float
  else 1%float.

(** The last-five ratio over the five bars before the last: the greatest
    high over the least low among the bars whose low is positive, or 1.0 when
    there is no such low. *)
Definition lastFiveRangeRatio (recent : list BarData.t) : float :=
  match Py.max_of (map BarData.high recent),
        Py.min_of (map BarData.low
                     (filter (fun bar => Is_true (PrimFloat.ltb 0 (BarData.low bar)))
                        recent)) with
  | Py.Ok highest, Py.Ok lowest => (highest / lowest)%float
  | _, _ => 1%float
  end.

End Spec.

(* ===================================================================== *)
(** ** The order of floats                                                *)
(* ===================================================================== *)

(** A float that is not NaN has a place in the lexicographic order of
    triples: the infinities at the ends, the two zeros together in the
    middle, and a finite float by sign, exponent and mantissa. *)
Definition rank (x : spec_float) : Z * Z * Z :=
  match x with
  | S754_nan => (0, 0, 0)
  | S754_zero _ => (0, 0, 0)
  | S754_infinity s => (if s then -2 else 2, 0, 0)
  | S754_finite s m e => if s then (-1, - e, Zneg m) else (1, e, Zpos m)
  end.

Definition lex_lt (p q : Z * Z * Z) : Prop :=
  let '(a1, b1, c1) := p in
  let '(a2, b2, c2) := q in
  a1 < a2 \/ (a1 = a2 /\ (b1 < b2 \/ (b1 = b2 /\ c1 < c2))).

Definition lex_le (p q : Z * Z * Z) : Prop := lex_lt p q \/ p = q.

(** [m] is an item of [xs] that no item exceeds (that exceeds no item). *)
Definition greatest (m : float) (xs : list float) : Prop :=
  m ∈ xs /\ forall x, x ∈ xs -> PrimFloat.leb x m = true.

Definition least (m : float) (xs : list float) : Prop :=
  m ∈ xs /\ forall x, x ∈ xs -> PrimFloat.leb m x = true.

Ltac lex_solve :=
  unfold lex_le in *;
  repeat match goal with
         | H : lex_lt _ _ \/ _ = _ |- _ => destruct H as [H | H]
         end;
  subst;
  repeat match goal with
         | p : (Z * Z * Z)%type |- _ => destruct p as [[? ?] ?]
         end;
  unfold lex_lt in *;
  repeat match goal with
         | H : (_, _, _) = (_, _, _) |- _ => injection H as ? ? ?
         end;
  subst; try lia.

(* ===================================================================== *)
(** ** The universe builder                                               *)
(* ===================================================================== *)

(** [low_float_universe_builder.py]: the selection of the candidates, the two
    fetchers with the XML helpers they call, the loading of the tickers, and
    the pipeline up to the rows it hands to the data-frame library (the merge,
    the sort and the CSV file are the library's and are not modelled). *)
Module Builder.

(** The exceptions told apart by the handlers of this file, each standing
    for its class with its subclasses; [OtherError] stands for any other
    subclass of [Exception]. *)
Inductive exn : Type :=
| ParseError
| ValueError
| KeyError (key : string)
| OtherError (code : Z).

Inductive outcome (A : Type) : Type :=
| Return (a : A)
| Raise (e : exn).
Arguments Return {A} a.
Arguments Raise {A} e.

(** A [str] is held as the bytes of its UTF-8 encoding.  [len] counts its
    characters (code points): every byte but the continuation bytes, those
    of the form [10xxxxxx]. *)
Definition is_continuation_byte (a : Ascii.ascii) : bool :=
  match a with
  | Ascii.Ascii _ _ _ _ _ _ b6 b7 => b7 && negb b6
  end.

Fixpoint len (s : string) : nat :=
  match s with
  | EmptyString => 0
  | String a rest => (if is_continuation_byte a then 0 else 1) + len rest
  end.

(** A daily bar: its close, and its volume, which may be [None]. *)
Record DailyBar : Type := mkDailyBar {
  close : float;
  volume : option float
}.

(** The dict appended to [filtered]. *)
Record Candidate : Type := mkCandidate {
  symbol : string;
  price : float;
  market_cap : float;
  avg_volume : float
}.

(** A row of [results]: symbol, price, market cap, average volume. *)
Definition raw_result : Type :=
  (string * option float * option float * option float)%type.

(** The lines printed. *)
Inductive message : Type :=
| MarketCapError (exc : exn)
| XmlError
| FloatError
| ContractNotFound (sym : string)
| NoBars (sym : string)
| FetchError (sym : string) (exc : exn)
| NoFundamentalData (sym : string)
| FloatFetchError (sym : string) (exc : exn)
| SymbolLine (sym : string)
| FetchedLine (row : raw_result)
| NoStocks
| FilteredStocks (rows : list Candidate)
| FetchingFloat (sym : string)
| Disconnect.

(** What the libraries do, taken as given: [sum] over floats, [float] of a
    string, and the two look-ups in a parsed XML report ([ET.fromstring]
    followed by [find], then the element's text or attribute): the look-up
    raises, finds no element, finds one without the text or attribute, or
    finds the string. *)
Record Library : Type := mkLibrary {
  py_sum : list float -> float;
  float_of_str : string -> outcome float;
  find_market_cap_text : string -> outcome (option (option string));
  find_total_float : string -> outcome (option (option string))
}.

(** The broker session, request by request, for a symbol. *)
Record Session : Type := mkSession {
  qualifyContracts : string -> outcome (list string);
  reqHistoricalData : string -> outcome (list DailyBar);
  reqFundamentalData : string -> outcome (option string)
}.

Definition extract_market_cap_from_xml (lib : Library) (xml_data : string)
  : list message * option float :=
  match find_market_cap_text lib xml_data with
  | Raise exc => ([MarketCapError exc], None)
  | Return None => ([], None)
  | Return (Some None) => ([], None)
  | Return (Some (Some text)) =>
      if String.eqb text "" then ([], None)
      else
        match float_of_str lib text with
        | Return v => ([], Some v)
        | Raise exc => ([MarketCapError exc], None)
        end
  end.

Definition extract_float_shares_from_xml (lib : Library) (xml_data : string)
  : list message * outcome (option float) :=
  match find_total_float lib xml_data with
  | Raise ParseError => ([XmlError], Return None)
  | Raise ValueError => ([FloatError], Return None)
  | Raise exc => ([], Raise exc)
  | Return None => ([], Return None)
  | Return (Some None) => ([], Return None)
  | Return (Some (Some float_shares_str)) =>
      match float_of_str lib float_shares_str with
      | Return v => ([], Return (Some v))
      | Raise ParseError => ([XmlError], Return None)
      | Raise ValueError => ([FloatError], Return None)
      | Raise exc => ([], Raise exc)
      end
  end.

(** [len(volumes)] as a float. *)
Definition float_of_nat (n : nat) : float :=
  SF2Prim (binary_normalize prec emax (Z.of_nat n) 0 false).

(** [[b.volume for b in bars[:-1] if b.volume is not None]] *)
Definition earlier_volumes (bars : list DailyBar) : list float :=
  omap volume (removelast bars).

(** [sum(volumes) / len(volumes) if volumes else 0] *)
Definition average_volume (lib : Library) (volumes : list float) : float :=
  match volumes with
  | [] => 0%float
  | _ => (py_sum lib volumes / float_of_nat (length volumes))%float
  end.

(** The three values returned for a symbol. *)
Definition fetch_price_mc_volume_ib (ib : Session) (lib : Library) (sym : string)
  : list message * (option float * option float * option float) :=
  match qualifyContracts ib sym with
  | Raise exc => ([FetchError sym exc], (None, None, None))
  | Return [] => ([ContractNotFound sym], (None, None, None))
  | Return (_ :: _) =>
      match reqHistoricalData ib sym with
      | Raise exc => ([FetchError sym exc], (None, None, None))
      | Return bars =>
          match last bars with
          | None => ([NoBars sym], (None, None, None))
          | Some latest_bar =>
              let price := close latest_bar in
              let avg := average_volume lib (earlier_volumes bars) in
              match reqFundamentalData ib sym with
              | Raise exc => ([FetchError sym exc], (None, None, None))
              | Return funda_xml =>
                  let '(printed, market_cap) :=
                    match funda_xml with
                    | None => ([], None)
                    | Some xml =>
                        if String.eqb xml "" then ([], None)
                        else extract_market_cap_from_xml lib xml
                    end in
                  (printed,
                   (Some price,
                    match market_cap with
                    | Some mc => Some (mc * 1000000)%float
                    | None => None
                    end,
                    Some avg))
              end
          end
      end
  end.

Definition fetch_float_shares_ib (ib : Session) (lib : Library) (sym : string)
  : list message * option float :=
  match qualifyContracts ib sym with
  | Raise exc => ([FloatFetchError sym exc], None)
  | Return [] => ([ContractNotFound sym], None)
  | Return (_ :: _) =>
      match reqFundamentalData ib sym with
      | Raise exc => ([FloatFetchError sym exc], None)
      | Return None => ([NoFundamentalData sym], None)
      | Return (Some xml) =>
          if String.eqb xml "" then ([NoFundamentalData sym], None)
          else
            match extract_float_shares_from_xml lib xml with
            | (printed, Return v) => (printed, v)
            | (printed, Raise exc) => (printed ++ [FloatFetchError sym exc], None)
            end
      end
  end.

(** [load_tickers] on the mapping read from the file: the entries in their
    order, each a mapping from keys to strings. *)
Fixpoint load_tickers (data : list (string * gmap string string))
  : outcome (list string) :=
  match data with
  | [] => Return []
  | (_, entry) :: rest =>
      match entry !! "ticker" with
      | None => Raise (KeyError "ticker")
      | Some ticker =>
          match load_tickers rest with
          | Return tickers => Return (ticker :: tickers)
          | Raise exc => Raise exc
          end
      end
  end.

Definition passes (price_thresh mc_thresh vol_thresh p mc vol : float) : bool :=
  Py.lt 0.1 p && Py.lt p price_thresh
  && (Py.lt 100000 mc && Py.lt mc mc_thresh)
  && Py.le vol_thresh vol.

Fixpoint select_universe_candidates (results : list raw_result)
    (price_thresh mc_thresh vol_thresh : float) : list Candidate :=
  match results with
  | [] => []
  | (sym, Some p, Some mc, Some vol) :: rest =>
      if passes price_thresh mc_thresh vol_thresh p mc vol
      then mkCandidate sym p mc vol
           :: select_universe_candidates rest price_thresh mc_thresh vol_thresh
      else select_universe_candidates rest price_thresh mc_thresh vol_thresh
  | _ :: rest => select_universe_candidates rest price_thresh mc_thresh vol_thresh
  end.

(** The call with the default thresholds. *)
Definition select_default (results : list raw_result) : list Candidate :=
  select_universe_candidates results 7.0 50000000.0 5000.

(** A candidate as a row of results again. *)
Definition as_result (c : Candidate) : raw_result :=
  (symbol c, Some (price c), Some (market_cap c), Some (avg_volume c)).

(** The first loop of [build_low_float_universe]. *)
Fixpoint fetch_all (ib : Session) (lib : Library) (tickers : list string)
  : list message * list raw_result :=
  match tickers with
  | [] => ([], [])
  | sym :: rest =>
      if (4 <? len sym)%nat then fetch_all ib lib rest
      else
        let '(printed, (p, mc, vol)) := fetch_price_mc_volume_ib ib lib sym in
        let '(printed_rest, rows) := fetch_all ib lib rest in
        (SymbolLine sym :: printed ++ FetchedLine (sym, p, mc, vol) :: printed_rest,
         (sym, p, mc, vol) :: rows)
  end.

(** The second loop: the float of each candidate. *)
Fixpoint fetch_floats (ib : Session) (lib : Library) (rows : list Candidate)
  : list message * list (string * option float) :=
  match rows with
  | [] => ([], [])
  | row :: rest =>
      let '(printed, float_val) := fetch_float_shares_ib ib lib (symbol row) in
      let '(printed_rest, float_rows) := fetch_floats ib lib rest in
      (FetchingFloat (symbol row) :: printed ++ printed_rest,
       (symbol row, float_val) :: float_rows)
  end.

(** [build_low_float_universe] from the tickers loaded to the disconnection:
    what is printed, and the two tables (none when no stock meets the
    criteria). *)
Definition build_low_float_universe (ib : Session) (lib : Library)
    (tickers : list string)
  : list message * option (list Candidate * list (string * option float)) :=
  let '(printed, raw_results) := fetch_all ib lib tickers in
  let filtered := select_default raw_results in
  match filtered with
  | [] => (printed ++ [NoStocks; Disconnect], None)
  | _ =>
      let '(printed_floats, float_rows) := fetch_floats ib lib filtered in
      (printed ++ FilteredStocks filtered :: printed_floats ++ [Disconnect],
       Some (filtered, float_rows))
  end.

End Builder.

(** What a complete fetch for a candidate is: its contract qualified, its
    daily bars hold a last bar, whose close is the price, and an earlier bar
    with a volume, whose average is the volume, and its report holds a market
    cap text that converts, in millions. *)
Definition fetched_from (ib : Builder.Session) (lib : Builder.Library)
    (c : Builder.Candidate) : Prop :=
  exists q qs bars latest xml text cap,
    Builder.qualifyContracts ib (Builder.symbol c) = Builder.Return (q :: qs) /\
    Builder.reqHistoricalData ib (Builder.symbol c) = Builder.Return bars /\
    last bars = Some latest /\
    Builder.earlier_volumes bars <> [] /\
    Builder.price c = Builder.close latest /\
    Builder.avg_volume c
    = Builder.average_volume lib (Builder.earlier_volumes bars) /\
    Builder.reqFundamentalData ib (Builder.symbol c) = Builder.Return (Some xml) /\
    Builder.find_market_cap_text lib xml = Builder.Return (Some (Some text)) /\
    Builder.float_of_str lib text = Builder.Return cap /\
    Builder.market_cap c = (cap * 1000000)%float.

(* ===================================================================== *)
(** ** Concrete scenarios                                                 *)
(* ===================================================================== *)

(** A session in which the quote is tight, nothing was traded today and the
    broker accepts every order. *)
Definition calm_session : IB :=
  mkIB (fun _ => Py.Ok [])
       (fun _ => Py.Ok (mkTicker (Some 2.40%float) (Some 2.41%float)))
       (fun _ => Py.Ok [])
       (fun _ _ => Py.Ok tt)
       (fun _ => 50000).

Definition ABCD : Contract := Stock "ABCD" "SMART" "USD".

(** A bar that traded between 2.00 and 2.02, a bar without a price, and a
    bar whose low is negative. *)
Definition quiet_bar : BarData.t := BarData.make 2 2.02 2 2.01 500.
Definition empty_bar : BarData.t := BarData.make 0 0 0 0 0.
Definition negative_bar : BarData.t := BarData.make 1 2 (-1) 1 100.

Definition EFGH : Contract := Stock "EFGH" "SMART" "USD".

(** Six quiet bars, then a bar that opens at 2.00, reaches 2.40 and closes at
    2.30. *)
Definition breakout_bar : BarData.t := BarData.make 2 2.4 2 2.3 9000.

Definition breakout_session : IB :=
  mkIB (fun _ => Py.Ok [quiet_bar; quiet_bar; quiet_bar; quiet_bar; quiet_bar;
                        quiet_bar; breakout_bar])
       (fun _ => Py.Ok (mkTicker (Some 2.40%float) (Some 2.41%float)))
       (fun _ => Py.Ok ["EFGH"])
       (fun _ _ => Py.Ok tt)
       (fun _ => 50000).

(** A session in which the quote of the symbol has not arrived: the
    library's ticker then holds NaN on both sides.  The bars are those of the
    breakout and nothing was traded today. *)
Definition unquoted_session : IB :=
  mkIB (fun _ => Py.Ok [quiet_bar; quiet_bar; quiet_bar; quiet_bar; quiet_bar;
                        quiet_bar; breakout_bar])
       (fun _ => Py.Ok (mkTicker (Some nan) (Some nan)))
       (fun _ => Py.Ok [])
       (fun _ _ => Py.Ok tt)
       (fun _ => 50000).

(** A window that ends on a bar whose close is not a number. *)
Definition nan_close_bar : BarData.t := BarData.make 2 2.4 2 nan 9000.

Definition nan_close_session : IB :=
  mkIB (fun _ => Py.Ok [quiet_bar; nan_close_bar])
       (fun _ => Py.Ok (mkTicker (Some 2.40%float) (Some 2.41%float)))
       (fun _ => Py.Ok [])
       (fun _ _ => Py.Ok tt)
       (fun _ => 50000).

(** A session in which every request fails. *)
Definition lost_session : IB :=
  mkIB (fun _ => Py.Raise (Py.BrokerError 1100))
       (fun _ => Py.Raise (Py.BrokerError 1100))
       (fun _ => Py.Raise (Py.BrokerError 1100))
       (fun _ _ => Py.Raise (Py.BrokerError 1100))
       (fun _ => 50000).

(** Fifty-one contracts, one more than the semaphore has units, and the
    state after fifty of their tasks have entered the block: no unit is left
    and the last task waits. *)
Definition fifty_one_contracts : list Contract :=
  map (fun k =>
         Stock (String (Ascii.ascii_of_nat (65 + k / 26)%nat)
                  (String (Ascii.ascii_of_nat (65 + k mod 26)%nat) EmptyString))
           "SMART" "USD")
    (seq 0 51).

Definition saturated : Limiter.state :=
  Limiter.mkState 0 (replicate 50 (Limiter.Inside 0) ++ replicate 1 Limiter.Waiting) [].

(** The end of a scan of two contracts whose tasks took turns: both place
    an order, then the second prints and leaves, then the first. *)
Definition IJKL : Contract := Stock "IJKL" "SMART" "USD".

Definition interleaved_scan : Limiter.state :=
  Limiter.mkState 50
    [Limiter.Released (Py.Ok tt); Limiter.Released (Py.Ok tt)]
    [(0%nat, PlaceOrder ABCD (mkStopLimitOrder "BUY" 4 2.45 2.59 true "GTD" 35760));
     (1%nat, PlaceOrder IJKL (mkStopLimitOrder "BUY" 4 2.45 2.59 true "GTD" 35760));
     (1%nat, PrintEntry "IJKL" 4 2.45 2.59);
     (0%nat, PrintEntry "ABCD" 4 2.45 2.59)].

(** Rows fetched for four symbols: one that passes every default threshold,
    one too dear, one without a market cap, one whose volume is not a
    number. *)
Definition sample_results : list Builder.raw_result :=
  [ ("ABCD"%string, Some 2.0%float, Some 2500000%float, Some 7500%float);
    ("DEAR"%string, Some 6.5%float, Some 45000000%float, Some 5500%float);
    ("NOMC"%string, Some 2.0%float, None, Some 7500%float);
    ("NANV"%string, Some 2.0%float, Some 2500000%float, Some PrimFloat.nan) ].

(** A library that reads two numbers and finds both entries in the report
    called "report", and a session that knows every symbol but QQQQ, with two
    daily bars and that report, or a single bar for WXYZ.  The tickers: two
    of four characters, one of them not ASCII (five bytes), the one with a
    single bar, the unknown one, and one of five characters. *)
Definition sample_library : Builder.Library :=
  Builder.mkLibrary
    (fun volumes => fold_left PrimFloat.add volumes 0%float)
    (fun text =>
       if String.eqb text "2.5" then Builder.Return 2.5%float
       else if String.eqb text "1200000" then Builder.Return 1200000%float
       else Builder.Raise Builder.ValueError)
    (fun xml =>
       if String.eqb xml "report" then Builder.Return (Some (Some "2.5"%string))
       else Builder.Raise Builder.ParseError)
    (fun xml =>
       if String.eqb xml "report" then Builder.Return (Some (Some "1200000"%string))
       else Builder.Raise Builder.ParseError).

Definition sample_session : Builder.Session :=
  Builder.mkSession
    (fun sym =>
       if String.eqb sym "QQQQ" then Builder.Return []
       else Builder.Return [sym])
    (fun sym =>
       if String.eqb sym "WXYZ"
       then Builder.Return [Builder.mkDailyBar 2.0 (Some 9000%float)]
       else Builder.Return [Builder.mkDailyBar 1.9 (Some 6000%float);
                            Builder.mkDailyBar 2.0 (Some 9000%float)])
    (fun sym => Builder.Return (Some "report"%string)).

Definition sample_tickers : list string :=
  ["ABCD"; "ÅBCD"; "WXYZ"; "QQQQ"; "ABCDE"]%string.

(* ===================================================================== *)
(** ** Facts about the Python layer                                       *)
(* ===================================================================== *)

(** A float that compares equal to zero is one of the two zeros. *)
Lemma eqb_zero_inv (x : float) :
  PrimFloat.eqb x 0 = true -> exists s, Prim2SF x = S754_zero s.
Proof.
  rewrite FloatAxioms.eqb_spec.
  change (Prim2SF 0) with (S754_zero false).
  destruct (Prim2SF x) as [s| s | |s m e]; try discriminate.
  - intros _. now exists s.
  - destruct s; discriminate.
  - destruct s; discriminate.
Qed.

Lemma truthy_false_inv (x : float) :
  Py.truthy x = false -> exists s, Prim2SF x = S754_zero s.
Proof.
  unfold Py.truthy. intros H. apply eqb_zero_inv.
  now destruct (PrimFloat.eqb x 0).
Qed.

(** Zero divided by anything, times one hundred, is a zero or NaN: its
    floor, when it has one, is [0]. *)
Lemma floor_of_zero_ratio (h l : float) (s : bool) :
  Prim2SF h = S754_zero s ->
  Py.math_floor (h / l * 100) = Py.Ok 0 \/
  Py.math_floor (h / l * 100) = Py.Raise Py.ValueError.
Proof.
  intros Hh. unfold Py.math_floor.
  rewrite mul_spec, div_spec, Hh.
  change (Prim2SF 100) with (S754_finite false 7036874417766400 (-46)).
  destruct (Prim2SF l) as [sl| sl | |sl ml el]; cbn; auto.
Qed.

Lemma bar_range_ratio_zero_high (h l : float) :
  Py.truthy h = false ->
  bar_range_ratio h l = Py.Ok 0%float \/ exists e, bar_range_ratio h l = Py.Raise e.
Proof.
  intros Hh. apply truthy_false_inv in Hh as [s Hs].
  unfold bar_range_ratio, Py.truediv.
  destruct (PrimFloat.eqb l 0); cbn.
  - right. eauto.
  - destruct (floor_of_zero_ratio h l s Hs) as [-> | ->]; cbn.
    + left. reflexivity.
    + right. eauto.
Qed.

(** Equality of floats excludes strict order. *)
Lemma SFcompare_Eq_sym (x y : spec_float) :
  SFcompare x y = Some Eq -> SFcompare y x = Some Eq.
Proof.
  destruct x as [sx|sx| |sx mx ex], y as [sy|sy| |sy my ey]; cbn;
    try discriminate; try (destruct sx, sy; cbn; congruence);
    try (destruct sx; discriminate); try (destruct sy; discriminate).
  destruct sx, sy; try discriminate;
    destruct (ex ?= ey) eqn:He; try discriminate;
    apply Z.compare_eq in He; subst ey; rewrite Z.compare_refl;
    intros H; injection H as H.
  - apply CompOpp_iff in H. cbn in H. apply Pos.compare_eq in H. subst.
    now rewrite Pos.compare_refl.
  - apply Pos.compare_eq in H. subst. now rewrite Pos.compare_refl.
Qed.

Lemma eqb_not_ltb (v c : float) :
  PrimFloat.eqb v c = true -> PrimFloat.ltb c v = false.
Proof.
  rewrite FloatAxioms.eqb_spec, ltb_spec. unfold SFeqb, SFltb.
  destruct (SFcompare (Prim2SF v) (Prim2SF c)) as [[]|] eqn:Hc; try discriminate.
  intros _. now rewrite (SFcompare_Eq_sym _ _ Hc).
Qed.

Lemma SFcompare_rank (x y : spec_float) :
  x <> S754_nan -> y <> S754_nan ->
  match SFcompare x y with
  | Some Lt => lex_lt (rank x) (rank y)
  | Some Eq => rank x = rank y
  | Some Gt => lex_lt (rank y) (rank x)
  | None => False
  end.
Proof.
  intros Hx Hy.
  destruct x as [sx|sx| |sx mx ex], y as [sy|sy| |sy my ey]; try congruence;
    try (destruct sx); try (destruct sy); cbn; try lia; try reflexivity.
  - destruct (Z.compare_spec ex ey); [subst| |]; try lia.
    change (Pos.compare_cont Eq mx my) with (Pos.compare mx my).
    destruct (Pos.compare_spec mx my); cbn; [subst; reflexivity| |]; lia.
  - destruct (Z.compare_spec ex ey); [subst| |]; try lia.
    change (Pos.compare_cont Eq mx my) with (Pos.compare mx my).
    destruct (Pos.compare_spec mx my); cbn; [subst; reflexivity| |]; lia.
Qed.

Lemma is_number_not_nan (x : float) :
  Py.is_number x = true -> Prim2SF x <> S754_nan.
Proof.
  unfold Py.is_number. rewrite FloatAxioms.eqb_spec. intros H Hn.
  rewrite Hn in H. discriminate.
Qed.

Lemma ltb_rank (x y : float) :
  Py.is_number x = true -> Py.is_number y = true ->
  PrimFloat.ltb x y = true <-> lex_lt (rank (Prim2SF x)) (rank (Prim2SF y)).
Proof.
  intros Hx%is_number_not_nan Hy%is_number_not_nan.
  rewrite ltb_spec. unfold SFltb.
  pose proof (SFcompare_rank _ _ Hx Hy) as H.
  destruct (SFcompare (Prim2SF x) (Prim2SF y)) as [[]|]; try contradiction.
  - split; [discriminate|]. rewrite H. generalize (rank (Prim2SF y)). intros p Hp.
    exfalso. lex_solve.
  - tauto.
  - split; [discriminate|]. revert H.
    generalize (rank (Prim2SF x)) (rank (Prim2SF y)). intros p q H1 H2.
    exfalso. lex_solve.
Qed.

Lemma leb_rank (x y : float) :
  Py.is_number x = true -> Py.is_number y = true ->
  PrimFloat.leb x y = true <-> lex_le (rank (Prim2SF x)) (rank (Prim2SF y)).
Proof.
  intros Hx%is_number_not_nan Hy%is_number_not_nan.
  rewrite leb_spec. unfold SFleb.
  pose proof (SFcompare_rank _ _ Hx Hy) as H.
  destruct (SFcompare (Prim2SF x) (Prim2SF y)) as [[]|]; try contradiction.
  - split; [|reflexivity]. intros _. now right.
  - split; [|reflexivity]. intros _. now left.
  - split; [discriminate|]. revert H.
    generalize (rank (Prim2SF x)) (rank (Prim2SF y)). intros p q H1 H2.
    exfalso. lex_solve.
Qed.

Lemma lex_le_trans (p q r : Z * Z * Z) : lex_le p q -> lex_le q r -> lex_le p r.
Proof.
  intros H1 H2. unfold lex_le in *.
  destruct H1 as [H1 | ->]; [|assumption].
  destruct H2 as [H2 | ->]; [|now left].
  left. lex_solve.
Qed.

Lemma lex_total (p q : Z * Z * Z) : lex_lt p q \/ lex_le q p.
Proof.
  destruct p as [[a b] c], q as [[d e] f]. unfold lex_le, lex_lt.
  destruct (Z.lt_total a d) as [?|[?|?]]; [lia| |lia].
  destruct (Z.lt_total b e) as [?|[?|?]]; [lia| |lia].
  destruct (Z.lt_total c f) as [?|[?|?]]; [lia| |lia].
  right. right. now subst.
Qed.

Section FloatOrder.

Variables x y z : float.
Hypothesis number_x : Py.is_number x = true.
Hypothesis number_y : Py.is_number y = true.
Hypothesis number_z : Py.is_number z = true.

Lemma float_leb_refl : PrimFloat.leb x x = true.
Proof. apply leb_rank; [assumption..|]. now right. Qed.

Lemma float_leb_trans :
  PrimFloat.leb x y = true -> PrimFloat.leb y z = true -> PrimFloat.leb x z = true.
Proof.
  rewrite !leb_rank by assumption. apply lex_le_trans.
Qed.

Lemma float_ltb_leb : PrimFloat.ltb x y = true -> PrimFloat.leb x y = true.
Proof.
  rewrite ltb_rank, leb_rank by assumption. intros H. now left.
Qed.

Lemma float_not_ltb_leb : PrimFloat.ltb x y = false -> PrimFloat.leb y x = true.
Proof.
  intros H. apply leb_rank; [assumption..|].
  destruct (lex_total (rank (Prim2SF x)) (rank (Prim2SF y))) as [Hlt | Hle];
    [|assumption].
  apply ltb_rank in Hlt; [congruence|assumption..].
Qed.

End FloatOrder.

(* ===================================================================== *)
(** ** The breakout rule                                                  *)
(* ===================================================================== *)

Lemma eff_bind_lift_ok {A B} (a : A) (k : A -> eff B) :
  (lift (Py.Ok a) ≫= k) = k a.
Proof. cbv [mbind eff_mbind eff_bind lift]. now destruct (k a). Qed.

(** The [try] block is the decision followed by its action. *)
Lemma trade_on_features_act (ib : IB) (c : Contract) (f : Features) :
  trade_on_features ib c f = (lift (breakout_decision f) ≫= act ib c).
Proof.
  unfold trade_on_features, breakout_decision.
  destruct (negb (Py.truthy (high_price f)) || negb (Py.truthy (low_price f))).
  { now rewrite eff_bind_lift_ok. }
  destruct (bar_range_ratio (high_price f) (low_price f)) as [r|e].
  2:{ reflexivity. }
  rewrite eff_bind_lift_ok. cbn [mbind result_bind Py.rbind mret result_ret].
  repeat match goal with
         | |- context [if ?b then _ else _] => destruct b
         end; now rewrite eff_bind_lift_ok.
Qed.

Lemma spec_ratio_code (f : Features) :
  Spec.barRangeRatio f =
  match bar_range_ratio (high_price f) (low_price f) with
  | Py.Ok r => Some r
  | Py.Raise _ => None
  end.
Proof.
  unfold Spec.barRangeRatio, bar_range_ratio, Py.truediv.
  destruct (PrimFloat.eqb (low_price f) 0); [reflexivity|].
  cbn. destruct (Py.math_floor _); [|reflexivity].
  cbn. now destruct (Py.int_truediv _ _).
Qed.

Lemma decision_reference_rule (f : Features) :
  decision f = Spec.reference_rule f.
Proof.
  unfold decision, breakout_decision, Spec.reference_rule.
  rewrite spec_ratio_code.
  unfold Py.le, Py.gt, Py.lt.
  destruct (Py.truthy (low_price f)) eqn:Hl; unfold Py.truthy in Hl.
  2:{ destruct (PrimFloat.eqb (low_price f) 0); [|discriminate].
      rewrite orb_true_r. reflexivity. }
  destruct (PrimFloat.eqb (low_price f) 0); [discriminate|].
  destruct (Py.truthy (high_price f)) eqn:Hh; cbn [negb orb].
  - destruct (bar_range_ratio _ _) as [r|e]; cbn.
    + repeat match goal with
             | |- context [if ?b then _ else _] => destruct b; cbn
             end; reflexivity.
    + repeat match goal with
             | |- context [if ?b then _ else _] => destruct b; cbn
             end; reflexivity.
  - destruct (bar_range_ratio_zero_high _ (low_price f) Hh) as [-> | [e ->]]; cbn.
    + repeat match goal with
             | |- context [if ?b then _ else _] => destruct b; cbn
             end; reflexivity.
    + repeat match goal with
             | |- context [if ?b then _ else _] => destruct b; cbn
             end; reflexivity.
Qed.

Lemma orders_of_app (xs ys : list event) :
  orders_of (xs ++ ys) = orders_of xs ++ orders_of ys.
Proof. unfold orders_of. apply flat_map_app. Qed.

(** The handler prints and places nothing. *)
Lemma orders_of_try_except (c : Contract) (m : eff unit) :
  orders_of (events (try_except m (report_error c))) = orders_of (events m).
Proof.
  destruct m as [evs [[]|e]]; cbn; [reflexivity|].
  rewrite orders_of_app. cbn. apply app_nil_r.
Qed.

Lemma orders_of_trade (ib : IB) (c : Contract) (f : Features) :
  orders_of (events (trade_on_features ib c f))
  = orders_of (events (act ib c (decision f))).
Proof.
  rewrite trade_on_features_act. unfold decision.
  destruct (breakout_decision f) as [d|e].
  - now rewrite eff_bind_lift_ok.
  - reflexivity.
Qed.

Example boundary_110_is_mild :
  decision (mkFeatures 1 1.1 1 1.05 1000 1 1) = Enter Mild 1.1
  /\ decision (mkFeatures 1 1.1 1 1.05 1000 1 1.03) = NoTrade
  /\ bar_range_ratio 1.1 1 = Py.Ok 1.10%float
  /\ bar_range_ratio 11 10 = Py.Ok 1.10%float.
Proof. vm_compute. auto. Qed.

Example strong_breakout :
  decision (mkFeatures 2 2.4 2 2.3 1000 1.01 1.2) = Enter Strong 2.4
  /\ decision (mkFeatures 2 2.4 2 2 1000 1.01 1.2) = NoTrade
  /\ decision (mkFeatures 2 2.4 2 2.3 1000 1.06 1.2) = NoTrade
  /\ decision (mkFeatures 5 6 5 5.5 1000 1.01 1.2) = NoTrade.
Proof. vm_compute. auto. Qed.

(** C1: the decision taken for a feature vector is the one the reference
    rule gives: NoTrade when low is zero, or close <= open, or the truncated
    bar range ratio exceeds 1.30, or the previous bar's ratio exceeds 1.05,
    or close > 5.0; otherwise Enter Strong at the high when the ratio is
    strictly between 1.10 and 1.30, else Enter Mild at the high when the
    ratio exceeds 1.05 and the last-five ratio is below 1.03, else NoTrade.
    The orders placed when the features are evaluated are those of acting on
    the rule's decision, and a ratio equal to 1.10 never yields Strong. *)
Theorem breakout_classification_is_reference_rule :
  (forall f : Features, decision f = Spec.reference_rule f) /\
  (forall (ib : IB) (c : Contract) (f : Features),
      orders_of (events (try_except (trade_on_features ib c f) (report_error c)))
      = orders_of (events (act ib c (Spec.reference_rule f)))) /\
  (forall f : Features,
      Spec.holds (fun v => PrimFloat.eqb v 1.10) (Spec.barRangeRatio f)
      && is_strong (decision f) = false).
Proof.
  split; [exact decision_reference_rule|]. split.
  - intros ib c f.
    now rewrite orders_of_try_except, orders_of_trade, decision_reference_rule.
  - intros f. rewrite decision_reference_rule. unfold Spec.reference_rule.
    destruct (Spec.barRangeRatio f) as [r|]; cbn [Spec.holds]; [|reflexivity].
    destruct (PrimFloat.eqb r 1.10) eqn:Hr; [|reflexivity].
    apply eqb_not_ltb in Hr. rewrite Hr. cbn.
    match goal with
    | |- context [if ?b then NoTrade else _] => destruct b; [reflexivity|]
    end.
    now destruct (_ && _).
Qed.

(** C8: the bar range ratio is truncated to two decimals, not rounded: for
    high = 1.299 and low = 1.0 it is 1.29, which is not 1.30, although
    rounding the same quotient to two decimals gives 1.30. *)
Theorem truncation_law :
  bar_range_ratio 1.299 1.0 = Py.Ok 1.29%float /\
  PrimFloat.eqb 1.29 1.30 = false /\
  Py.math_floor (1.299 / 1.0 * 100) = Py.Ok 129 /\
  Py.round2 (1.299 / 1.0) = 1.30%float.
Proof. vm_compute. auto. Qed.

(* ===================================================================== *)
(** ** The volume is not read                                             *)
(* ===================================================================== *)

Lemma same_but_volume_trade (ib : IB) (c : Contract) (f g : Features) :
  same_but_volume f g -> trade_on_features ib c f = trade_on_features ib c g.
Proof.
  intros (Ho & Hh & Hl & Hc & Hp & H5).
  unfold trade_on_features. now rewrite Ho, Hh, Hl, Hc, Hp, H5.
Qed.

Lemma same_but_volume_decision (f g : Features) :
  same_but_volume f g -> decision f = decision g.
Proof.
  intros (Ho & Hh & Hl & Hc & Hp & H5).
  unfold decision, breakout_decision. now rewrite Ho, Hh, Hl, Hc, Hp, H5.
Qed.

(** C9: two feature vectors that differ only in the volume get the same
    decision, and evaluating them emits the same events (the same orders
    with the same parameters, the same printed lines) and ends the same
    way, whatever the broker answers. *)
Theorem volume_independence (f g : Features) (H : same_but_volume f g) :
  decision f = decision g /\
  (forall (ib : IB) (c : Contract),
      try_except (trade_on_features ib c f) (report_error c)
      = try_except (trade_on_features ib c g) (report_error c)) /\
  (forall (ib : IB) (c : Contract),
      orders_of (events (trade_on_features ib c f))
      = orders_of (events (trade_on_features ib c g))).
Proof.
  split; [now apply same_but_volume_decision|].
  split; intros ib c; now rewrite (same_but_volume_trade ib c f g H).
Qed.

Lemma volume_independence_witness :
  decision (mkFeatures 2 2.4 2 2.3 1000 1.01 1.2)
  = decision (mkFeatures 2 2.4 2 2.3 7 1.01 1.2) /\
  orders_of (events (trade_on_features calm_session ABCD
                       (mkFeatures 2 2.4 2 2.3 1000 1.01 1.2)))
  = [(ABCD,
      mkStopLimitOrder "BUY" 4 2.45 2.59 true "GTD" 35760)].
Proof.
  pose proof (volume_independence
                (mkFeatures 2 2.4 2 2.3 1000 1.01 1.2)
                (mkFeatures 2 2.4 2 2.3 7 1.01 1.2)) as H.
  split.
  - apply H. repeat split.
  - vm_compute. reflexivity.
Defined.

(* ===================================================================== *)
(** ** Feature extraction                                                 *)
(* ===================================================================== *)

Lemma range_ratio_or_one_value (hi lo : float) :
  range_ratio_or_one hi lo
  = Py.Ok (if Py.truthy lo then (hi / lo)%float else 1%float).
Proof.
  unfold range_ratio_or_one, Py.truediv, Py.truthy.
  now destruct (PrimFloat.eqb lo 0).
Qed.

Lemma getitem_last {A} (xs : list A) (x : A) :
  Py.getitem_neg (xs ++ [x]) 1 = Py.Ok x.
Proof. unfold Py.getitem_neg. now rewrite rev_app_distr. Qed.

Lemma getitem_last_but_one {A} (xs : list A) (x y : A) :
  Py.getitem_neg (xs ++ [x; y]) 2 = Py.Ok x.
Proof. unfold Py.getitem_neg. now rewrite rev_app_distr. Qed.

(** [bars[-6:-1]] is the five bars before the last one. *)
Lemma slice_last_five {A} (older w : list A) (latest : A) :
  length w = 5%nat ->
  Py.slice (older ++ w ++ [latest]) (-6) (-1) = w.
Proof.
  intros Hw. unfold Py.slice, Py.clip.
  rewrite !length_app, Hw. cbn [length].
  replace (-6 <? 0) with true by reflexivity.
  replace (-1 <? 0) with true by reflexivity.
  replace (Z.to_nat (Z.max (-6 + Z.of_nat (length older + (5 + 1))) 0))
    with (length older) by lia.
  replace (Z.to_nat (Z.max (-1 + Z.of_nat (length older + (5 + 1))) 0
                     - Z.max (-6 + Z.of_nat (length older + (5 + 1))) 0))
    with (length w) by lia.
  now rewrite drop_app_length, take_app_length.
Qed.

(** Every window of two to five bars is some bars (three at most), then the
    previous bar, then the latest one; every window of six bars or more is
    some bars, then four bars, then the previous bar, then the latest one. *)
Lemma short_window_shape (bars : list BarData.t) :
  (2 <= length bars <= 5)%nat ->
  exists older prev latest,
    bars = older ++ [prev; latest] /\ (length older <= 3)%nat.
Proof.
  intros Hlen.
  pose proof (take_drop (length bars - 2) bars) as Hsplit.
  assert (Hrest : length (drop (length bars - 2) bars) = 2%nat)
    by (rewrite length_drop; lia).
  destruct (drop (length bars - 2) bars) as [|prev [|latest [|]]];
    try discriminate.
  exists (take (length bars - 2) bars), prev, latest. split; [now symmetry|].
  rewrite length_take. lia.
Qed.

Lemma long_window_shape (bars : list BarData.t) :
  (6 <= length bars)%nat ->
  exists older w prev latest,
    bars = older ++ (w ++ [prev]) ++ [latest] /\ length w = 4%nat.
Proof.
  intros Hlen.
  pose proof (take_drop (length bars - 6) bars) as Hsplit.
  assert (Hrest : length (drop (length bars - 6) bars) = 6%nat)
    by (rewrite length_drop; lia).
  destruct (drop (length bars - 6) bars)
    as [|a [|b [|c [|d [|prev [|latest [|]]]]]]]; try discriminate.
  exists (take (length bars - 6) bars), [a; b; c; d], prev, latest.
  split; [now symmetry|reflexivity].
Qed.

(** Two to five bars. *)
Lemma features_short (older : list BarData.t) (prev latest : BarData.t) :
  (length older <= 3)%nat ->
  features_of_bars (older ++ [prev; latest])
  = Py.Ok (mkFeatures (BarData.open latest) (BarData.high latest)
             (BarData.low latest) (BarData.close latest) (BarData.volume latest)
             (if Py.truthy (BarData.low prev)
              then (BarData.high prev / BarData.low prev)%float else 1%float)
             1).
Proof.
  intros Hlen. unfold features_of_bars.
  rewrite bool_decide_eq_false_2 by (now destruct older).
  replace (older ++ [prev; latest]) with ((older ++ [prev]) ++ [latest])
    by now rewrite <- app_assoc.
  rewrite getitem_last. cbn [mbind result_bind Py.rbind].
  rewrite bool_decide_eq_false_2 by (rewrite !length_app; cbn; lia).
  rewrite <- app_assoc. cbn [app].
  rewrite getitem_last_but_one. cbn [mbind result_bind Py.rbind].
  rewrite bool_decide_eq_true_2 by (rewrite length_app; cbn; lia).
  now rewrite range_ratio_or_one_value.
Qed.

(** For a low that is not negative (and not NaN), "positive" and "not zero"
    are the same test. *)
Lemma positive_iff_truthy (x : float) :
  PrimFloat.leb 0 x = true -> PrimFloat.ltb 0 x = Py.truthy x.
Proof.
  unfold Py.truthy.
  rewrite leb_spec, ltb_spec, FloatAxioms.eqb_spec. unfold SFleb, SFltb, SFeqb.
  destruct (SFcompare (Prim2SF 0) (Prim2SF x)) as [[]|] eqn:H0;
    try discriminate; intros _.
  - now rewrite (SFcompare_Eq_sym _ _ H0).
  - destruct (SFcompare (Prim2SF x) (Prim2SF 0)) as [[]|] eqn:H1; try reflexivity.
    apply SFcompare_Eq_sym in H1. congruence.
Qed.

Example features_of_one_bar :
  features_of_bars [quiet_bar] = Py.Ok (mkFeatures 2 2.02 2 2.01 500 1 1).
Proof. reflexivity. Qed.

Example features_of_two_bars_zero_low :
  features_of_bars [empty_bar; quiet_bar] = Py.Ok (mkFeatures 2 2.02 2 2.01 500 1 1).
Proof. vm_compute. reflexivity. Qed.

(** C2, as the code has it: an empty window gives zeros for the five
    price and volume fields, 0 for the previous bar's ratio and 1 for the
    last-five ratio; a single bar gives its OHLCV with both ratios 1.0; two to
    five bars give the last bar's OHLCV, the last-five ratio 1.0 and, for the
    previous bar's ratio, its high over its low when that low is not zero,
    else 1.0.  For a previous low that is not negative this is the rule
    "high / low when low > 0, else 1.0". *)
Theorem features_of_short_window :
  features_of_bars [] = Py.Ok (mkFeatures 0 0 0 0 0 0 1) /\
  (forall b : BarData.t,
      features_of_bars [b]
      = Py.Ok (mkFeatures (BarData.open b) (BarData.high b) (BarData.low b)
                 (BarData.close b) (BarData.volume b) 1 1)) /\
  (forall bars : list BarData.t,
      (2 <= length bars <= 5)%nat ->
      exists prev latest,
        Py.getitem_neg bars 2 = Py.Ok prev /\
        Py.getitem_neg bars 1 = Py.Ok latest /\
        features_of_bars bars
        = Py.Ok (mkFeatures (BarData.open latest) (BarData.high latest)
                   (BarData.low latest) (BarData.close latest)
                   (BarData.volume latest)
                   (if Py.truthy (BarData.low prev)
                    then (BarData.high prev / BarData.low prev)%float
                    else 1%float)
                   1)) /\
  (forall prev : BarData.t,
      PrimFloat.leb 0 (BarData.low prev) = true ->
      (if Py.truthy (BarData.low prev)
       then (BarData.high prev / BarData.low prev)%float else 1%float)
      = Spec.prevBarRangeRatio prev).
Proof.
  split; [reflexivity|]. split; [reflexivity|]. split.
  - intros bars Hlen.
    destruct (short_window_shape bars Hlen) as (older & prev & latest & -> & Holder).
    exists prev, latest. split; [apply getitem_last_but_one|]. split.
    + replace (older ++ [prev; latest]) with ((older ++ [prev]) ++ [latest])
        by (now rewrite <- app_assoc).
      apply getitem_last.
    + now apply features_short.
  - intros prev Hlow. unfold Spec.prevBarRangeRatio.
    now rewrite (positive_iff_truthy _ Hlow).
Qed.

Lemma features_of_short_window_witness :
  exists prev latest,
    Py.getitem_neg [quiet_bar; breakout_bar] 2 = Py.Ok prev /\
    Py.getitem_neg [quiet_bar; breakout_bar] 1 = Py.Ok latest /\
    features_of_bars [quiet_bar; breakout_bar]
    = Py.Ok (mkFeatures (BarData.open latest) (BarData.high latest)
               (BarData.low latest) (BarData.close latest)
               (BarData.volume latest)
               (if Py.truthy (BarData.low prev)
                then (BarData.high prev / BarData.low prev)%float
                else 1%float)
               1).
Proof.
  apply (proj1 (proj2 (proj2 features_of_short_window)) [quiet_bar; breakout_bar]).
  cbn. lia.
Defined.

Example features_of_two_bars :
  features_of_bars [quiet_bar; breakout_bar]
  = Py.Ok (mkFeatures 2 2.4 2 2.3 9000 1.01 1).
Proof. vm_compute. reflexivity. Qed.

(** C2 as stated fails for a previous bar whose low is negative: the ratio
    returned is high / low = -2, where "low > 0, else 1.0" asks for 1.0. *)
Lemma previous_low_negative :
  features_of_bars [negative_bar; quiet_bar]
  = Py.Ok (mkFeatures 2 2.02 2 2.01 500 (-2) 1) /\
  Spec.prevBarRangeRatio negative_bar = 1%float /\
  PrimFloat.eqb (-2) 1 = false.
Proof. vm_compute. auto. Qed.

(** *** Six bars or more *)

Lemma filter_truthy_none (w : list BarData.t) :
  Forall (fun bar => Py.truthy (BarData.low bar) = false) w ->
  filter (fun bar => Is_true (Py.truthy (BarData.low bar))) w = [].
Proof.
  induction 1 as [|bar w Hbar _ IH]; [reflexivity|].
  rewrite filter_cons_False; [exact IH|]. now rewrite Hbar.
Qed.

Lemma max_of_nonempty (x : float) (xs : list float) :
  exists m, Py.max_of (x :: xs) = Py.Ok m.
Proof. eexists. reflexivity. Qed.

(** The head of [features_of_bars] on six bars or more: everything up to the
    computation over the recent window. *)
Lemma features_long (older w : list BarData.t) (prev latest : BarData.t) :
  length w = 4%nat ->
  features_of_bars (older ++ (w ++ [prev]) ++ [latest])
  = (max_price ← Py.max_of (map BarData.high (w ++ [prev]));
     min_price ← Py.min_of
                   (map BarData.low
                      (filter (fun bar => Is_true (Py.truthy (BarData.low bar)))
                         (w ++ [prev])));
     prev_ratio ← range_ratio_or_one (BarData.high prev) (BarData.low prev);
     last_five ← range_ratio_or_one max_price min_price;
     mret (mkFeatures (BarData.open latest) (BarData.high latest)
             (BarData.low latest) (BarData.close latest)
             (BarData.volume latest) prev_ratio last_five)).
Proof.
  intros Hw. unfold features_of_bars.
  rewrite slice_last_five by (rewrite length_app; cbn; lia).
  rewrite bool_decide_eq_false_2
    by (intros H; apply (f_equal length) in H; rewrite !length_app in H;
        cbn in H; lia).
  rewrite (app_assoc older). rewrite getitem_last.
  cbn [mbind result_bind Py.rbind].
  rewrite bool_decide_eq_false_2 by (rewrite !length_app; cbn; lia).
  replace ((older ++ w ++ [prev]) ++ [latest])
    with ((older ++ w) ++ [prev; latest])
    by (now rewrite <- !app_assoc).
  rewrite getitem_last_but_one. cbn [mbind result_bind Py.rbind].
  rewrite bool_decide_eq_false_2 by (rewrite !length_app; cbn; lia).
  reflexivity.
Qed.

Lemma fold_pick_elem (better : float -> float -> bool) (rest : list float) (x : float) :
  fold_left (fun best item => if better item best then item else best) rest x
  ∈ x :: rest.
Proof.
  revert x. induction rest as [|y rest IH]; intros x; cbn.
  - apply list_elem_of_here.
  - specialize (IH (if better y x then y else x)).
    apply elem_of_cons in IH as [-> | IH].
    + destruct (better y x); [apply list_elem_of_further|]; apply list_elem_of_here.
    + now do 2 apply list_elem_of_further.
Qed.

Lemma min_of_elem (xs : list float) (m : float) :
  Py.min_of xs = Py.Ok m -> m ∈ xs.
Proof.
  destruct xs as [|x rest]; [discriminate|].
  intros [= <-]. apply fold_pick_elem.
Qed.

(** When one of the five bars has a low that is not zero, the last-five
    ratio is the greatest high over the least such low. *)
Lemma last_five_with_low (older w : list BarData.t) (prev latest : BarData.t) :
  length w = 4%nat ->
  Exists (fun bar => Py.truthy (BarData.low bar) = true) (w ++ [prev]) ->
  exists max_price min_price,
    Py.max_of (map BarData.high (w ++ [prev])) = Py.Ok max_price /\
    Py.min_of (map BarData.low
                 (filter (fun bar => Is_true (Py.truthy (BarData.low bar)))
                    (w ++ [prev]))) = Py.Ok min_price /\
    features_of_bars (older ++ (w ++ [prev]) ++ [latest])
    = Py.Ok (mkFeatures (BarData.open latest) (BarData.high latest)
               (BarData.low latest) (BarData.close latest)
               (BarData.volume latest)
               (if Py.truthy (BarData.low prev)
                then (BarData.high prev / BarData.low prev)%float else 1%float)
               (max_price / min_price)%float).
Proof.
  intros Hw Hex. rewrite features_long by assumption.
  destruct (map BarData.high (w ++ [prev])) as [|h hs] eqn:Hhs.
  { destruct w; discriminate. }
  destruct (max_of_nonempty h hs) as [mx Hmx]. rewrite Hmx.
  apply Exists_exists in Hex as (bar & Hin & Hbar).
  assert (Hf : BarData.low bar ∈
               map BarData.low
                 (filter (fun bar => Is_true (Py.truthy (BarData.low bar)))
                    (w ++ [prev]))).
  { apply list_elem_of_fmap_2. apply list_elem_of_filter. split.
    - now rewrite Hbar.
    - exact Hin. }
  destruct (map BarData.low _) as [|l ls] eqn:Hls.
  { now apply elem_of_nil in Hf. }
  destruct (Py.min_of (l :: ls)) as [mn|e] eqn:Hmn; [|discriminate].
  exists mx, mn. split; [reflexivity|]. split; [reflexivity|].
  cbn [mbind result_bind Py.rbind].
  rewrite !range_ratio_or_one_value. cbn [mbind result_bind Py.rbind mret result_ret].
  assert (Hmn' : Py.truthy mn = true).
  { apply min_of_elem in Hmn. rewrite <- Hls in Hmn.
    apply list_elem_of_fmap in Hmn as (b & -> & Hb).
    apply list_elem_of_filter in Hb as [Hb _]. now apply Is_true_eq_true. }
  now rewrite Hmn'.
Qed.

Example features_of_seven_bars :
  features_of_bars [quiet_bar; empty_bar; quiet_bar; quiet_bar;
                    BarData.make 2 2.1 1.9 2 100; quiet_bar; quiet_bar]
  = Py.Ok (mkFeatures 2 2.02 2 2.01 500 1.01 (2.1 / 1.9)).
Proof. vm_compute. reflexivity. Qed.

(** When none of the five bars before the last has a low other than zero,
    the minimum is taken over nothing and the extraction raises
    [ValueError]; the guard on [min_price] that would give 1.0 is not
    reached. *)
Lemma last_five_without_low_raises
    (older w : list BarData.t) (prev latest : BarData.t) :
  length w = 4%nat ->
  Forall (fun bar => Py.truthy (BarData.low bar) = false) (w ++ [prev]) ->
  features_of_bars (older ++ (w ++ [prev]) ++ [latest]) = Py.Raise Py.ValueError.
Proof.
  intros Hw Hall. rewrite features_long by assumption.
  rewrite (filter_truthy_none _ Hall).
  destruct w as [|a w]; [discriminate|]. reflexivity.
Qed.

(** *** The greatest high and the least low *)

Lemma fold_max_bound (rest : list float) (best : float) :
  Py.is_number best = true ->
  Forall (fun x => Py.is_number x = true) rest ->
  let r := fold_left (fun best item => if Py.gt item best then item else best)
             rest best in
  Py.is_number r = true /\ PrimFloat.leb best r = true /\
  forall x, x ∈ rest -> PrimFloat.leb x r = true.
Proof.
  intros Hbest Hrest. revert best Hbest.
  induction Hrest as [|item rest Hitem _ IH]; intros best Hbest; cbn.
  - split; [assumption|]. split; [now apply float_leb_refl|].
    intros x []%elem_of_nil.
  - set (best' := if Py.gt item best then item else best).
    assert (Hbest' : Py.is_number best' = true)
      by (subst best'; now destruct (Py.gt item best)).
    assert (Hle : PrimFloat.leb best best' = true /\ PrimFloat.leb item best' = true).
    { subst best'. unfold Py.gt. destruct (PrimFloat.ltb best item) eqn:Hlt.
      - split; [now apply float_ltb_leb | now apply float_leb_refl].
      - split; [now apply float_leb_refl | now apply float_not_ltb_leb]. }
    destruct Hle as [Hle_best Hle_item].
    destruct (IH best' Hbest') as (Hr & Hbr & Hall).
    split; [exact Hr|]. split.
    + now apply (float_leb_trans best best' _).
    + intros x [-> | Hx]%elem_of_cons; [|now apply Hall].
      now apply (float_leb_trans _ best' _).
Qed.

Lemma fold_min_bound (rest : list float) (best : float) :
  Py.is_number best = true ->
  Forall (fun x => Py.is_number x = true) rest ->
  let r := fold_left (fun best item => if Py.lt item best then item else best)
             rest best in
  Py.is_number r = true /\ PrimFloat.leb r best = true /\
  forall x, x ∈ rest -> PrimFloat.leb r x = true.
Proof.
  intros Hbest Hrest. revert best Hbest.
  induction Hrest as [|item rest Hitem _ IH]; intros best Hbest; cbn.
  - split; [assumption|]. split; [now apply float_leb_refl|].
    intros x []%elem_of_nil.
  - set (best' := if Py.lt item best then item else best).
    assert (Hbest' : Py.is_number best' = true)
      by (subst best'; now destruct (Py.lt item best)).
    assert (Hle : PrimFloat.leb best' best = true /\ PrimFloat.leb best' item = true).
    { subst best'. unfold Py.lt. destruct (PrimFloat.ltb item best) eqn:Hlt.
      - split; [now apply float_ltb_leb | now apply float_leb_refl].
      - split; [now apply float_leb_refl | now apply float_not_ltb_leb]. }
    destruct Hle as [Hle_best Hle_item].
    destruct (IH best' Hbest') as (Hr & Hbr & Hall).
    split; [exact Hr|]. split.
    + now apply (float_leb_trans _ best' best).
    + intros x [-> | Hx]%elem_of_cons; [|now apply Hall].
      now apply (float_leb_trans _ best' _).
Qed.

Lemma max_of_elem (xs : list float) (m : float) :
  Py.max_of xs = Py.Ok m -> m ∈ xs.
Proof.
  destruct xs as [|x rest]; [discriminate|].
  intros [= <-]. apply fold_pick_elem.
Qed.

Lemma max_of_greatest (xs : list float) (m : float) :
  Forall (fun x => Py.is_number x = true) xs ->
  Py.max_of xs = Py.Ok m -> greatest m xs.
Proof.
  intros Hxs Hm. split; [now apply max_of_elem|].
  destruct xs as [|x rest]; [discriminate|].
  injection Hm as <-. apply Forall_cons in Hxs as [Hx Hrest].
  destruct (fold_max_bound rest x Hx Hrest) as (_ & Hx' & Hall).
  intros y [-> | Hy]%elem_of_cons; [exact Hx' | now apply Hall].
Qed.

Lemma min_of_least (xs : list float) (m : float) :
  Forall (fun x => Py.is_number x = true) xs ->
  Py.min_of xs = Py.Ok m -> least m xs.
Proof.
  intros Hxs Hm. split; [now apply min_of_elem|].
  destruct xs as [|x rest]; [discriminate|].
  injection Hm as <-. apply Forall_cons in Hxs as [Hx Hrest].
  destruct (fold_min_bound rest x Hx Hrest) as (_ & Hx' & Hall).
  intros y [-> | Hy]%elem_of_cons; [exact Hx' | now apply Hall].
Qed.

(** Among lows that are not negative, the positive ones are those that are
    not zero. *)
Lemma filter_positive_truthy (w : list BarData.t) :
  Forall (fun bar => PrimFloat.leb 0 (BarData.low bar) = true) w ->
  filter (fun bar => Is_true (PrimFloat.ltb 0 (BarData.low bar))) w
  = filter (fun bar => Is_true (Py.truthy (BarData.low bar))) w.
Proof.
  induction 1 as [|bar w Hbar _ IH]; [reflexivity|].
  rewrite !filter_cons, IH, (positive_iff_truthy _ Hbar).
  destruct (Py.truthy (BarData.low bar)); reflexivity.
Qed.

(** C3, as the code has it: with six bars or more, when one of the five
    bars before the last has a low other than zero, the last-five ratio is
    the greatest high of those five bars over the least of their lows that
    are not zero (greatest and least in the order of floats when no value is
    NaN).  When no low is negative this is the ratio over the positive
    lows. *)
Theorem last_five_ratio_over_nonzero_lows (bars : list BarData.t) :
  (6 <= length bars)%nat ->
  let recent_window := Py.slice bars (-6) (-1) in
  let highs := map BarData.high recent_window in
  let lows :=
    map BarData.low
      (filter (fun bar => Is_true (Py.truthy (BarData.low bar))) recent_window) in
  Exists (fun bar => Py.truthy (BarData.low bar) = true) recent_window ->
  exists prev latest max_price min_price,
    Py.getitem_neg bars 2 = Py.Ok prev /\
    Py.getitem_neg bars 1 = Py.Ok latest /\
    length recent_window = 5%nat /\
    features_of_bars bars
    = Py.Ok (mkFeatures (BarData.open latest) (BarData.high latest)
               (BarData.low latest) (BarData.close latest)
               (BarData.volume latest)
               (if Py.truthy (BarData.low prev)
                then (BarData.high prev / BarData.low prev)%float else 1%float)
               (max_price / min_price)%float) /\
    Py.max_of highs = Py.Ok max_price /\
    Py.min_of lows = Py.Ok min_price /\
    (Forall (fun x => Py.is_number x = true) highs -> greatest max_price highs) /\
    (Forall (fun x => Py.is_number x = true) lows -> least min_price lows) /\
    (Forall (fun bar => PrimFloat.leb 0 (BarData.low bar) = true) recent_window ->
     (max_price / min_price)%float = Spec.lastFiveRangeRatio recent_window).
Proof.
  intros Hlen recent_window highs lows. subst highs lows recent_window.
  destruct (long_window_shape bars Hlen) as (older & w & prev & latest & -> & Hw).
  rewrite slice_last_five by (rewrite length_app; cbn; lia).
  intros Hex.
  destruct (last_five_with_low older w prev latest Hw Hex)
    as (mx & mn & Hmx & Hmn & Hfeatures).
  exists prev, latest, mx, mn.
  split.
  { replace (older ++ (w ++ [prev]) ++ [latest])
      with ((older ++ w) ++ [prev; latest]) by (now rewrite <- !app_assoc).
    apply getitem_last_but_one. }
  split.
  { rewrite (app_assoc older). apply getitem_last. }
  split; [rewrite length_app; cbn; lia|].
  split; [exact Hfeatures|]. split; [exact Hmx|].
  split; [exact Hmn|]. split; [|split].
  - intros Hnum. now apply max_of_greatest.
  - intros Hnum. now apply min_of_least.
  - intros Hpos. unfold Spec.lastFiveRangeRatio.
    rewrite (filter_positive_truthy _ Hpos).
    now rewrite Hmx, Hmn.
Qed.

Lemma last_five_ratio_over_nonzero_lows_witness :
  exists max_price min_price,
    features_of_bars [quiet_bar; empty_bar; quiet_bar; quiet_bar;
                      BarData.make 2 2.1 1.9 2 100; quiet_bar; quiet_bar]
    = Py.Ok (mkFeatures 2 2.02 2 2.01 500 1.01 (max_price / min_price)) /\
    max_price = 2.1%float /\ min_price = 1.9%float.
Proof.
  destruct (last_five_ratio_over_nonzero_lows
              [quiet_bar; empty_bar; quiet_bar; quiet_bar;
               BarData.make 2 2.1 1.9 2 100; quiet_bar; quiet_bar])
    as (prev & latest & mx & mn & Hprev & Hlatest & _ & Hfeatures & Hmx & Hmn & _).
  - cbn. lia.
  - apply Exists_cons_tl, Exists_cons_hd. reflexivity.
  - injection Hprev as <-. injection Hlatest as <-.
    exists mx, mn. split; [exact Hfeatures|].
    vm_compute in Hmx, Hmn. split; congruence.
Defined.

(** C3 as stated fails twice.  With five bars whose low is zero before the
    last, the extraction raises [ValueError] where 1.0 is asked for.  With a
    bar whose low is negative among the five, that low is the least low that
    is not zero, and the ratio is 2.02 / -1 = -2.02 where the ratio over the
    positive lows is 2.02 / 2 = 1.01. *)
Lemma last_five_as_stated_fails :
  features_of_bars [empty_bar; empty_bar; empty_bar; empty_bar; empty_bar; quiet_bar]
  = Py.Raise Py.ValueError /\
  Spec.lastFiveRangeRatio [empty_bar; empty_bar; empty_bar; empty_bar; empty_bar]
  = 1%float /\
  features_of_bars [negative_bar; quiet_bar; quiet_bar; quiet_bar; quiet_bar; quiet_bar]
  = Py.Ok (mkFeatures 2 2.02 2 2.01 500 1.01 (-2.02)) /\
  Spec.lastFiveRangeRatio [negative_bar; quiet_bar; quiet_bar; quiet_bar; quiet_bar]
  = 1.01%float /\
  PrimFloat.eqb (-2.02) 1.01 = false.
Proof. vm_compute. auto 6. Qed.

(* ===================================================================== *)
(** ** Order submission                                                   *)
(* ===================================================================== *)

(** [int(x)] and [math.floor(x)] fail together, are non-positive together,
    and are equal when positive. *)
Lemma int_of_float_floor (x : float) :
  match Py.int_of_float x, Py.math_floor x with
  | Py.Ok q, Py.Ok n => (q <=? 0) = (n <=? 0) /\ (0 < q -> q = n)
  | Py.Raise e, Py.Raise e' => e = e'
  | _, _ => False
  end.
Proof.
  unfold Py.int_of_float, Py.math_floor, Py.signed.
  destruct (Prim2SF x) as [s|s| |s m e]; cbn; auto.
  destruct s; cbn [cond_Zopp]; [|auto].
  pose proof (proj2 (Z.shiftl_nonneg (Zpos m) e) ltac:(lia)) as Hpos.
  pose proof (proj1 (Z.shiftl_nonneg (Zneg m) e)) as Hneg.
  split; [|lia].
  rewrite (proj2 (Z.leb_le _ _)) by lia.
  symmetry. apply Z.leb_le.
  destruct (Z_le_gt_dec (Z.shiftl (Z.neg m) e) 0); [assumption|lia].
Qed.

(** The divisor [max(stop_price, 0.01)] is never zero. *)
Lemma max2_cent_nonzero (stop : float) :
  PrimFloat.eqb (Py.max2 stop 0.01) 0 = false.
Proof.
  unfold Py.max2, Py.gt.
  destruct (PrimFloat.ltb stop 0.01) eqn:Hlt; [reflexivity|].
  destruct (PrimFloat.eqb stop 0) eqn:Hz; [|reflexivity].
  apply eqb_zero_inv in Hz as [s Hs].
  rewrite ltb_spec, Hs in Hlt. destruct s; vm_compute in Hlt; discriminate.
Qed.

(** [submit_entry_order], path by path. *)
Lemma submit_entry_order_paths (ib : IB) (c : Contract) (r : float) (m : Z) (d : float) :
  submit_entry_order ib c r m d =
  match get_spread_ratio ib c with
  | Py.Raise e => ([], Py.Raise e)
  | Py.Ok spread =>
      if Py.gt spread 1.05 then ([], Py.Ok tt) else
      match fetch_symbols_traded_today ib c with
      | Py.Raise e => ([], Py.Raise e)
      | Py.Ok traded =>
          if bool_decide (symbol c ∈ traded) then ([], Py.Ok tt) else
          match Py.int_of_float (d / Py.max2 (Py.round2 (1.02 * r)) 0.01) with
          | Py.Raise e => ([], Py.Raise e)
          | Py.Ok q =>
              if q <=? 0 then ([], Py.Ok tt) else
              let order := entry_order r m q (now ib c) in
              match placeOrder ib c order with
              | Py.Ok _ =>
                  ([PlaceOrder c order;
                    PrintEntry (symbol c) q (Py.round2 (1.02 * r)) (Py.round2 (1.08 * r))],
                   Py.Ok tt)
              | Py.Raise e => ([PlaceOrder c order], Py.Raise e)
              end
          end
      end
  end.
Proof.
  unfold submit_entry_order.
  destruct (get_spread_ratio ib c) as [spread|e]; [|reflexivity].
  rewrite eff_bind_lift_ok.
  destruct (Py.gt spread 1.05); [reflexivity|].
  destruct (fetch_symbols_traded_today ib c) as [traded|e]; [|reflexivity].
  rewrite eff_bind_lift_ok.
  destruct (bool_decide (symbol c ∈ traded)); [reflexivity|].
  unfold Py.truediv. rewrite max2_cent_nonzero, eff_bind_lift_ok.
  destruct (Py.int_of_float _) as [q|e]; [|reflexivity].
  rewrite eff_bind_lift_ok.
  destruct (q <=? 0); [reflexivity|].
  unfold entry_order. cbn zeta.
  destruct (placeOrder ib c _) as [[]|e]; reflexivity.
Qed.

Lemma get_spread_ratio_spec (ib : IB) (c : Contract) :
  get_spread_ratio ib c = (t ← reqMktData ib c; mret (Spec.spreadRatio t)).
Proof.
  unfold get_spread_ratio, Spec.spreadRatio.
  destruct (reqMktData ib c) as [[b a]|e]; [|reflexivity].
  cbn [mbind result_bind Py.rbind bid ask].
  unfold Py.truthy_opt, Py.truediv, Py.truthy.
  destruct b as [b|], a as [a|]; try reflexivity.
  - destruct (PrimFloat.eqb b 0), (PrimFloat.eqb a 0); reflexivity.
  - now destruct (PrimFloat.eqb b 0).
Qed.

(** Every order that leaves [submit_entry_order] is for the contract given,
    has a positive quantity, and went through both risk checks. *)
Lemma submitted_order_inv (ib : IB) (c : Contract) (r : float) (m : Z) (d : float)
    (c' : Contract) (o : StopLimitOrder) :
  (c', o) ∈ orders_of (events (submit_entry_order ib c r m d)) ->
  c' = c /\ 0 < totalQuantity o /\
  exists spread traded,
    get_spread_ratio ib c = Py.Ok spread /\ Py.gt spread 1.05 = false /\
    fetch_symbols_traded_today ib c = Py.Ok traded /\ symbol c ∉ traded.
Proof.
  rewrite submit_entry_order_paths.
  destruct (get_spread_ratio ib c) as [spread|e]; [|now intros ?%elem_of_nil].
  destruct (Py.gt spread 1.05) eqn:Hs; [now intros ?%elem_of_nil|].
  destruct (fetch_symbols_traded_today ib c) as [traded|e];
    [|now intros ?%elem_of_nil].
  destruct (bool_decide (symbol c ∈ traded)) eqn:Ht; [now intros ?%elem_of_nil|].
  apply bool_decide_eq_false in Ht.
  destruct (Py.int_of_float _) as [q|e]; [|now intros ?%elem_of_nil].
  destruct (q <=? 0) eqn:Hq; [now intros ?%elem_of_nil|].
  apply Z.leb_gt in Hq. cbn zeta.
  destruct (placeOrder ib c _) as [[]|e]; cbn;
    intros [= -> ->]%list_elem_of_singleton; (split; [reflexivity|]);
    (split; [exact Hq|]); exists spread, traded; auto.
Qed.

(** A quote side that is NaN is neither absent nor zero: the ratio is NaN,
    which does not compare greater than 1.05. *)
Example nan_quote_ratio :
  Spec.spreadRatio (mkTicker (Some nan) (Some 2.41%float)) = nan /\
  Py.gt nan 1.05 = false /\
  Spec.spreadRatio (mkTicker (Some 0%float) (Some 2.41%float)) = infinity /\
  Spec.spreadRatio (mkTicker (Some 1.00%float) (Some 1.10%float)) = 1.1%float /\
  Py.gt 1.1 1.05 = true.
Proof. vm_compute. auto 6. Qed.

Example calm_orders :
  orders_of (events (submit_entry_order calm_session ABCD 2 3 10))
  = [(ABCD, mkStopLimitOrder "BUY" 4 2.04 2.16 true "GTD" 35760)].
Proof. vm_compute. reflexivity. Qed.

(** C4: when the risk checks let it through, the order builder places
    exactly the order with stop = round(1.02 r, 2), limit = round(1.08 r, 2)
    and quantity = floor(d / max(stop, 0.01)), provided that quantity is
    positive, and otherwise places nothing; a quantity <= 0 is a silent
    no-op; every order placed has a positive quantity; and r = 2.00 with
    d = 10 gives stop 2.04, limit 2.16 and quantity 4. *)
Theorem order_builder_sizing :
  (forall (ib : IB) (c : Contract) (r : float) (m : Z) (d : float)
          (spread : float) (traded : gset string),
      get_spread_ratio ib c = Py.Ok spread -> Py.gt spread 1.05 = false ->
      fetch_symbols_traded_today ib c = Py.Ok traded -> symbol c ∉ traded ->
      orders_of (events (submit_entry_order ib c r m d))
      = match Spec.order_builder r d with
        | Some (stopPrice, limitPrice, quantity) =>
            [(c, mkStopLimitOrder "BUY" quantity stopPrice limitPrice true "GTD"
                   (expiration (now ib c) m))]
        | None => []
        end /\
      (forall quantity : Z,
          Py.math_floor (d / Py.max2 (Py.round2 (1.02 * r)) 0.01) = Py.Ok quantity ->
          quantity <= 0 ->
          submit_entry_order ib c r m d = ([], Py.Ok tt))) /\
  (forall (ib : IB) (c : Contract) (r : float) (m : Z) (d : float)
          (c' : Contract) (o : StopLimitOrder),
      (c', o) ∈ orders_of (events (submit_entry_order ib c r m d)) ->
      0 < totalQuantity o) /\
  Spec.order_builder 2.00 10 = Some (2.04%float, 2.16%float, 4).
Proof.
  split; [|split].
  - intros ib c r m d spread traded Hs Hgt Ht Hnot.
    rewrite submit_entry_order_paths, Hs, Hgt, Ht.
    rewrite bool_decide_eq_false_2 by assumption.
    unfold Spec.order_builder.
    change (if PrimFloat.ltb (Py.round2 (1.02 * r)) 0.01 then 0.01%float
            else Py.round2 (1.02 * r))
      with (Py.max2 (Py.round2 (1.02 * r)) 0.01).
    pose proof (int_of_float_floor (d / Py.max2 (Py.round2 (1.02 * r)) 0.01)) as H.
    destruct (Py.int_of_float _) as [q|e], (Py.math_floor _) as [n|e'];
      try contradiction.
    + destruct H as [Hle Heq]. rewrite <- Hle.
      destruct (q <=? 0) eqn:Hq.
      * split; [reflexivity|]. reflexivity.
      * apply Z.leb_gt in Hq. rewrite <- (Heq Hq). cbn zeta. split.
        -- unfold entry_order. now destruct (placeOrder ib c _) as [[]|e].
        -- intros k [= <-] Hk. lia.
    + split; [reflexivity|]. discriminate.
  - intros ib c r m d c' o Hin.
    now apply submitted_order_inv in Hin as (_ & Hq & _).
  - vm_compute. reflexivity.
Qed.

Lemma order_builder_sizing_witness :
  orders_of (events (submit_entry_order calm_session ABCD 2 3 10))
  = [(ABCD, mkStopLimitOrder "BUY" 4 2.04 2.16 true "GTD" 35760)].
Proof.
  refine (proj1 (proj1 order_builder_sizing calm_session ABCD 2%float 3 10%float
                   (2.41 / 2.40)%float ∅ _ _ _ _)).
  - vm_compute. reflexivity.
  - vm_compute. reflexivity.
  - vm_compute. reflexivity.
  - apply not_elem_of_empty.
Defined.

(** The two checks as the code makes them: the spread ratio is ask / bid,
    infinite when a side is [None] or zero; an order leaves
    [submit_entry_order] only if that ratio is not greater than 1.05 and the
    symbol is not among those traded today; and when either check vetoes,
    nothing is sent or printed and the call just returns. *)
Theorem risk_checks_gate_submission :
  (forall (ib : IB) (c : Contract),
      get_spread_ratio ib c = (t ← reqMktData ib c; mret (Spec.spreadRatio t))) /\
  (forall (b a : option float),
      b = None \/ a = None -> Spec.spreadRatio (mkTicker b a) = infinity) /\
  (forall (ib : IB) (c : Contract) (r : float) (m : Z) (d : float)
          (c' : Contract) (o : StopLimitOrder),
      (c', o) ∈ orders_of (events (submit_entry_order ib c r m d)) ->
      exists spread traded,
        get_spread_ratio ib c = Py.Ok spread /\ Py.gt spread 1.05 = false /\
        fetch_symbols_traded_today ib c = Py.Ok traded /\ symbol c ∉ traded) /\
  (forall (ib : IB) (c : Contract) (r : float) (m : Z) (d : float) (spread : float),
      get_spread_ratio ib c = Py.Ok spread -> Py.gt spread 1.05 = true ->
      submit_entry_order ib c r m d = ([], Py.Ok tt)) /\
  (forall (ib : IB) (c : Contract) (r : float) (m : Z) (d : float)
          (traded : gset string),
      fetch_symbols_traded_today ib c = Py.Ok traded -> symbol c ∈ traded ->
      events (submit_entry_order ib c r m d) = [] /\
      (forall spread : float,
          get_spread_ratio ib c = Py.Ok spread ->
          submit_entry_order ib c r m d = ([], Py.Ok tt))).
Proof.
  split; [exact get_spread_ratio_spec|]. split; [|split; [|split]].
  - intros b a [-> | ->]; [reflexivity|]. now destruct b.
  - intros ib c r m d c' o Hin.
    now apply submitted_order_inv in Hin as (_ & _ & H).
  - intros ib c r m d spread Hs Hgt.
    now rewrite submit_entry_order_paths, Hs, Hgt.
  - intros ib c r m d traded Ht Hin.
    rewrite submit_entry_order_paths, Ht.
    rewrite bool_decide_eq_true_2 by assumption. split.
    + destruct (get_spread_ratio ib c) as [spread|e]; [|reflexivity].
      now destruct (Py.gt spread 1.05).
    + intros spread ->. now destruct (Py.gt spread 1.05).
Qed.

Lemma risk_checks_gate_submission_witness :
  exists spread traded,
    get_spread_ratio calm_session ABCD = Py.Ok spread /\
    Py.gt spread 1.05 = false /\
    fetch_symbols_traded_today calm_session ABCD = Py.Ok traded /\
    symbol ABCD ∉ traded.
Proof.
  apply (proj1 (proj2 (proj2 risk_checks_gate_submission))
           calm_session ABCD 2%float 3 10%float ABCD
           (mkStopLimitOrder "BUY" 4 2.04 2.16 true "GTD" 35760)).
  vm_compute. apply list_elem_of_here.
Defined.

(** C5: the spread check misses the quote that has not arrived.  The
    library's ticker holds NaN for a side without a quote; [not bid_price] is
    true of [None] and of zero only, so the ratio is NaN / NaN = NaN instead
    of infinity, [NaN > 1.05] is false, and the order is sent: from
    [submit_entry_order] and from the whole evaluation of a breakout.  With a
    side that is [None] or zero the same call is vetoed. *)
Theorem missing_quote_is_not_vetoed :
  reqMktData unquoted_session ABCD = Py.Ok (mkTicker (Some nan) (Some nan)) /\
  get_spread_ratio unquoted_session ABCD = Py.Ok nan /\
  PrimFloat.eqb nan infinity = false /\
  Py.gt nan 1.05 = false /\
  fetch_symbols_traded_today unquoted_session ABCD = Py.Ok ∅ /\
  orders_of (events (submit_entry_order unquoted_session ABCD 2 3 10))
  = [(ABCD, mkStopLimitOrder "BUY" 4 2.04 2.16 true "GTD" 35760)] /\
  events (evaluate_and_trade_symbol unquoted_session ABCD)
  = [PlaceOrder ABCD (mkStopLimitOrder "BUY" 4 2.45 2.59 true "GTD" 35760);
     PrintEntry "ABCD" 4 2.45 2.59] /\
  get_spread_ratio
    (mkIB (reqHistoricalDataAsync unquoted_session)
          (fun _ => Py.Ok (mkTicker None (Some nan)))
          (reqExecutions unquoted_session) (placeOrder unquoted_session)
          (now unquoted_session)) ABCD
  = Py.Ok infinity /\
  events
    (evaluate_and_trade_symbol
       (mkIB (reqHistoricalDataAsync unquoted_session)
             (fun _ => Py.Ok (mkTicker None (Some nan)))
             (reqExecutions unquoted_session) (placeOrder unquoted_session)
             (now unquoted_session)) ABCD)
  = [].
Proof.
  split; [reflexivity|].
  split; [vm_compute; reflexivity|].
  split; [vm_compute; reflexivity|].
  split; [vm_compute; reflexivity|].
  split; [reflexivity|].
  split; [vm_compute; reflexivity|].
  split; [vm_compute; reflexivity|].
  split; vm_compute; reflexivity.
Qed.

(* ===================================================================== *)
(** ** Failures stay inside the task                                      *)
(* ===================================================================== *)

Lemma evaluate_cases (ib : IB) (c : Contract) :
  evaluate_and_trade_symbol ib c =
  match try_block ib c with
  | (evs, Py.Ok _) => (evs, Py.Ok tt)
  | (evs, Py.Raise e) => (evs ++ [PrintError (symbol c) e], Py.Ok tt)
  end.
Proof.
  unfold evaluate_and_trade_symbol, try_except.
  now destruct (try_block ib c) as [evs [[]|e]].
Qed.

Lemma evaluate_returns (ib : IB) (c : Contract) :
  outcome (evaluate_and_trade_symbol ib c) = Py.Ok tt.
Proof.
  rewrite evaluate_cases. now destruct (try_block ib c) as [evs [[]|e]].
Qed.

Lemma first_raise_all_ok (rs : list (Py.result unit)) :
  Forall (fun r => r = Py.Ok tt) rs -> first_raise rs = Py.Ok tt.
Proof. induction 1 as [|r rs -> _ IH]; [reflexivity|exact IH]. Qed.

Lemma scan_returns (ib : IB) (contracts : list Contract) :
  outcome (scan_universe_once ib contracts) = Py.Ok tt.
Proof.
  unfold scan_universe_once, gather. cbn [outcome snd].
  apply first_raise_all_ok. rewrite !Forall_fmap.
  apply Forall_forall. intros c _. apply evaluate_returns.
Qed.

Lemma scan_events (ib : IB) (contracts : list Contract) :
  events (scan_universe_once ib contracts)
  = concat (map (fun c => events (evaluate_and_trade_symbol ib c)) contracts).
Proof.
  unfold scan_universe_once, gather. cbn [events fst].
  now rewrite map_map.
Qed.

Lemma eff_bind_ok {A B} (m : eff A) (k : A -> eff B) (a : A) :
  outcome m = Py.Ok a ->
  (m ≫= k) = (events m ++ events (k a), outcome (k a)).
Proof.
  destruct m as [evs r]. cbn. intros ->.
  cbv [mbind eff_mbind eff_bind]. now destruct (k a).
Qed.

Lemma submit_events_about (ib : IB) (c : Contract) (r : float) (m : Z) (d : float) :
  Forall (about c) (events (submit_entry_order ib c r m d)).
Proof.
  rewrite submit_entry_order_paths.
  repeat first
    [ progress cbn zeta
    | match goal with
      | |- context [match ?x with _ => _ end] => destruct x
      end ];
    cbn; repeat first [reflexivity | constructor].
Qed.

Lemma try_block_events_about (ib : IB) (c : Contract) :
  Forall (about c) (events (try_block ib c)).
Proof.
  unfold try_block.
  destruct (fetch_intraminute_features ib c) as [f|e]; [|constructor].
  rewrite eff_bind_lift_ok, trade_on_features_act.
  destruct (breakout_decision f) as [[|tier ref]|e]; try constructor.
  rewrite eff_bind_lift_ok. apply submit_events_about.
Qed.

Lemma evaluate_events_about (ib : IB) (c : Contract) :
  Forall (about c) (events (evaluate_and_trade_symbol ib c)).
Proof.
  rewrite evaluate_cases. pose proof (try_block_events_about ib c) as H.
  destruct (try_block ib c) as [evs [[]|e]]; cbn in *; [exact H|].
  apply Forall_app. split; [exact H|]. repeat constructor.
Qed.

Lemma scan_events_no_heartbeat (ib : IB) (contracts : list Contract) :
  List.filter is_heartbeat (events (scan_universe_once ib contracts)) = [].
Proof.
  rewrite scan_events. induction contracts as [|c cs IH]; [reflexivity|].
  cbn [map concat]. rewrite List.filter_app, IH, app_nil_r.
  pose proof (evaluate_events_about ib c) as H.
  induction H as [|ev evs Hev _ IHevs]; [reflexivity|].
  cbn. destruct ev; try discriminate; exact IHevs.
Qed.

Lemma scanner_turns (session : nat -> IB) (clock : nat -> Z)
    (contracts : list Contract) (n k : nat) :
  outcome (run_intraday_scanner session clock contracts n k) = Py.Ok tt /\
  length (List.filter is_heartbeat
            (events (run_intraday_scanner session clock contracts n k))) = n.
Proof.
  revert k. induction n as [|n IH]; intros k; [split; reflexivity|].
  cbn [run_intraday_scanner].
  destruct (IH (S k)) as [Hout Hbeats].
  set (turn := if 45 <? clock k mod 60
               then scan_universe_once (session k) contracts else mret tt).
  assert (Hturn : outcome turn = Py.Ok tt /\
                  List.filter is_heartbeat (events turn) = []).
  { subst turn. destruct (45 <? clock k mod 60).
    - split; [apply scan_returns|apply scan_events_no_heartbeat].
    - split; reflexivity. }
  destruct Hturn as [Hturn_ok Hturn_quiet].
  rewrite (eff_bind_ok (emit _) _ tt) by reflexivity.
  rewrite (eff_bind_ok turn _ tt) by assumption.
  cbn [events outcome fst snd emit]. split; [exact Hout|].
  rewrite <- app_comm_cons. cbn [List.filter is_heartbeat app].
  rewrite List.filter_app, Hturn_quiet. cbn [app length].
  now rewrite Hbeats.
Qed.

Example breakout_session_trades :
  evaluate_and_trade_symbol breakout_session ABCD
  = ([PlaceOrder ABCD (mkStopLimitOrder "BUY" 4 2.45 2.59 true "GTD" 35760);
      PrintEntry "ABCD" 4 2.45 2.59], Py.Ok tt)
  /\ evaluate_and_trade_symbol breakout_session EFGH = ([], Py.Ok tt)
  /\ fetch_intraminute_features breakout_session ABCD
     = Py.Ok (mkFeatures 2 2.4 2 2.3 9000 1.01 1.01).
Proof. vm_compute. auto. Qed.

Example lost_session_is_reported :
  evaluate_and_trade_symbol lost_session ABCD
  = ([PrintError "ABCD" (Py.BrokerError 1100)], Py.Ok tt).
Proof. reflexivity. Qed.

(** C7: a failure anywhere in a symbol's [try] block (fetching the bars,
    extracting the features, the risk checks, placing the order) ends in the
    handler, which prints it, and the task returns normally; so no task ever
    raises, the join of the cycle returns normally after every task has run
    (each task's events are all there), and every turn of the scheduler loop
    completes: after n turns the loop has printed n heartbeats and has not
    raised. *)
Theorem failures_are_contained :
  (forall (ib : IB) (c : Contract),
      evaluate_and_trade_symbol ib c =
      match try_block ib c with
      | (evs, Py.Ok _) => (evs, Py.Ok tt)
      | (evs, Py.Raise e) => (evs ++ [PrintError (symbol c) e], Py.Ok tt)
      end) /\
  (forall (ib : IB) (c : Contract),
      outcome (evaluate_and_trade_symbol ib c) = Py.Ok tt) /\
  (forall (ib : IB) (contracts : list Contract),
      outcome (scan_universe_once ib contracts) = Py.Ok tt /\
      events (scan_universe_once ib contracts)
      = concat (map (fun c => events (evaluate_and_trade_symbol ib c)) contracts)) /\
  (forall (session : nat -> IB) (clock : nat -> Z) (contracts : list Contract)
          (n k : nat),
      outcome (run_intraday_scanner session clock contracts n k) = Py.Ok tt /\
      length (List.filter is_heartbeat
                (events (run_intraday_scanner session clock contracts n k))) = n).
Proof.
  split; [exact evaluate_cases|]. split; [exact evaluate_returns|]. split.
  - intros ib contracts. split; [apply scan_returns|apply scan_events].
  - exact scanner_turns.
Qed.

(* ===================================================================== *)
(** ** The universe                                                       *)
(* ===================================================================== *)

Lemma remove_first_elem (a x : string) (l : list string) :
  NoDup l -> x ∈ remove_first a l <-> x ∈ l /\ x <> a.
Proof.
  induction 1 as [|y rest Hy _ IH]; cbn.
  - split; [intros []%elem_of_nil | intros [[]%elem_of_nil _]].
  - destruct (decide (y = a)) as [-> | Hya].
    + rewrite elem_of_cons. split.
      * intros Hx. split; [now right|]. intros ->. contradiction.
      * intros [[-> | Hx] Hne]; [contradiction | assumption].
    + rewrite !elem_of_cons, IH. split.
      * intros [-> | [Hx Hne]]; split; auto.
      * intros [[-> | Hx] Hne]; auto.
Qed.

Section UniverseFacts.

Variable iteration_order : gset string -> list string.
Hypothesis iteration_order_lists :
  forall s : gset string, iteration_order s ≡ₚ elements s.

Lemma iteration_order_elem (s : gset string) (x : string) :
  x ∈ iteration_order s <-> x ∈ s.
Proof. now rewrite (iteration_order_lists s), elem_of_elements. Qed.

Lemma iteration_order_NoDup (s : gset string) : NoDup (iteration_order s).
Proof. rewrite (iteration_order_lists s). apply NoDup_elements. Qed.

Lemma universe_symbols_elem (column : list string) (x : string) :
  x ∈ universe_symbols iteration_order column
  <-> x ∈ take 550 column /\ x <> "INTJ".
Proof.
  unfold universe_symbols, ONLINE_TICKERS.
  set (s := list_to_set (take 550 column) ∪ ∅ : gset string).
  assert (Hs : x ∈ s <-> x ∈ take 550 column).
  { subst s. rewrite elem_of_union, elem_of_list_to_set, elem_of_empty. tauto. }
  destruct (bool_decide ("INTJ" ∈ iteration_order s)) eqn:Hin.
  - rewrite remove_first_elem by apply iteration_order_NoDup.
    now rewrite iteration_order_elem, Hs.
  - apply bool_decide_eq_false in Hin.
    rewrite iteration_order_elem, Hs. split; [|tauto].
    intros Hx. split; [assumption|]. intros ->.
    apply Hin. now rewrite iteration_order_elem, Hs.
Qed.

Lemma universe_contract_symbols (column : list string) :
  map symbol (UNIVERSE_CONTRACTS iteration_order column)
  = universe_symbols iteration_order column.
Proof.
  unfold UNIVERSE_CONTRACTS. rewrite map_map. cbn. apply map_id.
Qed.

Lemma scan_event_about (ib : IB) (contracts : list Contract) (ev : event) :
  ev ∈ events (scan_universe_once ib contracts) ->
  exists c, c ∈ contracts /\ about c ev.
Proof.
  rewrite scan_events. intros Hev.
  apply list_elem_of_In, in_concat in Hev as (evs & Hevs & Hev).
  apply in_map_iff in Hevs as (c & <- & Hc).
  exists c. split; [now apply list_elem_of_In|].
  pose proof (evaluate_events_about ib c) as Hall.
  rewrite Forall_forall in Hall. apply Hall. now apply list_elem_of_In.
Qed.

End UniverseFacts.

(** C10: whatever the order in which the set is listed, the symbols scanned
    are, as a set, the first 550 entries of the column (with the empty set of
    online tickers added) without "INTJ"; no contract of the universe is
    "INTJ", so no task evaluates it, and nothing a scan emits (no order, no
    printed line) is about "INTJ".  The contracts the scan iterates are
    exactly the SMART/USD stocks of those symbols: their symbols form that
    set, a contract is in the universe if and only if it is such a stock, and
    whatever the evaluation of such a stock emits, the scan emits. *)
Theorem universe_is_first_550_without_INTJ
    (iteration_order : gset string -> list string) (column : list string) :
  (forall s : gset string, iteration_order s ≡ₚ elements s) ->
  ((list_to_set (universe_symbols iteration_order column) : gset string)
   = (list_to_set (take 550 column) ∪ ONLINE_TICKERS) ∖ {["INTJ"]}) /\
  ("INTJ" ∉ map symbol (UNIVERSE_CONTRACTS iteration_order column)) /\
  (forall (ib : IB) (ev : event),
      ev ∈ events (scan_universe_once ib (UNIVERSE_CONTRACTS iteration_order column)) ->
      exists sym, event_symbol ev = Some sym /\ sym <> "INTJ" /\
                  sym ∈ take 550 column) /\
  (forall (ib : IB) (c : Contract) (o : StopLimitOrder),
      (c, o) ∈ orders_of
                 (events (scan_universe_once ib
                            (UNIVERSE_CONTRACTS iteration_order column))) ->
      symbol c <> "INTJ") /\
  ((list_to_set (map symbol (UNIVERSE_CONTRACTS iteration_order column))
    : gset string)
   = (list_to_set (take 550 column) ∪ ONLINE_TICKERS) ∖ {["INTJ"]}) /\
  (forall c : Contract,
      c ∈ UNIVERSE_CONTRACTS iteration_order column
      <-> exists sym, c = Stock sym "SMART" "USD" /\
                      sym ∈ take 550 column /\ sym <> "INTJ") /\
  (forall (ib : IB) (sym : string) (ev : event),
      sym ∈ take 550 column -> sym <> "INTJ" ->
      ev ∈ events (evaluate_and_trade_symbol ib (Stock sym "SMART" "USD")) ->
      ev ∈ events (scan_universe_once ib
                     (UNIVERSE_CONTRACTS iteration_order column))).
Proof.
  intros Horder.
  assert (Hcontract : forall c : Contract,
             c ∈ UNIVERSE_CONTRACTS iteration_order column
             <-> exists sym, c = Stock sym "SMART" "USD" /\
                             sym ∈ take 550 column /\ sym <> "INTJ").
  { intros c. unfold UNIVERSE_CONTRACTS.
    change (map ?f ?l) with (f <$> l). rewrite list_elem_of_fmap.
    split; intros (sym & Hc & Hsym); exists sym; (split; [exact Hc|]);
      now apply (universe_symbols_elem _ Horder). }
  assert (Hev : forall (ib : IB) (ev : event),
             ev ∈ events (scan_universe_once ib
                            (UNIVERSE_CONTRACTS iteration_order column)) ->
             exists sym, event_symbol ev = Some sym /\ sym <> "INTJ" /\
                         sym ∈ take 550 column).
  { intros ib ev Hev.
    apply scan_event_about in Hev as (c & Hc & Habout).
    exists (symbol c). split; [exact Habout|].
    apply (list_elem_of_fmap_2 symbol) in Hc.
    change (symbol <$> ?l) with (map symbol l) in Hc.
    rewrite universe_contract_symbols in Hc.
    apply (universe_symbols_elem _ Horder) in Hc. tauto. }
  assert (Hset : (list_to_set (universe_symbols iteration_order column)
                  : gset string)
                 = (list_to_set (take 550 column) ∪ ONLINE_TICKERS) ∖ {["INTJ"]}).
  { apply set_eq. intros x. rewrite elem_of_list_to_set.
    rewrite (universe_symbols_elem _ Horder). unfold ONLINE_TICKERS.
    rewrite elem_of_difference, elem_of_union, elem_of_list_to_set,
      elem_of_empty, elem_of_singleton. tauto. }
  split; [exact Hset|].
  split; [|split; [|split; [|split; [|split]]]].
  - rewrite universe_contract_symbols.
    rewrite (universe_symbols_elem _ Horder). tauto.
  - exact Hev.
  - intros ib c o Hin.
    assert (Hplace : PlaceOrder c o
                     ∈ events (scan_universe_once ib
                                 (UNIVERSE_CONTRACTS iteration_order column))).
    { unfold orders_of in Hin.
      apply list_elem_of_In, in_flat_map in Hin as (ev & Hev' & Hin).
      destruct ev; cbn in Hin; try contradiction.
      destruct Hin as [[= <- <-]|[]]. now apply list_elem_of_In. }
    apply Hev in Hplace as (sym & [= <-] & Hne & _). exact Hne.
  - now rewrite universe_contract_symbols.
  - exact Hcontract.
  - intros ib sym ev Hin Hne Hevent.
    rewrite scan_events.
    apply list_elem_of_In, in_concat.
    exists (events (evaluate_and_trade_symbol ib (Stock sym "SMART" "USD"))).
    split; [|now apply list_elem_of_In].
    apply in_map_iff. exists (Stock sym "SMART" "USD").
    split; [reflexivity|]. apply list_elem_of_In, Hcontract.
    now exists sym.
Qed.

Lemma universe_is_first_550_without_INTJ_witness :
  ((list_to_set (universe_symbols elements ["ABCD"; "INTJ"; "EFGH"]) : gset string)
   = (list_to_set (take 550 ["ABCD"; "INTJ"; "EFGH"]) ∪ ONLINE_TICKERS) ∖ {["INTJ"]}) /\
  ("INTJ" ∉ map symbol (UNIVERSE_CONTRACTS elements ["ABCD"; "INTJ"; "EFGH"])) /\
  ((list_to_set (map symbol (UNIVERSE_CONTRACTS elements ["ABCD"; "INTJ"; "EFGH"]))
    : gset string)
   = (list_to_set (take 550 ["ABCD"; "INTJ"; "EFGH"]) ∪ ONLINE_TICKERS) ∖ {["INTJ"]}) /\
  (EFGH ∈ UNIVERSE_CONTRACTS elements ["ABCD"; "INTJ"; "EFGH"]).
Proof.
  destruct (universe_is_first_550_without_INTJ elements ["ABCD"; "INTJ"; "EFGH"])
    as (Hset & Hnot & _ & _ & Hcontracts & Hcontract & _).
  - intros s. reflexivity.
  - split; [exact Hset|]. split; [exact Hnot|]. split; [exact Hcontracts|].
    apply Hcontract. exists "EFGH"%string.
    split; [reflexivity|]. split; [|discriminate].
    cbn. apply list_elem_of_In. cbn. tauto.
Defined.

Example universe_of_three :
  universe_symbols elements ["ABCD"; "INTJ"; "EFGH"; "ABCD"] ≡ₚ ["ABCD"; "EFGH"].
Proof. vm_compute. repeat constructor. Qed.

(* ===================================================================== *)
(** ** The concurrency limiter                                            *)
(* ===================================================================== *)

Section LimiterFacts.

Import Limiter.

Variable body : nat -> task.
Variables bound n : nat.

(** Replacing the phase of one task changes a count of phases by that
    task's share. *)
Lemma count_insert (f : phase -> bool) (ts : list phase) (i : nat) (p q : phase) :
  ts !! i = Some p ->
  (length (List.filter f (<[i := q]> ts)) + (if f p then 1 else 0)
   = length (List.filter f ts) + (if f q then 1 else 0))%nat.
Proof.
  revert i. induction ts as [|p' ts IH]; intros i Hi; [discriminate|].
  destruct i as [|i]; cbn in *.
  - injection Hi as ->. destruct (f p), (f q); cbn; lia.
  - specialize (IH i Hi). destruct (f p'); cbn; [f_equal|]; exact IH.
Qed.

Lemma count_none_waiting (f : phase -> bool) (k : nat) :
  f Waiting = false -> length (List.filter f (replicate k Waiting)) = 0%nat.
Proof.
  intros Hf. induction k as [|k IH]; [reflexivity|]. cbn. now rewrite Hf.
Qed.

Lemma holders_none_released (ts : list phase) :
  Forall (fun p => is_released p = true) ts ->
  length (List.filter is_holding ts) = 0%nat.
Proof.
  induction 1 as [|p ts Hp _ IH]; [reflexivity|].
  destruct p; try discriminate. exact IH.
Qed.

(** What a step does to the semaphore and to the tasks that hold or wait. *)
Lemma step_counts (s s' : state) :
  step body s s' ->
  (value s = S (value s') /\ holders s' = S (holders s)
   /\ S (waiters s') = waiters s) \/
  (value s' = value s /\ holders s' = holders s /\ waiters s' = waiters s) \/
  (value s' = S (value s) /\ S (holders s') = holders s
   /\ waiters s' = waiters s).
Proof.
  intros Hstep.
  destruct Hstep as [i v ts l Hi | i v k ts l ev Hi _ _ | i v k ts l Hi _ _];
    unfold holders, waiters; cbn [value tasks].
  - left.
    pose proof (count_insert is_holding ts i Waiting (Inside 0) Hi) as Hh.
    pose proof (count_insert is_waiting ts i Waiting (Inside 0) Hi) as Hw.
    cbn in Hh, Hw. lia.
  - right. left.
    pose proof (count_insert is_holding ts i (Inside k) (Inside (S k)) Hi) as Hh.
    pose proof (count_insert is_waiting ts i (Inside k) (Inside (S k)) Hi) as Hw.
    cbn in Hh, Hw. lia.
  - right. right.
    pose proof (count_insert is_holding ts i (Inside k)
                  (Released (outcome (block (body i)))) Hi) as Hh.
    pose proof (count_insert is_waiting ts i (Inside k)
                  (Released (outcome (block (body i)))) Hi) as Hw.
    cbn in Hh, Hw. lia.
Qed.

Lemma step_length (s s' : state) :
  step body s s' -> length (tasks s') = length (tasks s).
Proof.
  intros Hstep. destruct Hstep; cbn; apply length_insert.
Qed.

Lemma accounted_init : accounted bound n (init bound n).
Proof.
  split; cbn.
  - unfold holders. cbn. rewrite count_none_waiting by reflexivity. lia.
  - apply length_replicate.
Qed.

Lemma accounted_step (s s' : state) :
  step body s s' -> accounted bound n s -> accounted bound n s'.
Proof.
  intros Hstep [Hsum Hlen]. split.
  - destruct (step_counts s s' Hstep) as [H | [H | H]]; lia.
  - now rewrite (step_length s s' Hstep).
Qed.

Lemma accounted_reachable (s : state) :
  rtc (step body) (init bound n) s -> accounted bound n s.
Proof.
  revert s. apply (rtc_ind_r (accounted bound n)).
  - apply accounted_init.
  - intros s s' _ Hstep IH. now apply (accounted_step s s').
Qed.

(** With no unit left no task enters the block: the tasks that wait keep
    waiting and the holders do not grow. *)
Lemma exhausted_no_entry (s s' : state) :
  step body s s' -> value s = 0%nat ->
  waiters s' = waiters s /\ (holders s' <= holders s)%nat.
Proof.
  intros Hstep Hzero.
  destruct (step_counts s s' Hstep) as [H | [H | H]]; lia.
Qed.

(** *** The progress of a task inside the block *)

Lemma within_init : within body (init bound n).
Proof.
  intros i p Hi. cbn in Hi.
  now apply lookup_replicate in Hi as [-> _].
Qed.

Lemma within_step (s s' : state) :
  step body s s' -> within body s -> within body s'.
Proof.
  intros Hstep Hin j p Hj.
  destruct Hstep as [i v ts l Hi | i v k ts l ev Hi Hans Hev | i v k ts l Hi Hans _];
    cbn [tasks] in *;
    apply list_lookup_insert_Some in Hj as [(<- & <- & _) | (_ & Hj)];
    try (exact (Hin j p Hj)); cbn.
  - split; lia.
  - apply lookup_lt_Some in Hev. split; [lia|]. intros _. exact Hans.
  - split; [exact Hans|reflexivity].
Qed.

Lemma within_reachable (s : state) :
  rtc (step body) (init bound n) s -> within body s.
Proof.
  revert s. apply (rtc_ind_r (within body)).
  - apply within_init.
  - intros s s' _ Hstep IH. now apply (within_step s s').
Qed.

(** A task inside the block whose requests are answered runs the block to
    its end and leaves: its remaining events are logged in their order, the
    result of the block, returned or raised, is the task's, and the unit goes
    back to the semaphore. *)
Lemma inside_can_finish (m : nat) (s : state) (i k : nat) :
  tasks s !! i = Some (Inside k) ->
  answered (body i) = true ->
  (k + m = length (events (block (body i))))%nat ->
  exists s',
    rtc (step body) s s' /\
    tasks s' = <[i := Released (outcome (block (body i)))]> (tasks s) /\
    value s' = S (value s) /\
    log s' = log s ++ map (pair i) (drop k (events (block (body i)))).
Proof.
  revert s k. induction m as [|m IH]; intros [v ts l] k Hi Hans Hk; cbn in *.
  - eexists. split; [apply rtc_once, (step_leave body i v k ts l Hi Hans); lia|].
    cbn. split; [reflexivity|]. split; [reflexivity|].
    rewrite drop_ge by lia. cbn. now rewrite app_nil_r.
  - destruct (events (block (body i)) !! k) as [ev|] eqn:Hev.
    2:{ apply lookup_ge_None in Hev. lia. }
    pose proof (step_emit body i v k ts l ev Hi Hans Hev) as Hstep.
    destruct (IH (mkState v (<[i := Inside (S k)]> ts) (l ++ [(i, ev)])) (S k))
      as (s' & Hrun & Htasks & Hvalue & Hlog); cbn.
    + apply list_lookup_insert_eq. now apply lookup_lt_Some in Hi.
    + exact Hans.
    + lia.
    + exists s'. split; [exact (rtc_l _ _ _ _ Hstep Hrun)|].
      cbn in *. split; [now rewrite Htasks, list_insert_insert_eq|].
      split; [exact Hvalue|].
      rewrite Hlog, <- app_assoc. f_equal.
      now rewrite (drop_S _ _ _ Hev).
Qed.

(** *** The steps left *)

Lemma sum_imap_insert (f : nat -> phase -> nat) (ts : list phase) (i : nat)
    (p q : phase) :
  ts !! i = Some p ->
  (sum_list (imap f (<[i := q]> ts)) + f i p
   = sum_list (imap f ts) + f i q)%nat.
Proof.
  revert f i. induction ts as [|p' ts IH]; intros f i Hi; [discriminate|].
  destruct i as [|i].
  - cbn in *. injection Hi as ->. lia.
  - specialize (IH (f ∘ S) i Hi).
    change ((f ∘ S) i p) with (f (S i) p) in IH.
    change ((f ∘ S) i q) with (f (S i) q) in IH.
    change (<[S i := q]> (p' :: ts)) with (p' :: <[i := q]> ts).
    rewrite !imap_cons. cbn [sum_list sum_list_with]. lia.
Qed.

(** Every step is one of the steps left. *)
Lemma remaining_step (s s' : state) :
  step body s s' ->
  remaining body (tasks s) = S (remaining body (tasks s')).
Proof.
  intros Hstep. unfold remaining.
  destruct Hstep as [i v ts l Hi | i v k ts l ev Hi _ Hev | i v k ts l Hi _ Hk];
    cbn [tasks].
  - pose proof (sum_imap_insert
                  (fun i p => steps_left (length (events (block (body i)))) p)
                  ts i Waiting (Inside 0) Hi) as H.
    cbn in H. lia.
  - pose proof (sum_imap_insert
                  (fun i p => steps_left (length (events (block (body i)))) p)
                  ts i (Inside k) (Inside (S k)) Hi) as H.
    apply lookup_lt_Some in Hev. cbn in H. lia.
  - pose proof (sum_imap_insert
                  (fun i p => steps_left (length (events (block (body i)))) p)
                  ts i (Inside k) (Released (outcome (block (body i)))) Hi) as H.
    cbn in H. lia.
Qed.

Lemma remaining_steps (k : nat) (s s' : state) :
  nsteps (step body) k s s' ->
  (k + remaining body (tasks s') = remaining body (tasks s))%nat.
Proof.
  induction 1 as [s | k s s1 s2 Hstep _ IH]; [reflexivity|].
  rewrite (remaining_step s s1 Hstep). lia.
Qed.

Lemma steps_left_zero (len : nat -> nat) (ts : list phase) :
  sum_list (imap (fun i p => steps_left (len i) p) ts) = 0%nat
  <-> Forall (fun p => is_released p = true) ts.
Proof.
  revert len. induction ts as [|p ts IH]; intros len; cbn.
  - split; [constructor|reflexivity].
  - rewrite Forall_cons. rewrite <- (IH (len ∘ S)). unfold compose.
    destruct p; cbn; split; intros H; try lia; try (destruct H; discriminate).
Qed.

Lemma remaining_zero (ts : list phase) :
  remaining body ts = 0%nat <-> Forall (fun p => is_released p = true) ts.
Proof. apply steps_left_zero. Qed.

(** A list of phases holds a task inside the block, or none inside and one
    waiting, or only tasks that have left. *)
Lemma phases_trichotomy (ts : list phase) :
  (exists i k, ts !! i = Some (Inside k)) \/
  (length (List.filter is_holding ts) = 0%nat /\
   ((exists i, ts !! i = Some Waiting) \/
    Forall (fun p => is_released p = true) ts)).
Proof.
  induction ts as [|p ts IH].
  - right. split; [reflexivity|]. right. constructor.
  - destruct p as [|k|r].
    + destruct IH as [(i & k & Hi) | [Hnone _]].
      * left. now exists (S i), k.
      * right. split; [exact Hnone|]. left. now exists 0%nat.
    + left. now exists 0%nat, k.
    + destruct IH as [(i & k & Hi) | [Hnone [[i Hi] | Hall]]].
      * left. now exists (S i), k.
      * right. split; [exact Hnone|]. left. now exists (S i).
      * right. split; [exact Hnone|]. right. now constructor.
Qed.

(** When every request is answered and the semaphore has a unit to give, a
    step is possible as long as a task has not left. *)
Lemma answered_progress (s : state) :
  (0 < bound)%nat -> accounted bound n s -> within body s ->
  (forall i, (i < n)%nat -> answered (body i) = true) ->
  Forall (fun p => is_released p = true) (tasks s) \/
  exists s', step body s s'.
Proof.
  intros Hbound [Hsum Hlen] Hin Hans. destruct s as [v ts l].
  unfold holders in Hsum. cbn in *.
  destruct (phases_trichotomy ts) as [(i & k & Hi) | [Hnone [[i Hi] | Hall]]].
  - right. destruct (Hin i _ Hi) as [Hk _].
    assert (Hi' : answered (body i) = true).
    { apply Hans. apply lookup_lt_Some in Hi. lia. }
    destruct (events (block (body i)) !! k) as [ev|] eqn:Hev.
    + eexists. exact (step_emit body i v k ts l ev Hi Hi' Hev).
    + apply lookup_ge_None in Hev.
      eexists. apply (step_leave body i v k ts l Hi Hi'). lia.
  - right. rewrite Hnone in Hsum. destruct v as [|v]; [lia|].
    eexists. exact (step_acquire body i v ts l Hi).
  - now left.
Qed.

(** When every request is answered, the tasks can all be run to the end. *)
Lemma answered_completes (m : nat) (s : state) :
  (0 < bound)%nat -> accounted bound n s -> within body s ->
  (forall i, (i < n)%nat -> answered (body i) = true) ->
  remaining body (tasks s) = m ->
  exists s', rtc (step body) s s' /\
             Forall (fun p => is_released p = true) (tasks s').
Proof.
  intros Hbound. revert s. induction m as [|m IH]; intros s Hacc Hin Hans Hm.
  - exists s. split; [reflexivity|]. now apply remaining_zero.
  - destruct (answered_progress s Hbound Hacc Hin Hans) as [Hall | [s1 Hstep]].
    + apply remaining_zero in Hall. congruence.
    + destruct (IH s1) as (s' & Hrun & Hall).
      * now apply (accounted_step s s1).
      * now apply (within_step s s1).
      * exact Hans.
      * pose proof (remaining_step s s1 Hstep). congruence.
      * exists s'. split; [exact (rtc_l _ _ _ _ Hstep Hrun)|exact Hall].
Qed.


(** *** The order of the log *)

Lemma logged_by_snoc (i j : nat) (l : list (nat * event)) (ev : event) :
  logged_by i (l ++ [(j, ev)])
  = logged_by i l ++ (if decide (j = i) then [ev] else []).
Proof.
  unfold logged_by. rewrite filter_app, fmap_app. f_equal.
  rewrite filter_cons, filter_nil. cbn.
  now destruct (decide (j = i)).
Qed.

Lemma in_order_init : in_order body (init bound n).
Proof.
  split; [|constructor]. intros i. cbn.
  destruct (replicate n Waiting !! i) as [p|] eqn:Hp; [|reflexivity].
  now apply lookup_replicate in Hp as [-> _].
Qed.

Lemma in_order_step (s s' : state) :
  step body s s' -> in_order body s -> in_order body s'.
Proof.
  intros Hstep [Hlog Htags].
  destruct Hstep as [i v ts l Hi | i v k ts l ev Hi _ Hev | i v k ts l Hi _ Hk];
    cbn [tasks log] in *;
    pose proof (lookup_lt_Some _ _ _ Hi) as Hlt;
    (split; cbn [tasks log]; [intros j | rewrite length_insert]).
  - specialize (Hlog j). destruct (decide (i = j)) as [<- | Hne].
    + rewrite list_lookup_insert_eq by exact Hlt.
      now rewrite Hlog, Hi.
    + now rewrite list_lookup_insert_ne by exact Hne.
  - exact Htags.
  - specialize (Hlog j). rewrite logged_by_snoc.
    destruct (decide (i = j)) as [<- | Hne].
    + rewrite list_lookup_insert_eq by exact Hlt.
      rewrite Hlog, Hi. cbn. symmetry. now apply take_S_r.
    + rewrite list_lookup_insert_ne by exact Hne.
      now rewrite app_nil_r.
  - apply Forall_app. split; [exact Htags|]. now repeat constructor.
  - specialize (Hlog j). destruct (decide (i = j)) as [<- | Hne].
    + rewrite list_lookup_insert_eq by exact Hlt.
      rewrite Hlog, Hi. cbn. apply take_ge. lia.
    + now rewrite list_lookup_insert_ne by exact Hne.
  - exact Htags.
Qed.

Lemma in_order_reachable (s : state) :
  rtc (step body) (init bound n) s -> in_order body s.
Proof.
  revert s. apply (rtc_ind_r (in_order body)).
  - apply in_order_init.
  - intros s s' _ Hstep IH. now apply (in_order_step s s').
Qed.

(** *** Fifty tasks enter *)

(** From the start, [k] tasks can enter the block one after the other, as
    long as the semaphore has units. *)
Lemma first_tasks_enter (k : nat) :
  (k <= bound)%nat -> (k <= n)%nat ->
  nsteps (step body) k (init bound n)
    (mkState (bound - k) (replicate k (Inside 0) ++ replicate (n - k) Waiting) []).
Proof.
  induction k as [|k IH]; intros Hb Hn.
  - rewrite !Nat.sub_0_r. constructor.
  - apply nsteps_r with
      (mkState (bound - k) (replicate k (Inside 0) ++ replicate (n - k) Waiting) []);
      [apply IH; lia|].
    replace (bound - k)%nat with (S (bound - S k)) by lia.
    replace (replicate (S k) (Inside 0) ++ replicate (n - S k) Waiting)
      with (<[k := Inside 0]>
              (replicate k (Inside 0) ++ replicate (n - k) Waiting)).
    + apply step_acquire.
      rewrite lookup_app_r by (rewrite length_replicate; lia).
      rewrite length_replicate, Nat.sub_diag.
      apply lookup_replicate. split; [reflexivity|lia].
    + replace (n - k)%nat with (S (n - S k)) by lia.
      rewrite insert_app_r_alt by (rewrite length_replicate; lia).
      rewrite length_replicate, Nat.sub_diag.
      rewrite (replicate_S_end k), <- app_assoc. reflexivity.
Qed.

End LimiterFacts.

(** Each entry of the log belongs to one task: the log is, up to the order,
    the logs of the tasks one after the other. *)
Lemma logged_by_other (i m : nat) (l : list (nat * event)) :
  i <> m ->
  Limiter.logged_by i (filter (fun entry => ~ entry.1 = m) l)
  = Limiter.logged_by i l.
Proof.
  intros Hne. unfold Limiter.logged_by.
  induction l as [|[j ev] l IH]; [reflexivity|].
  rewrite !filter_cons. cbn.
  destruct (decide (j = m)) as [-> | Hjm].
  - rewrite decide_False by (intros H; now apply H).
    rewrite decide_False by congruence. exact IH.
  - rewrite decide_True by exact Hjm. rewrite filter_cons. cbn.
    destruct (decide (j = i)); cbn; now rewrite IH.
Qed.

Lemma log_by_task (m : nat) (l : list (nat * event)) :
  Forall (fun entry => (entry.1 < m)%nat) l ->
  l.*2 ≡ₚ concat (map (fun i => Limiter.logged_by i l) (seq 0 m)).
Proof.
  revert l. induction m as [|m IH]; intros l Hl.
  - destruct l as [|e l]; [reflexivity|].
    apply Forall_cons in Hl as [He _]. lia.
  - rewrite seq_S, map_app, concat_app. cbn. rewrite app_nil_r.
    rewrite <- (filter_app_complement (fun entry => entry.1 = m) l) at 1.
    rewrite fmap_app, Permutation_app_comm.
    apply Permutation_app; [|reflexivity].
    rewrite (IH (filter (fun entry => ~ entry.1 = m) l)).
    + apply Permutation_refl'. f_equal. apply map_ext_in.
      intros i Hi%in_seq. apply logged_by_other. lia.
    + apply Forall_forall. intros e [He Hin]%list_elem_of_filter.
      rewrite Forall_forall in Hl. specialize (Hl e Hin). lia.
Qed.

(** *** The tasks of a scan *)

Lemma task_body_lookup (ib : IB) (unanswered : Contract -> bool)
    (contracts : list Contract) (i : nat) (c : Contract) :
  contracts !! i = Some c ->
  task_body ib unanswered contracts i
  = Limiter.mkTask (negb (unanswered c)) (evaluate_and_trade_symbol ib c).
Proof. unfold task_body. now intros ->. Qed.

Lemma scan_reachable (ib : IB) (unanswered : Contract -> bool)
    (contracts : list Contract) (s : Limiter.state) :
  rtc (scan_step ib unanswered contracts) (scan_start contracts) s ->
  Limiter.accounted 50 (length contracts) s /\
  Limiter.within (task_body ib unanswered contracts) s /\
  Limiter.in_order (task_body ib unanswered contracts) s.
Proof.
  intros Hreach. split; [|split].
  - now apply (accounted_reachable (task_body ib unanswered contracts)).
  - now apply (within_reachable _ 50 (length contracts)).
  - now apply (in_order_reachable _ 50 (length contracts)).
Qed.

Lemma task_block (ib : IB) (unanswered : Contract -> bool)
    (contracts : list Contract) (i : nat) (c : Contract) :
  contracts !! i = Some c ->
  Limiter.block (task_body ib unanswered contracts i)
  = evaluate_and_trade_symbol ib c.
Proof. intros Hc. now rewrite (task_body_lookup _ _ _ _ _ Hc). Qed.

Lemma blocks_scan (ib : IB) (contracts : list Contract) :
  forall body : nat -> Limiter.task,
    (forall i c, contracts !! i = Some c ->
                 Limiter.block (body i) = evaluate_and_trade_symbol ib c) ->
    concat (map (fun i => events (Limiter.block (body i)))
              (seq 0 (length contracts)))
    = events (scan_universe_once ib contracts).
Proof.
  induction contracts as [|c cs IH]; intros body Hbody; [reflexivity|].
  rewrite scan_events. cbn [map concat length seq].
  rewrite <- scan_events, (Hbody 0%nat c eq_refl). f_equal.
  rewrite <- fmap_S_seq.
  change (S <$> seq 0 (length cs)) with (map S (seq 0 (length cs))).
  rewrite map_map.
  exact (IH (body ∘ S) (fun i c' Hi => Hbody (S i) c' Hi)).
Qed.

Lemma orders_of_Permutation (xs ys : list event) :
  xs ≡ₚ ys -> orders_of xs ≡ₚ orders_of ys.
Proof.
  induction 1 as [|x xs ys _ IH|x y xs|xs ys zs _ IH1 _ IH2]; cbn.
  - reflexivity.
  - now rewrite IH.
  - rewrite !app_assoc. f_equiv. apply Permutation_app_comm.
  - now rewrite IH1.
Qed.

(** What the log holds of a task of a scan, and the log of a scan whose
    tasks have all left. *)
Lemma scan_log_task (ib : IB) (unanswered : Contract -> bool)
    (contracts : list Contract) (s : Limiter.state) (i : nat) (c : Contract) :
  rtc (scan_step ib unanswered contracts) (scan_start contracts) s ->
  contracts !! i = Some c ->
  exists p,
    Limiter.tasks s !! i = Some p /\
    Limiter.logged_by i (Limiter.log s)
    = Limiter.emitted_by (events (evaluate_and_trade_symbol ib c)) p.
Proof.
  intros Hreach Hc.
  destruct (scan_reachable ib unanswered contracts s Hreach)
    as ([_ Hlen] & _ & Hlog & _).
  destruct (lookup_lt_is_Some_2 (Limiter.tasks s) i) as [p Hp].
  { rewrite Hlen. now apply lookup_lt_Some in Hc. }
  exists p. split; [exact Hp|].
  now rewrite (Hlog i), Hp, (task_block _ _ _ _ _ Hc).
Qed.

Lemma scan_log_complete (ib : IB) (unanswered : Contract -> bool)
    (contracts : list Contract) (s : Limiter.state) :
  rtc (scan_step ib unanswered contracts) (scan_start contracts) s ->
  Forall (fun p => Limiter.is_released p = true) (Limiter.tasks s) ->
  (Limiter.log s).*2 ≡ₚ events (scan_universe_once ib contracts).
Proof.
  intros Hreach Hall.
  destruct (scan_reachable ib unanswered contracts s Hreach)
    as ([_ Hlen] & _ & _ & Htags).
  rewrite (log_by_task (length contracts)) by now rewrite <- Hlen.
  rewrite <- (blocks_scan ib contracts _ (task_block ib unanswered contracts)).
  apply Permutation_refl'. f_equal. apply map_ext_in.
  intros i Hi%in_seq.
  destruct (lookup_lt_is_Some_2 contracts i) as [c Hc]; [lia|].
  destruct (scan_log_task ib unanswered contracts s i c Hreach Hc)
    as (p & Hp & ->).
  rewrite (task_block _ _ _ _ _ Hc).
  rewrite Forall_forall in Hall.
  specialize (Hall p (list_elem_of_lookup_2 _ _ _ Hp)).
  now destruct p.
Qed.

(** C6: in every state that the tasks of a scan can reach, whatever the
    number of contracts, at most 50 tasks are inside [async with sem:], and
    the units left in the semaphore and the units held add up to 50.  When
    no unit is left, 50 tasks hold one and no step lets a waiting task in.
    A task inside the block whose requests are answered, with results or
    with exceptions, runs to the end of the block, ends with a normal return
    (a failure is caught inside the block) and gives its unit back: one unit
    more, one holder less.  The same holds of a block that raises: whatever
    the block of a task and its result, the task that reaches the end of the
    block leaves with that result and returns the unit.  Once every task has
    left, all 50 units are back and what the tasks have emitted is, up to
    the order, the events of [scan_universe_once]; a task that still waits
    for a unit has emitted nothing. *)
Theorem permits_never_exceed_bound
    (ib : IB) (unanswered : Contract -> bool) (contracts : list Contract)
    (s : Limiter.state) :
  rtc (scan_step ib unanswered contracts) (scan_start contracts) s ->
  (Limiter.holders s <= 50)%nat /\
  (Limiter.value s + Limiter.holders s = 50)%nat /\
  length (Limiter.tasks s) = length contracts /\
  (Limiter.value s = 0%nat ->
   Limiter.holders s = 50%nat /\
   forall s', scan_step ib unanswered contracts s s' ->
              Limiter.waiters s' = Limiter.waiters s /\
              (Limiter.holders s' <= Limiter.holders s)%nat) /\
  (forall (i k : nat) (c : Contract),
      contracts !! i = Some c ->
      Limiter.tasks s !! i = Some (Limiter.Inside k) ->
      unanswered c = false ->
      exists s',
        rtc (scan_step ib unanswered contracts) s s' /\
        Limiter.tasks s'
        = <[i := Limiter.Released (Py.Ok tt)]> (Limiter.tasks s) /\
        Limiter.value s' = S (Limiter.value s) /\
        S (Limiter.holders s') = Limiter.holders s) /\
  (forall (body : nat -> Limiter.task) (bound n : nat) (t : Limiter.state)
          (i k : nat),
      rtc (Limiter.step body) (Limiter.init bound n) t ->
      Limiter.tasks t !! i = Some (Limiter.Inside k) ->
      Limiter.answered (body i) = true ->
      exists t',
        rtc (Limiter.step body) t t' /\
        Limiter.tasks t' !! i
        = Some (Limiter.Released (outcome (Limiter.block (body i)))) /\
        Limiter.value t' = S (Limiter.value t) /\
        S (Limiter.holders t') = Limiter.holders t) /\
  (Forall (fun p => Limiter.is_released p = true) (Limiter.tasks s) ->
   Limiter.value s = 50%nat /\
   (Limiter.log s).*2 ≡ₚ events (scan_universe_once ib contracts)) /\
  (forall i : nat,
      Limiter.tasks s !! i = Some Limiter.Waiting ->
      Limiter.logged_by i (Limiter.log s) = []).
Proof.
  intros Hreach.
  destruct (scan_reachable ib unanswered contracts s Hreach)
    as ([Hsum Hlen] & Hin & Hlog & _).
  split; [lia|]. split; [exact Hsum|]. split; [exact Hlen|].
  split; [|split; [|split; [|split]]].
  - intros Hzero. split; [lia|]. intros s' Hstep.
    exact (exhausted_no_entry _ s s' Hstep Hzero).
  - intros i k c Hc Hi Hans.
    destruct (Hin i _ Hi) as [Hk _].
    destruct (inside_can_finish (task_body ib unanswered contracts)
                (length (events (Limiter.block
                                   (task_body ib unanswered contracts i))) - k)
                s i k Hi)
      as (s' & Hrun & Htasks & Hvalue & _).
    + rewrite (task_body_lookup _ _ _ _ _ Hc). cbn. now rewrite Hans.
    + lia.
    + rewrite (task_body_lookup _ _ _ _ _ Hc) in Htasks.
      cbn [Limiter.block] in Htasks. rewrite evaluate_returns in Htasks.
      exists s'. split; [exact Hrun|]. split; [exact Htasks|].
      split; [exact Hvalue|].
      unfold Limiter.holders. rewrite Htasks.
      pose proof (count_insert Limiter.is_holding (Limiter.tasks s) i
                    (Limiter.Inside k) (Limiter.Released (Py.Ok tt)) Hi) as H.
      cbn in H. lia.
  - intros body bound n t i k Hreach' Hi Hans.
    destruct (within_reachable body bound n t Hreach' i _ Hi) as [Hk _].
    destruct (inside_can_finish body
                (length (events (Limiter.block (body i))) - k) t i k Hi Hans)
      as (t' & Hrun & Htasks & Hvalue & _); [lia|].
    exists t'. split; [exact Hrun|]. split; [|split; [exact Hvalue|]].
    + rewrite Htasks. apply list_lookup_insert_eq.
      now apply lookup_lt_Some in Hi.
    + unfold Limiter.holders. rewrite Htasks.
      pose proof (count_insert Limiter.is_holding (Limiter.tasks t) i
                    (Limiter.Inside k)
                    (Limiter.Released (outcome (Limiter.block (body i)))) Hi) as H.
      cbn in H. lia.
  - intros Hall. split.
    + unfold Limiter.holders in Hsum.
      rewrite (holders_none_released _ Hall) in Hsum. lia.
    + now apply (scan_log_complete ib unanswered).
  - intros i Hi. now rewrite (Hlog i), Hi.
Qed.

(** Fifty of the fifty-one tasks can enter. *)
Lemma saturated_in_fifty_steps (ib : IB) (unanswered : Contract -> bool) :
  nsteps (scan_step ib unanswered fifty_one_contracts) 50
    (scan_start fifty_one_contracts) saturated.
Proof.
  exact (first_tasks_enter (task_body ib unanswered fifty_one_contracts)
           50 51 50 ltac:(lia) ltac:(lia)).
Qed.

Lemma permits_never_exceed_bound_witness :
  (Limiter.holders saturated <= 50)%nat /\
  (Limiter.value saturated + Limiter.holders saturated = 50)%nat /\
  length (Limiter.tasks saturated) = length fifty_one_contracts /\
  (Limiter.value saturated = 0%nat ->
   Limiter.holders saturated = 50%nat /\
   forall s', scan_step lost_session all_answered fifty_one_contracts saturated s' ->
              Limiter.waiters s' = Limiter.waiters saturated /\
              (Limiter.holders s' <= Limiter.holders saturated)%nat) /\
  (exists s',
      rtc (scan_step lost_session all_answered fifty_one_contracts) saturated s' /\
      Limiter.tasks s'
      = <[0%nat := Limiter.Released (Py.Ok tt)]> (Limiter.tasks saturated) /\
      Limiter.value s' = 1%nat /\
      S (Limiter.holders s') = Limiter.holders saturated).
Proof.
  destruct (permits_never_exceed_bound lost_session all_answered
              fifty_one_contracts saturated)
    as (Hle & Hsum & Hlen & Hfull & Hrelease & _).
  - exact (rtc_nsteps_2 _ _ _ (saturated_in_fifty_steps lost_session all_answered)).
  - split; [exact Hle|]. split; [exact Hsum|]. split; [exact Hlen|].
    split; [exact Hfull|].
    apply (Hrelease 0%nat 0%nat (Stock "AA" "SMART" "USD")); reflexivity.
Defined.

(** The state with fifty tasks inside: no unit left, fifty holders, one
    task waiting; in a session in which every request fails, the first task
    then prints its error, leaves and returns its unit. *)
Example saturated_counts :
  Limiter.value saturated = 0%nat /\
  Limiter.holders saturated = 50%nat /\
  Limiter.waiters saturated = 1%nat /\
  length fifty_one_contracts = 51%nat /\
  events (evaluate_and_trade_symbol lost_session (Stock "AA" "SMART" "USD"))
  = [PrintError "AA" (Py.BrokerError 1100)].
Proof. vm_compute. auto. Qed.

(* ===================================================================== *)
(** ** What an evaluation can place                                       *)
(* ===================================================================== *)

Lemma SFcompare_refl (x : spec_float) :
  x <> S754_nan -> SFcompare x x = Some Eq.
Proof.
  destruct x as [s|s| |s m e]; try congruence; intros _; destruct s; cbn;
    try reflexivity;
    rewrite Z.compare_refl;
    change (Pos.compare_cont Eq m m) with (Pos.compare m m);
    now rewrite Pos.compare_refl.
Qed.

Lemma not_nan_is_number (x : float) :
  Prim2SF x <> S754_nan -> Py.is_number x = true.
Proof.
  intros Hx. unfold Py.is_number. rewrite FloatAxioms.eqb_spec. unfold SFeqb.
  now rewrite SFcompare_refl.
Qed.

(** Only numbers are in strict order. *)
Lemma ltb_true_numbers (a b : float) :
  PrimFloat.ltb a b = true -> Py.is_number a = true /\ Py.is_number b = true.
Proof.
  rewrite ltb_spec. unfold SFltb. intros H.
  split; apply not_nan_is_number; intros Hn; rewrite Hn in H;
    [|destruct (Prim2SF a)]; discriminate.
Qed.

Lemma leb_true_numbers (a b : float) :
  PrimFloat.leb a b = true -> Py.is_number a = true /\ Py.is_number b = true.
Proof.
  rewrite leb_spec. unfold SFleb. intros H.
  split; apply not_nan_is_number; intros Hn; rewrite Hn in H;
    [|destruct (Prim2SF a)]; discriminate.
Qed.

Lemma float_ltb_trans (x y z : float) :
  PrimFloat.ltb x y = true -> PrimFloat.ltb y z = true -> PrimFloat.ltb x z = true.
Proof.
  intros Hxy Hyz.
  destruct (ltb_true_numbers _ _ Hxy) as [Hx Hy].
  destruct (ltb_true_numbers _ _ Hyz) as [_ Hz].
  rewrite ltb_rank in * by assumption.
  revert Hxy Hyz.
  generalize (rank (Prim2SF x)) (rank (Prim2SF y)) (rank (Prim2SF z)).
  intros p q r H1 H2. lex_solve.
Qed.

Lemma float_ltb_leb_trans (x y z : float) :
  PrimFloat.ltb x y = true -> PrimFloat.leb y z = true -> PrimFloat.ltb x z = true.
Proof.
  intros Hxy Hyz.
  destruct (ltb_true_numbers _ _ Hxy) as [Hx Hy].
  destruct (leb_true_numbers _ _ Hyz) as [_ Hz].
  rewrite ltb_rank in * by assumption. rewrite leb_rank in Hyz by assumption.
  revert Hxy Hyz.
  generalize (rank (Prim2SF x)) (rank (Prim2SF y)) (rank (Prim2SF z)).
  intros p q r H1 H2. lex_solve.
Qed.

Lemma float_leb_ltb_trans (x y z : float) :
  PrimFloat.leb x y = true -> PrimFloat.ltb y z = true -> PrimFloat.ltb x z = true.
Proof.
  intros Hxy Hyz.
  destruct (leb_true_numbers _ _ Hxy) as [Hx Hy].
  destruct (ltb_true_numbers _ _ Hyz) as [_ Hz].
  rewrite ltb_rank in * by assumption. rewrite leb_rank in Hxy by assumption.
  revert Hxy Hyz.
  generalize (rank (Prim2SF x)) (rank (Prim2SF y)) (rank (Prim2SF z)).
  intros p q r H1 H2. lex_solve.
Qed.

(** The orders of one call of [submit_entry_order]: none, or one, for the
    contract given, built from a positive quantity. *)
Lemma submit_orders_shape (ib : IB) (c : Contract) (r : float) (m : Z) (d : float) :
  orders_of (events (submit_entry_order ib c r m d)) = [] \/
  exists q, 0 < q /\
            Py.int_of_float (d / Py.max2 (Py.round2 (1.02 * r)) 0.01) = Py.Ok q /\
            orders_of (events (submit_entry_order ib c r m d))
            = [(c, entry_order r m q (now ib c))].
Proof.
  rewrite submit_entry_order_paths.
  destruct (get_spread_ratio ib c) as [spread|e]; [|now left].
  destruct (Py.gt spread 1.05); [now left|].
  destruct (fetch_symbols_traded_today ib c) as [traded|e]; [|now left].
  destruct (bool_decide (symbol c ∈ traded)); [now left|].
  destruct (Py.int_of_float _) as [q|e]; [|now left].
  destruct (q <=? 0) eqn:Hq; [now left|].
  apply Z.leb_gt in Hq. right. exists q. split; [exact Hq|]. split; [reflexivity|].
  cbn zeta. now destruct (placeOrder ib c _) as [[]|e].
Qed.

(** What a decision to enter says of the features. *)
Lemma enter_decision_inv (f : Features) (tier : RiskTier) (reference : float) :
  decision f = Enter tier reference ->
  reference = high_price f /\
  Py.truthy (high_price f) = true /\ Py.truthy (low_price f) = true /\
  Py.le (close_price f) (open_price f) = false /\
  Py.gt (close_price f) 5 = false /\
  Py.gt (prev_range_ratio f) 1.05 = false /\
  exists ratio,
    bar_range_ratio (high_price f) (low_price f) = Py.Ok ratio /\
    PrimFloat.ltb 1.05 ratio = true /\ PrimFloat.ltb 1.30 ratio = false /\
    match tier with
    | Strong => PrimFloat.ltb 1.10 ratio = true /\ PrimFloat.ltb ratio 1.30 = true
    | Mild => PrimFloat.ltb (last_five_ratio f) 1.03 = true
    end.
Proof.
  unfold decision, breakout_decision.
  destruct (Py.truthy (high_price f)); [|discriminate].
  destruct (Py.truthy (low_price f)); [|discriminate].
  cbn [negb orb].
  destruct (bar_range_ratio _ _) as [ratio|e]; [|discriminate].
  cbn [mbind result_bind Py.rbind].
  destruct (Py.le _ _); [discriminate|].
  unfold Py.gt, Py.lt.
  destruct (PrimFloat.ltb 1.30 ratio) eqn:H130; [discriminate|].
  destruct (PrimFloat.ltb 1.05 (prev_range_ratio f)); [discriminate|].
  destruct (PrimFloat.ltb 5 (close_price f)); [discriminate|].
  destruct (PrimFloat.ltb 1.10 ratio) eqn:H110;
    [destruct (PrimFloat.ltb ratio 1.30) eqn:Hlt130|]; cbn [andb].
  - intros [= <- <-]. repeat (split; [reflexivity|]).
    exists ratio. split; [reflexivity|]. split; [|auto].
    now apply (float_ltb_trans 1.05 1.10 ratio).
  - destruct (PrimFloat.ltb 1.05 ratio) eqn:H105; [|discriminate].
    destruct (PrimFloat.ltb (last_five_ratio f) 1.03) eqn:H5; [|discriminate].
    intros [= <- <-]. repeat (split; [reflexivity|]). exists ratio. auto.
  - destruct (PrimFloat.ltb 1.05 ratio) eqn:H105; [|discriminate].
    destruct (PrimFloat.ltb (last_five_ratio f) 1.03) eqn:H5; [|discriminate].
    intros [= <- <-]. repeat (split; [reflexivity|]). exists ratio. auto.
Qed.

(** The orders of one evaluation: none, or the one order that a decision to
    enter at the high of the features led to. *)
Lemma evaluate_orders_shape (ib : IB) (c : Contract) :
  orders_of (events (evaluate_and_trade_symbol ib c)) = [] \/
  exists f tier q,
    fetch_intraminute_features ib c = Py.Ok f /\
    decision f = Enter tier (high_price f) /\ 0 < q /\
    Py.int_of_float
      (dollar_risk_of tier / Py.max2 (Py.round2 (1.02 * high_price f)) 0.01)
    = Py.Ok q /\
    orders_of (events (evaluate_and_trade_symbol ib c))
    = [(c, entry_order (high_price f) 3 q (now ib c))].
Proof.
  unfold evaluate_and_trade_symbol. rewrite orders_of_try_except.
  unfold try_block.
  destruct (fetch_intraminute_features ib c) as [f|e]; [|now left].
  rewrite eff_bind_lift_ok, orders_of_trade.
  destruct (decision f) as [|tier reference] eqn:Hd; [now left|].
  destruct (enter_decision_inv f tier reference Hd) as [-> _].
  cbn [act].
  destruct (submit_orders_shape ib c (high_price f) 3 (dollar_risk_of tier))
    as [Hnone | (q & Hq & Hint & Horders)]; [now left|].
  right. exists f, tier, q. auto.
Qed.

(** The price and volume fields of the features are those of the last bar. *)
Lemma features_latest (bars : list BarData.t) (f : Features) :
  features_of_bars bars = Py.Ok f ->
  (bars = [] /\ f = mkFeatures 0 0 0 0 0 0 1) \/
  exists latest,
    Py.getitem_neg bars 1 = Py.Ok latest /\
    open_price f = BarData.open latest /\ high_price f = BarData.high latest /\
    low_price f = BarData.low latest /\ close_price f = BarData.close latest /\
    volume f = BarData.volume latest.
Proof.
  unfold features_of_bars, mret, result_ret.
  destruct (bool_decide (bars = [])) eqn:Hempty.
  { apply bool_decide_eq_true in Hempty. intros H; injection H as <-. now left. }
  destruct (Py.getitem_neg bars 1) as [latest|e]; [|discriminate].
  cbn [mbind result_bind Py.rbind]. intros H. right. exists latest.
  split; [reflexivity|]. revert H.
  destruct (bool_decide (length bars = 1%nat)).
  { intros H; injection H as <-. cbn. auto. }
  destruct (Py.getitem_neg bars 2) as [prev|e]; [|discriminate].
  cbn [mbind result_bind Py.rbind].
  destruct (bool_decide (length bars < 6)%nat).
  { destruct (range_ratio_or_one _ _); [|discriminate].
    intros H; injection H as <-. cbn. auto. }
  cbn zeta.
  destruct (Py.max_of _) as [mx|e]; [|discriminate]. cbn [mbind result_bind Py.rbind].
  destruct (Py.min_of _) as [mn|e]; [|discriminate]. cbn [mbind result_bind Py.rbind].
  destruct (range_ratio_or_one (BarData.high prev) (BarData.low prev));
    [|discriminate].
  cbn [mbind result_bind Py.rbind].
  destruct (range_ratio_or_one mx mn); [|discriminate].
  intros H; injection H as <-. cbn. auto.
Qed.

(** X1: An evaluation places at most one order, and an order it places is a
    stop-limit BUY for its own contract, good till a date, allowed outside
    regular hours, for a positive quantity. *)
Theorem evaluation_places_at_most_one_order (ib : IB) (c : Contract) :
  (length (orders_of (events (evaluate_and_trade_symbol ib c))) <= 1)%nat /\
  Forall (fun placed =>
            fst placed = c /\ action (snd placed) = "BUY" /\
            tif (snd placed) = "GTD" /\ outsideRth (snd placed) = true /\
            0 < totalQuantity (snd placed))
    (orders_of (events (evaluate_and_trade_symbol ib c))).
Proof.
  destruct (evaluate_orders_shape ib c)
    as [-> | (f & tier & q & _ & _ & Hq & _ & ->)].
  - split; [cbn; lia|constructor].
  - split; [cbn; lia|]. repeat constructor. exact Hq.
Qed.

(** Of two numbers, the one that is not at most the other is above it. *)
Lemma float_not_leb_ltb (x y : float) :
  Py.is_number x = true -> Py.is_number y = true ->
  PrimFloat.leb x y = false -> PrimFloat.ltb y x = true.
Proof.
  intros Hx Hy Hle. apply (ltb_rank y x Hy Hx).
  destruct (lex_total (rank (Prim2SF y)) (rank (Prim2SF x))) as [Hlt | Hge];
    [exact Hlt|].
  apply (leb_rank x y Hx Hy) in Hge. congruence.
Qed.

(** X2: An order is placed only on a window whose last bar has a high and a low
    other than zero, fails both tests [close <= open] and [close > 5], and has
    a truncated range ratio above 1.05 and not above 1.30; the order is then
    built from that bar's high: stop at 1.02 times it and limit at 1.08 times
    it, each rounded to two decimals.  For a close and an open that are
    numbers, failing the two tests means a close above the open and at most
    5; a close that is NaN fails both as well. *)
Theorem order_tracks_last_bar
    (ib : IB) (c c' : Contract) (o : StopLimitOrder) :
  (c', o) ∈ orders_of (events (evaluate_and_trade_symbol ib c)) ->
  exists bars latest ratio,
    reqHistoricalDataAsync ib c = Py.Ok bars /\
    Py.getitem_neg bars 1 = Py.Ok latest /\
    Py.truthy (BarData.high latest) = true /\
    Py.truthy (BarData.low latest) = true /\
    Py.le (BarData.close latest) (BarData.open latest) = false /\
    Py.gt (BarData.close latest) 5 = false /\
    bar_range_ratio (BarData.high latest) (BarData.low latest) = Py.Ok ratio /\
    PrimFloat.ltb 1.05 ratio = true /\ PrimFloat.ltb 1.30 ratio = false /\
    stopPrice o = Py.round2 (1.02 * BarData.high latest) /\
    lmtPrice o = Py.round2 (1.08 * BarData.high latest) /\
    (Py.is_number (BarData.close latest) = true ->
     Py.is_number (BarData.open latest) = true ->
     PrimFloat.ltb (BarData.open latest) (BarData.close latest) = true /\
     PrimFloat.leb (BarData.close latest) 5 = true).
Proof.
  intros Hin.
  destruct (evaluate_orders_shape ib c)
    as [Hnone | (f & tier & q & Hfetch & Hd & _ & _ & Horders)].
  { rewrite Hnone in Hin. now apply elem_of_nil in Hin. }
  rewrite Horders in Hin. apply list_elem_of_singleton in Hin as [= -> ->].
  unfold fetch_intraminute_features in Hfetch.
  destruct (reqHistoricalDataAsync ib c) as [bars|e]; [|discriminate].
  cbn [mbind result_bind Py.rbind] in Hfetch.
  destruct (enter_decision_inv f tier _ Hd)
    as (_ & Hhigh & Hlow & Hle & Hgt & _ & ratio & Hratio & H105 & H130 & _).
  destruct (features_latest bars f Hfetch)
    as [[_ ->] | (latest & Hlatest & Ho & Hh & Hl & Hc & _)];
    [discriminate|].
  rewrite Ho, Hh, Hl, Hc in *.
  exists bars, latest, ratio. cbn.
  repeat (split; [first [reflexivity | assumption]|]).
  intros Hclose Hopen. split.
  - now apply float_not_leb_ltb.
  - now apply float_not_ltb_leb.
Qed.

Lemma order_tracks_last_bar_witness :
  exists bars latest ratio,
    reqHistoricalDataAsync breakout_session ABCD = Py.Ok bars /\
    Py.getitem_neg bars 1 = Py.Ok latest /\
    Py.truthy (BarData.high latest) = true /\
    Py.truthy (BarData.low latest) = true /\
    Py.le (BarData.close latest) (BarData.open latest) = false /\
    Py.gt (BarData.close latest) 5 = false /\
    bar_range_ratio (BarData.high latest) (BarData.low latest) = Py.Ok ratio /\
    PrimFloat.ltb 1.05 ratio = true /\ PrimFloat.ltb 1.30 ratio = false /\
    2.45%float = Py.round2 (1.02 * BarData.high latest) /\
    2.59%float = Py.round2 (1.08 * BarData.high latest) /\
    (Py.is_number (BarData.close latest) = true ->
     Py.is_number (BarData.open latest) = true ->
     PrimFloat.ltb (BarData.open latest) (BarData.close latest) = true /\
     PrimFloat.leb (BarData.close latest) 5 = true).
Proof.
  apply (order_tracks_last_bar breakout_session ABCD ABCD
           (mkStopLimitOrder "BUY" 4 2.45 2.59 true "GTD" 35760)).
  vm_compute. apply list_elem_of_here.
Defined.

(** A last bar whose close is NaN fails both tests on the close, and is
    ordered. *)
Example nan_close_is_ordered :
  Py.le nan 2 = false /\ Py.gt nan 5 = false /\
  orders_of (events (evaluate_and_trade_symbol nan_close_session ABCD))
  = [(ABCD, mkStopLimitOrder "BUY" 4 2.45 2.59 true "GTD" 35760)].
Proof. vm_compute. auto. Qed.

(** *** The expiry *)

Lemma expiration_bounds (clock minutes_valid : Z) :
  expiration clock minutes_valid mod 60 = 0 /\
  clock + 60 * minutes_valid - 4 * 3600 - 60
  < expiration clock minutes_valid
  <= clock + 60 * minutes_valid - 4 * 3600.
Proof.
  unfold expiration.
  pose proof (Z.mod_pos_bound clock 60 ltac:(lia)) as Hmod.
  split; [|lia].
  rewrite (Z.div_mod clock 60) at 1 by lia.
  replace (60 * (clock / 60) + clock mod 60 - clock mod 60
           + 60 * minutes_valid - 4 * 3600)
    with ((clock / 60 + minutes_valid - 240) * 60) by lia.
  apply Z.mod_mul. lia.
Qed.

(** X3: The date till which an order is good falls on a whole minute and is
    earlier than the clock reading it was computed from: less than four
    hours minus two minutes, and at least four hours minus three minutes,
    before it. *)
Theorem expiry_is_a_past_minute (ib : IB) (c : Contract) :
  Forall (fun placed =>
            goodTillDate (snd placed) mod 60 = 0 /\
            now ib c - 14280 < goodTillDate (snd placed) <= now ib c - 14220)
    (orders_of (events (evaluate_and_trade_symbol ib c))).
Proof.
  destruct (evaluate_orders_shape ib c)
    as [-> | (f & tier & q & _ & _ & _ & _ & ->)]; [constructor|].
  repeat constructor; cbn;
    pose proof (expiration_bounds (now ib c) 3) as [Hmin Hbounds];
    [exact Hmin|lia|lia].
Qed.

(* ===================================================================== *)
(** ** The turns of the scheduler                                         *)
(* ===================================================================== *)

(** What one turn of the loop emits: the heartbeat, then a scan when the
    second hand is past 45. *)
Lemma scanner_step (session : nat -> IB) (clock : nat -> Z)
    (contracts : list Contract) (n k : nat) :
  events (run_intraday_scanner session clock contracts (S n) k)
  = PrintHeartbeat (clock k)
    :: (if 45 <? clock k mod 60
        then events (scan_universe_once (session k) contracts) else [])
    ++ events (run_intraday_scanner session clock contracts n (S k)).
Proof.
  cbn [run_intraday_scanner].
  rewrite (eff_bind_ok (emit _) _ tt) by reflexivity.
  cbn [events fst emit app].
  destruct (45 <? clock k mod 60).
  - now rewrite (eff_bind_ok (scan_universe_once _ _) _ tt) by apply scan_returns.
  - now rewrite (eff_bind_ok (mret tt) _ tt) by reflexivity.
Qed.

(** X4: The loop emits, turn after turn, a heartbeat followed by the events of a
    scan exactly in the turns whose clock reads a second past 45: a turn at
    second 45 or earlier places no order and prints nothing else. *)
Theorem scanner_scans_past_second_45 (session : nat -> IB) (clock : nat -> Z)
    (contracts : list Contract) (n k : nat) :
  events (run_intraday_scanner session clock contracts n k)
  = concat
      (map (fun i =>
              PrintHeartbeat (clock i)
              :: (if 45 <? clock i mod 60
                  then events (scan_universe_once (session i) contracts)
                  else []))
         (seq k n)) /\
  orders_of (events (run_intraday_scanner session clock contracts n k))
  = concat
      (map (fun i =>
              if 45 <? clock i mod 60
              then orders_of (events (scan_universe_once (session i) contracts))
              else [])
         (seq k n)).
Proof.
  revert k. induction n as [|n IH]; intros k; [split; reflexivity|].
  destruct (IH (S k)) as [IHev IHord].
  rewrite scanner_step. cbn [seq map concat]. split.
  - now rewrite IHev.
  - rewrite app_comm_cons, orders_of_app, IHord. f_equal.
    now destruct (45 <? clock k mod 60).
Qed.

(* ===================================================================== *)
(** ** The size of the universe and of a scan                             *)
(* ===================================================================== *)

Lemma remove_first_NoDup (a : string) (l : list string) :
  NoDup l -> NoDup (remove_first a l).
Proof.
  induction 1 as [|y rest Hy Hrest IH]; cbn; [constructor|].
  destruct (decide (y = a)); [assumption|].
  constructor; [|assumption].
  rewrite remove_first_elem by assumption. tauto.
Qed.

Section UniverseSize.

Variable iteration_order : gset string -> list string.
Hypothesis iteration_order_lists :
  forall s : gset string, iteration_order s ≡ₚ elements s.

Lemma universe_symbols_NoDup (column : list string) :
  NoDup (universe_symbols iteration_order column).
Proof.
  unfold universe_symbols.
  destruct (bool_decide _);
    [apply remove_first_NoDup|]; now apply iteration_order_NoDup.
Qed.

Lemma universe_symbols_length (column : list string) :
  (length (universe_symbols iteration_order column) <= 550)%nat /\
  (length (universe_symbols iteration_order column) <= length column)%nat.
Proof.
  assert (Hsub : universe_symbols iteration_order column ⊆+ take 550 column).
  { apply NoDup_submseteq; [apply universe_symbols_NoDup|].
    intros x Hx.
    now apply (universe_symbols_elem _ iteration_order_lists) in Hx as [Hx _]. }
  apply submseteq_length in Hsub. rewrite length_take in Hsub. lia.
Qed.

End UniverseSize.

(** X5: The universe holds each symbol once, holds 550 symbols at most (and no
    more than the file has rows), and every one of them is among the first
    550 rows of the file. *)
Theorem universe_is_small_and_duplicate_free
    (iteration_order : gset string -> list string) (column : list string) :
  (forall s : gset string, iteration_order s ≡ₚ elements s) ->
  NoDup (universe_symbols iteration_order column) /\
  (length (UNIVERSE_CONTRACTS iteration_order column) <= 550)%nat /\
  (length (UNIVERSE_CONTRACTS iteration_order column) <= length column)%nat /\
  Forall (fun sym => sym ∈ take 550 column)
    (universe_symbols iteration_order column).
Proof.
  intros Horder.
  split; [now apply universe_symbols_NoDup|].
  unfold UNIVERSE_CONTRACTS. rewrite length_map.
  destruct (universe_symbols_length _ Horder column) as [H550 Hcol].
  split; [exact H550|]. split; [exact Hcol|].
  apply Forall_forall. intros x Hx.
  now apply (universe_symbols_elem _ Horder) in Hx as [Hx _].
Qed.

Lemma universe_is_small_and_duplicate_free_witness :
  NoDup (universe_symbols elements ["ABCD"; "INTJ"; "EFGH"; "ABCD"]) /\
  (length (UNIVERSE_CONTRACTS elements ["ABCD"; "INTJ"; "EFGH"; "ABCD"]) <= 550)%nat.
Proof.
  destruct (universe_is_small_and_duplicate_free elements
              ["ABCD"; "INTJ"; "EFGH"; "ABCD"]) as (Hnodup & Hlen & _).
  - intros s. reflexivity.
  - split; [exact Hnodup | exact Hlen].
Defined.

(** The symbols ordered in a scan, in the order of the tasks, are a
    sub-list of the symbols scanned. *)
Lemma scan_order_symbols (ib : IB) (contracts : list Contract) :
  map (fun placed => symbol (fst placed))
    (orders_of (events (scan_universe_once ib contracts)))
  `sublist_of` map symbol contracts.
Proof.
  rewrite scan_events.
  induction contracts as [|c cs IH]; [constructor|].
  cbn [map concat]. rewrite orders_of_app, map_app.
  destruct (evaluate_orders_shape ib c)
    as [-> | (f & tier & q & _ & _ & _ & _ & ->)]; cbn.
  - now apply sublist_cons.
  - now apply sublist_skip.
Qed.

(** X6: In a scan every contract gets one order at most, so a scan places no
    more orders than it has contracts; over the universe, no symbol is
    ordered twice in a scan and a scan places 550 orders at most. *)
Theorem one_order_per_symbol_per_scan
    (iteration_order : gset string -> list string) (column : list string)
    (ib : IB) :
  (forall s : gset string, iteration_order s ≡ₚ elements s) ->
  let placed :=
    orders_of (events (scan_universe_once ib
                         (UNIVERSE_CONTRACTS iteration_order column))) in
  NoDup (map (fun order => symbol (fst order)) placed) /\
  (length placed <= 550)%nat /\
  (forall contracts : list Contract,
      (length (orders_of (events (scan_universe_once ib contracts)))
       <= length contracts)%nat).
Proof.
  intros Horder placed. subst placed.
  pose proof (scan_order_symbols ib (UNIVERSE_CONTRACTS iteration_order column))
    as Hsub.
  split; [|split].
  - eapply sublist_NoDup; [|exact Hsub].
    rewrite universe_contract_symbols. now apply universe_symbols_NoDup.
  - apply sublist_length in Hsub. rewrite !length_map in Hsub.
    destruct (universe_symbols_length _ Horder column) as [H550 _].
    assert (Hsame : length (UNIVERSE_CONTRACTS iteration_order column)
                    = length (universe_symbols iteration_order column))
      by apply length_map.
    lia.
  - intros contracts.
    pose proof (sublist_length _ _ (scan_order_symbols ib contracts)) as Hlen.
    now rewrite !length_map in Hlen.
Qed.

Lemma one_order_per_symbol_per_scan_witness :
  NoDup (map (fun order => symbol (fst order))
           (orders_of (events (scan_universe_once breakout_session
                                 (UNIVERSE_CONTRACTS elements
                                    ["ABCD"; "INTJ"; "EFGH"; "ABCD"]))))).
Proof.
  apply (one_order_per_symbol_per_scan elements
           ["ABCD"; "INTJ"; "EFGH"; "ABCD"] breakout_session).
  intros s. reflexivity.
Defined.

(* ===================================================================== *)
(** ** The runs of a cycle                                                *)
(* ===================================================================== *)

(** The blocks of the tasks of a scan are the evaluations of its
    contracts, in their order. *)
Lemma remaining_scan (ib : IB) (contracts : list Contract) :
  forall body : nat -> Limiter.task,
    (forall i c, contracts !! i = Some c ->
                 Limiter.block (body i) = evaluate_and_trade_symbol ib c) ->
    Limiter.remaining body (replicate (length contracts) Limiter.Waiting)
    = (2 * length contracts
       + length (events (scan_universe_once ib contracts)))%nat.
Proof.
  induction contracts as [|c cs IH]; intros body Hbody; [reflexivity|].
  rewrite scan_events. cbn [map concat length replicate].
  rewrite length_app, <- scan_events.
  unfold Limiter.remaining. rewrite imap_cons. cbn [sum_list sum_list_with].
  rewrite (Hbody 0%nat c eq_refl).
  specialize (IH (body ∘ S) (fun i c' Hi => Hbody (S i) c' Hi)).
  unfold Limiter.remaining in IH.
  change (imap ((fun i p =>
                   Limiter.steps_left
                     (length (events (Limiter.block (body i)))) p) ∘ S))
    with (imap (fun i p =>
                  Limiter.steps_left
                    (length (events (Limiter.block ((body ∘ S) i)))) p)).
  rewrite IH. cbn [Limiter.steps_left]. unfold id. lia.
Qed.

(** X7: When every request of a scan is answered, with a result or with an
    exception, the scan cannot get stuck: in every state it can reach, either
    every task has left the block or a step is possible, and from every such
    state the scan can be run to the state in which every task has left. *)
Theorem answered_scan_never_deadlocks
    (ib : IB) (unanswered : Contract -> bool) (contracts : list Contract)
    (s : Limiter.state) :
  (forall c, c ∈ contracts -> unanswered c = false) ->
  rtc (scan_step ib unanswered contracts) (scan_start contracts) s ->
  (Forall (fun p => Limiter.is_released p = true) (Limiter.tasks s) \/
   exists s', scan_step ib unanswered contracts s s') /\
  exists s_end,
    rtc (scan_step ib unanswered contracts) s s_end /\
    Forall (fun p => Limiter.is_released p = true) (Limiter.tasks s_end).
Proof.
  intros Hall Hreach.
  destruct (scan_reachable ib unanswered contracts s Hreach) as (Hacc & Hin & _).
  assert (Hans : forall i, (i < length contracts)%nat ->
                           Limiter.answered (task_body ib unanswered contracts i)
                           = true).
  { intros i Hi. destruct (lookup_lt_is_Some_2 contracts i Hi) as [c Hc].
    rewrite (task_body_lookup _ _ _ _ _ Hc). cbn.
    rewrite (Hall c); [reflexivity|]. now apply list_elem_of_lookup_2 in Hc. }
  split.
  - exact (answered_progress _ 50 (length contracts) s ltac:(lia) Hacc Hin Hans).
  - exact (answered_completes _ 50 (length contracts) _ s ltac:(lia) Hacc Hin Hans
             eq_refl).
Qed.

Lemma answered_scan_never_deadlocks_witness :
  (Forall (fun p => Limiter.is_released p = true) (Limiter.tasks saturated) \/
   exists s', scan_step calm_session all_answered fifty_one_contracts saturated s') /\
  exists s_end,
    rtc (scan_step calm_session all_answered fifty_one_contracts) saturated s_end /\
    Forall (fun p => Limiter.is_released p = true) (Limiter.tasks s_end).
Proof.
  apply (answered_scan_never_deadlocks calm_session all_answered
           fifty_one_contracts saturated).
  - intros c _. reflexivity.
  - exact (rtc_nsteps_2 _ _ _ (saturated_in_fifty_steps calm_session all_answered)).
Defined.

(** X8: A run of a scan over N contracts takes at most 2 N + E steps, E
    being the number of events of the N evaluations: each task enters, emits
    its events and leaves.  The steps taken and the steps left always add up
    to that number, and a run has taken exactly that many if and only if
    every task has left the block. *)
Theorem scan_run_is_bounded
    (ib : IB) (unanswered : Contract -> bool) (contracts : list Contract)
    (k : nat) (s : Limiter.state) :
  nsteps (scan_step ib unanswered contracts) k (scan_start contracts) s ->
  (k + Limiter.remaining (task_body ib unanswered contracts) (Limiter.tasks s)
   = 2 * length contracts
     + length (events (scan_universe_once ib contracts)))%nat /\
  (k <= 2 * length contracts
        + length (events (scan_universe_once ib contracts)))%nat /\
  (k = (2 * length contracts
        + length (events (scan_universe_once ib contracts)))%nat
   <-> Forall (fun p => Limiter.is_released p = true) (Limiter.tasks s)).
Proof.
  intros Hrun.
  pose proof (remaining_steps _ k _ s Hrun) as Hsteps.
  unfold scan_start, Limiter.init in Hsteps. cbn [Limiter.tasks] in Hsteps.
  rewrite (remaining_scan ib contracts _ (task_block ib unanswered contracts))
    in Hsteps.
  split; [exact Hsteps|]. split; [lia|].
  rewrite <- (remaining_zero (task_body ib unanswered contracts)). lia.
Qed.

Lemma scan_run_is_bounded_witness :
  (50 + Limiter.remaining (task_body lost_session all_answered fifty_one_contracts)
          (Limiter.tasks saturated)
   = 2 * length fifty_one_contracts
     + length (events (scan_universe_once lost_session fifty_one_contracts)))%nat /\
  (50 <= 2 * length fifty_one_contracts
         + length (events (scan_universe_once lost_session fifty_one_contracts)))%nat.
Proof.
  destruct (scan_run_is_bounded lost_session all_answered fifty_one_contracts
              50 saturated (saturated_in_fifty_steps lost_session all_answered))
    as (Hsum & Hle & _).
  split; [exact Hsum|exact Hle].
Defined.

(** In the session in which every request fails, each of the fifty-one
    evaluations prints one line: a run has 153 steps. *)
Example lost_scan_steps :
  (2 * length fifty_one_contracts
   + length (events (scan_universe_once lost_session fifty_one_contracts)))%nat
  = 153%nat.
Proof. vm_compute. reflexivity. Qed.

(** X9: However the tasks of a scan interleave, the log holds of each task
    exactly what the task has emitted so far, in the order of its block:
    nothing of a task that waits, the first events of the block of a task
    inside, the whole block of a task that has left.  Once every task has
    left, the log is, up to the order, the events of evaluating each contract
    once, one after the other, with the same answers of the broker; so are
    the orders. *)
Theorem scan_log_keeps_each_task_in_order
    (ib : IB) (unanswered : Contract -> bool) (contracts : list Contract)
    (s : Limiter.state) :
  rtc (scan_step ib unanswered contracts) (scan_start contracts) s ->
  (forall (i : nat) (c : Contract),
      contracts !! i = Some c ->
      exists p,
        Limiter.tasks s !! i = Some p /\
        Limiter.logged_by i (Limiter.log s)
        = Limiter.emitted_by (events (evaluate_and_trade_symbol ib c)) p) /\
  (Forall (fun p => Limiter.is_released p = true) (Limiter.tasks s) ->
   (Limiter.log s).*2 ≡ₚ events (scan_universe_once ib contracts) /\
   orders_of ((Limiter.log s).*2)
   ≡ₚ orders_of (events (scan_universe_once ib contracts))).
Proof.
  intros Hreach. split.
  - intros i c Hc. now apply (scan_log_task ib unanswered contracts).
  - intros Hall.
    pose proof (scan_log_complete ib unanswered contracts s Hreach Hall) as Hperm.
    split; [exact Hperm | now apply orders_of_Permutation].
Qed.

Lemma scan_log_keeps_each_task_in_order_witness :
  (Limiter.log interleaved_scan).*2
  ≡ₚ events (scan_universe_once breakout_session [ABCD; IJKL]) /\
  orders_of ((Limiter.log interleaved_scan).*2)
  ≡ₚ orders_of (events (scan_universe_once breakout_session [ABCD; IJKL])).
Proof.
  refine (proj2 (scan_log_keeps_each_task_in_order breakout_session all_answered
                   [ABCD; IJKL] interleaved_scan _) _).
  - unfold scan_start, Limiter.init. cbn [length replicate].
    eapply rtc_l; [apply (Limiter.step_acquire _ 0%nat); reflexivity|].
    eapply rtc_l; [apply (Limiter.step_acquire _ 1%nat); reflexivity|].
    eapply rtc_l;
      [apply (Limiter.step_emit _ 0%nat _ 0%nat); vm_compute; reflexivity|].
    eapply rtc_l;
      [apply (Limiter.step_emit _ 1%nat _ 0%nat); vm_compute; reflexivity|].
    eapply rtc_l;
      [apply (Limiter.step_emit _ 1%nat _ 1%nat); vm_compute; reflexivity|].
    eapply rtc_l;
      [apply (Limiter.step_leave _ 1%nat _ 2%nat); vm_compute; reflexivity|].
    eapply rtc_l;
      [apply (Limiter.step_emit _ 0%nat _ 1%nat); vm_compute; reflexivity|].
    eapply rtc_l;
      [apply (Limiter.step_leave _ 0%nat _ 2%nat); vm_compute; reflexivity|].
    match goal with
    | |- rtc _ ?x ?y => replace x with y by (vm_compute; reflexivity)
    end.
    apply rtc_refl.
  - repeat constructor.
Defined.

(** The log of that run: the two tasks alternate, each in the order of its
    block. *)
Example interleaved_scan_logs :
  Limiter.logged_by 0 (Limiter.log interleaved_scan)
  = events (evaluate_and_trade_symbol breakout_session ABCD) /\
  Limiter.logged_by 1 (Limiter.log interleaved_scan)
  = events (evaluate_and_trade_symbol breakout_session IJKL) /\
  (Limiter.log interleaved_scan).*2
  <> events (scan_universe_once breakout_session [ABCD; IJKL]).
Proof. vm_compute. split; [reflexivity|]. split; [reflexivity|]. discriminate. Qed.



(* ===================================================================== *)
(** ** The selection of the candidates                                    *)
(* ===================================================================== *)

Section Selection.

Variables price_thresh mc_thresh vol_thresh : float.

Lemma select_elem (results : list Builder.raw_result) (c : Builder.Candidate) :
  c ∈ Builder.select_universe_candidates results price_thresh mc_thresh vol_thresh
  <-> Builder.as_result c ∈ results /\
      Builder.passes price_thresh mc_thresh vol_thresh
        (Builder.price c) (Builder.market_cap c) (Builder.avg_volume c) = true.
Proof.
  induction results as [|[[[sym p] mc] vol] rest IH]; cbn.
  - split; [intros []%elem_of_nil | intros [[]%elem_of_nil _]].
  - rewrite (elem_of_cons rest). unfold Builder.as_result in *.
    destruct p as [p|], mc as [mc|], vol as [vol|];
      try (rewrite IH; split; [tauto | intros [[[=] | H] Hp]; tauto]).
    destruct (Builder.passes _ _ _ p mc vol) eqn:Hpass.
    + rewrite elem_of_cons, IH. split.
      * intros [-> | [H Hp]]; [split; [now left | exact Hpass] | tauto].
      * intros [[[= Hs Hp Hm Hv] | H] Hp'].
        -- left. destruct c; cbn in *; congruence.
        -- tauto.
    + rewrite IH. split; [tauto|].
      intros [[[= Hs Hp Hm Hv] | H] Hp']; [|tauto].
      subst. congruence.
Qed.

Lemma select_sublist (results : list Builder.raw_result) :
  map Builder.as_result
    (Builder.select_universe_candidates results price_thresh mc_thresh vol_thresh)
  `sublist_of` results.
Proof.
  induction results as [|[[[sym p] mc] vol] rest IH]; cbn; [constructor|].
  destruct p as [p|], mc as [mc|], vol as [vol|]; try now apply sublist_cons.
  destruct (Builder.passes _ _ _ p mc vol);
    [now apply sublist_skip | now apply sublist_cons].
Qed.

Lemma select_all_pass (rows : list Builder.Candidate) :
  Forall (fun c =>
            Builder.passes price_thresh mc_thresh vol_thresh
              (Builder.price c) (Builder.market_cap c) (Builder.avg_volume c)
            = true) rows ->
  Builder.select_universe_candidates (map Builder.as_result rows)
    price_thresh mc_thresh vol_thresh = rows.
Proof.
  induction 1 as [|[sym p mc vol] rows Hc _ IH]; [reflexivity|].
  cbn in *. now rewrite Hc, IH.
Qed.

End Selection.

(** X10: A candidate is selected exactly when its row is among the results with a
    price, a market cap and a volume that are present and pass the three
    thresholds: price strictly between 0.1 and the price threshold, market cap
    strictly between 100 000 and its threshold, volume at least the volume
    threshold. *)
Theorem selection_is_exactly_the_passing_rows
    (results : list Builder.raw_result) (price_thresh mc_thresh vol_thresh : float)
    (c : Builder.Candidate) :
  c ∈ Builder.select_universe_candidates results price_thresh mc_thresh vol_thresh
  <-> Builder.as_result c ∈ results /\
      PrimFloat.ltb 0.1 (Builder.price c) = true /\
      PrimFloat.ltb (Builder.price c) price_thresh = true /\
      PrimFloat.ltb 100000 (Builder.market_cap c) = true /\
      PrimFloat.ltb (Builder.market_cap c) mc_thresh = true /\
      PrimFloat.leb vol_thresh (Builder.avg_volume c) = true.
Proof.
  rewrite select_elem. unfold Builder.passes, Py.lt, Py.le.
  rewrite !andb_true_iff. tauto.
Qed.

(** X11: The candidates selected come in the order of the results, each at most
    as often as its row occurs: as rows they form a sub-list of the results,
    so there are no more of them than results. *)
Theorem selection_keeps_the_order
    (results : list Builder.raw_result) (price_thresh mc_thresh vol_thresh : float) :
  map Builder.as_result
    (Builder.select_universe_candidates results price_thresh mc_thresh vol_thresh)
  `sublist_of` results /\
  (length (Builder.select_universe_candidates results
             price_thresh mc_thresh vol_thresh)
   <= length results)%nat.
Proof.
  pose proof (select_sublist price_thresh mc_thresh vol_thresh results) as Hsub.
  split; [exact Hsub|].
  apply sublist_length in Hsub. now rewrite length_map in Hsub.
Qed.

(** X12: Selecting again among the candidates selected, with the same thresholds,
    keeps them all. *)
Theorem selection_is_idempotent
    (results : list Builder.raw_result) (price_thresh mc_thresh vol_thresh : float) :
  Builder.select_universe_candidates
    (map Builder.as_result
       (Builder.select_universe_candidates results
          price_thresh mc_thresh vol_thresh))
    price_thresh mc_thresh vol_thresh
  = Builder.select_universe_candidates results price_thresh mc_thresh vol_thresh.
Proof.
  apply select_all_pass. apply Forall_forall. intros c Hc.
  now apply select_elem in Hc as [_ Hc].
Qed.

Lemma passes_loosened (pt pt' mt mt' vt vt' p mc vol : float) :
  PrimFloat.leb pt pt' = true ->
  PrimFloat.leb mt mt' = true ->
  PrimFloat.leb vt' vt = true ->
  Builder.passes pt mt vt p mc vol = true ->
  Builder.passes pt' mt' vt' p mc vol = true.
Proof.
  intros Hp Hm Hv. unfold Builder.passes, Py.lt, Py.le.
  rewrite !andb_true_iff. intros [[[H1 H2] [H3 H4]] H5].
  repeat split; try assumption.
  - exact (float_ltb_leb_trans _ _ _ H2 Hp).
  - exact (float_ltb_leb_trans _ _ _ H4 Hm).
  - destruct (leb_true_numbers _ _ Hv) as [Ha Hb].
    destruct (leb_true_numbers _ _ H5) as [_ Hc].
    exact (float_leb_trans _ _ _ Ha Hb Hc Hv H5).
Qed.

(** X13: No NaN is selected: the price, the market cap and the average volume of
    a selected candidate are numbers, and a selection that is not empty was
    made with thresholds that are numbers, the price threshold above 0.1 and
    the market-cap threshold above 100 000. *)
Theorem selected_values_are_numbers
    (results : list Builder.raw_result) (price_thresh mc_thresh vol_thresh : float) :
  Forall (fun c =>
            (Py.is_number (Builder.price c) = true /\
             Py.is_number (Builder.market_cap c) = true /\
             Py.is_number (Builder.avg_volume c) = true) /\
            (Py.is_number vol_thresh = true /\
             PrimFloat.ltb 0.1 price_thresh = true /\
             PrimFloat.ltb 100000 mc_thresh = true))
    (Builder.select_universe_candidates results price_thresh mc_thresh vol_thresh).
Proof.
  apply Forall_forall. intros c Hc.
  apply select_elem in Hc as [_ Hc]. revert Hc.
  unfold Builder.passes, Py.lt, Py.le.
  rewrite !andb_true_iff. intros [[[H1 H2] [H3 H4]] H5].
  destruct (ltb_true_numbers _ _ H1) as [_ Hp].
  destruct (ltb_true_numbers _ _ H3) as [_ Hm].
  destruct (leb_true_numbers _ _ H5) as [Ht Hv].
  repeat split; try assumption.
  - exact (float_ltb_trans _ _ _ H1 H2).
  - exact (float_ltb_trans _ _ _ H3 H4).
Qed.

(** X14: Loosening the thresholds (a price threshold and a market-cap threshold at
    least as high, a volume threshold at most as high) loses no candidate:
    the candidates of the tighter selection are, in order, among those of the
    looser one. *)
Theorem looser_thresholds_keep_every_candidate
    (results : list Builder.raw_result)
    (price_thresh price_thresh' mc_thresh mc_thresh' vol_thresh vol_thresh' : float)
    (Hprice : PrimFloat.leb price_thresh price_thresh' = true)
    (Hmc : PrimFloat.leb mc_thresh mc_thresh' = true)
    (Hvol : PrimFloat.leb vol_thresh' vol_thresh = true) :
  Builder.select_universe_candidates results price_thresh mc_thresh vol_thresh
  `sublist_of`
  Builder.select_universe_candidates results price_thresh' mc_thresh' vol_thresh'.
Proof.
  induction results as [|[[[sym p] mc] vol] rest IH]; cbn; [constructor|].
  destruct p as [p|], mc as [mc|], vol as [vol|]; try exact IH.
  destruct (Builder.passes price_thresh mc_thresh vol_thresh p mc vol) eqn:Hpass.
  - rewrite (passes_loosened _ _ _ _ _ _ _ _ _ Hprice Hmc Hvol Hpass).
    now apply sublist_skip.
  - destruct (Builder.passes price_thresh' mc_thresh' vol_thresh' p mc vol);
      [now apply sublist_cons | exact IH].
Qed.

Lemma looser_thresholds_keep_every_candidate_witness :
  Builder.select_universe_candidates sample_results 5 40000000 6000
  `sublist_of` Builder.select_default sample_results.
Proof.
  apply (looser_thresholds_keep_every_candidate sample_results
           5 7 40000000 50000000 6000 5000); reflexivity.
Defined.

(* ===================================================================== *)
(** ** The fetchers and the pipeline                                      *)
(* ===================================================================== *)

Lemma fetch_all_rows (ib : Builder.Session) (lib : Builder.Library)
    (tickers : list string) (row : Builder.raw_result) :
  row ∈ snd (Builder.fetch_all ib lib tickers) ->
  exists sym p mc vol,
    row = (sym, p, mc, vol) /\ sym ∈ tickers /\
    (Builder.len sym <= 4)%nat /\
    snd (Builder.fetch_price_mc_volume_ib ib lib sym) = (p, mc, vol).
Proof.
  induction tickers as [|sym rest IH]; [intros []%elem_of_nil|].
  cbn [Builder.fetch_all].
  destruct (4 <? Builder.len sym)%nat eqn:Hlen.
  - intros (s & p & mc & vol & -> & Hin & Hs & Hf)%IH.
    exists s, p, mc, vol. repeat split; try assumption. now right.
  - destruct (Builder.fetch_price_mc_volume_ib ib lib sym)
      as [printed [[p mc] vol]] eqn:Hfetch.
    apply Nat.ltb_ge in Hlen.
    destruct (Builder.fetch_all ib lib rest) as [printed_rest rows].
    cbn [snd] in *.
    intros [-> | Hin]%elem_of_cons.
    + exists sym, p, mc, vol. repeat split; [now left | exact Hlen | now rewrite Hfetch].
    + destruct (IH Hin) as (s & p' & mc' & vol' & -> & Hin' & Hs & Hf).
      exists s, p', mc', vol'. repeat split; try assumption. now right.
Qed.

Lemma fetch_complete (ib : Builder.Session) (lib : Builder.Library)
    (sym : string) (p mc vol : float) :
  snd (Builder.fetch_price_mc_volume_ib ib lib sym) = (Some p, Some mc, Some vol) ->
  exists q qs bars latest xml text cap,
    Builder.qualifyContracts ib sym = Builder.Return (q :: qs) /\
    Builder.reqHistoricalData ib sym = Builder.Return bars /\
    last bars = Some latest /\
    p = Builder.close latest /\
    vol = Builder.average_volume lib (Builder.earlier_volumes bars) /\
    Builder.reqFundamentalData ib sym = Builder.Return (Some xml) /\
    Builder.find_market_cap_text lib xml = Builder.Return (Some (Some text)) /\
    Builder.float_of_str lib text = Builder.Return cap /\
    mc = (cap * 1000000)%float.
Proof.
  unfold Builder.fetch_price_mc_volume_ib, Builder.extract_market_cap_from_xml.
  destruct (Builder.qualifyContracts ib sym) as [[|q qs]|exc]; try discriminate.
  destruct (Builder.reqHistoricalData ib sym) as [bars|exc]; try discriminate.
  destruct (last bars) as [latest|] eqn:Hlast; try discriminate.
  destruct (Builder.reqFundamentalData ib sym) as [[xml|]|exc]; try discriminate.
  destruct (String.eqb xml ""); try discriminate.
  destruct (Builder.find_market_cap_text lib xml) as [[[text|]|]|exc] eqn:Hfind;
    try discriminate.
  destruct (String.eqb text ""); try discriminate.
  destruct (Builder.float_of_str lib text) as [cap|exc] eqn:Hcap;
    try discriminate.
  cbn. intros [= <- <- <-].
  exists q, qs, bars, latest, xml, text, cap. repeat split; assumption.
Qed.

Lemma fetch_floats_symbols (ib : Builder.Session) (lib : Builder.Library)
    (rows : list Builder.Candidate) :
  map fst (snd (Builder.fetch_floats ib lib rows)) = map Builder.symbol rows.
Proof.
  induction rows as [|row rest IH]; [reflexivity|]. cbn.
  destruct (Builder.fetch_float_shares_ib ib lib (Builder.symbol row)).
  destruct (Builder.fetch_floats ib lib rest). cbn in *. now rewrite IH.
Qed.

Lemma default_candidates_fetched (ib : Builder.Session) (lib : Builder.Library)
    (tickers : list string) (c : Builder.Candidate) :
  c ∈ Builder.select_default (snd (Builder.fetch_all ib lib tickers)) ->
  Builder.symbol c ∈ tickers /\
  (Builder.len (Builder.symbol c) <= 4)%nat /\
  fetched_from ib lib c.
Proof.
  unfold Builder.select_default. intros [Hrow Hpass]%select_elem.
  apply fetch_all_rows in Hrow as (sym & p & mc & vol & Heq & Hin & Hlen & Hf).
  unfold Builder.as_result in Heq. injection Heq as <- <- <- <-.
  repeat split; try assumption.
  apply fetch_complete in Hf
    as (q & qs & bars & latest & xml & text & cap
        & Hq & Hb & Hl & Hp & Hv & Hx & Ht & Hc & Hm).
  exists q, qs, bars, latest, xml, text, cap.
  repeat split; try assumption.
  intros Hnone. rewrite Hv, Hnone in Hpass. cbn in Hpass.
  unfold Builder.passes, Py.le in Hpass.
  rewrite !andb_true_iff in Hpass. destruct Hpass as [_ Hpass].
  vm_compute in Hpass. discriminate.
Qed.

(** X15: Every candidate the pipeline hands on is one of the tickers, of at most
    four characters (as [len] counts them), with a complete fetch behind it: a qualified contract, a
    last bar that gives the price, at least one earlier bar with a volume, and
    a report whose market cap converts.  The float rows follow the candidates,
    symbol by symbol, and there is at least one candidate. *)
Theorem candidates_come_from_complete_fetches
    (ib : Builder.Session) (lib : Builder.Library) (tickers : list string)
    (filtered : list Builder.Candidate) (float_rows : list (string * option float))
    (Hbuilt : snd (Builder.build_low_float_universe ib lib tickers)
              = Some (filtered, float_rows)) :
  filtered <> [] /\
  map fst float_rows = map Builder.symbol filtered /\
  Forall (fun c =>
            Builder.symbol c ∈ tickers /\
            (Builder.len (Builder.symbol c) <= 4)%nat /\
            fetched_from ib lib c) filtered.
Proof.
  unfold Builder.build_low_float_universe in Hbuilt.
  pose proof (default_candidates_fetched ib lib tickers) as Hall.
  destruct (Builder.fetch_all ib lib tickers) as [printed raw_results].
  cbn [snd] in Hall.
  destruct (Builder.select_default raw_results) as [|c0 cs] eqn:Hsel;
    [discriminate|].
  pose proof (fetch_floats_symbols ib lib (c0 :: cs)) as Hsym.
  destruct (Builder.fetch_floats ib lib (c0 :: cs)) as [printed_floats rows].
  cbn in Hbuilt. injection Hbuilt as <- <-.
  split; [discriminate|]. split; [exact Hsym|].
  apply Forall_forall. exact Hall.
Qed.

Lemma candidates_come_from_complete_fetches_witness :
  Forall (fun c =>
            Builder.symbol c ∈ sample_tickers /\
            (Builder.len (Builder.symbol c) <= 4)%nat /\
            fetched_from sample_session sample_library c)
    [Builder.mkCandidate "ABCD" 2.0 2500000 6000;
     Builder.mkCandidate "ÅBCD" 2.0 2500000 6000].
Proof.
  refine (proj2 (proj2 (candidates_come_from_complete_fetches
                          sample_session sample_library sample_tickers
                          [Builder.mkCandidate "ABCD" 2.0 2500000 6000;
                           Builder.mkCandidate "ÅBCD" 2.0 2500000 6000]
                          [("ABCD"%string, Some 1200000%float);
                           ("ÅBCD"%string, Some 1200000%float)] _))).
  vm_compute. reflexivity.
Defined.

(** A ticker of four characters and five bytes is fetched, one of five
    characters is not. *)
Example four_characters_are_fetched :
  Builder.len "ÅBCD" = 4%nat /\ String.length "ÅBCD" = 5%nat /\
  map (fun row => fst (fst (fst row)))
    (snd (Builder.fetch_all sample_session sample_library sample_tickers))
  = ["ABCD"; "ÅBCD"; "WXYZ"; "QQQQ"]%string.
Proof. vm_compute. auto. Qed.

(** X16: The float of a symbol is a value exactly when its contract qualified and
    its report, not empty, has a total-float attribute that converts; nothing
    is printed then.  It is missing without a word exactly when that report
    has no such element or attribute. *)
Theorem float_is_read_from_the_report
    (ib : Builder.Session) (lib : Builder.Library) (sym : string) :
  (forall v,
     Builder.fetch_float_shares_ib ib lib sym = ([], Some v)
     <-> snd (Builder.fetch_float_shares_ib ib lib sym) = Some v) /\
  (forall v,
     snd (Builder.fetch_float_shares_ib ib lib sym) = Some v
     <-> exists q qs xml text,
           Builder.qualifyContracts ib sym = Builder.Return (q :: qs) /\
           Builder.reqFundamentalData ib sym = Builder.Return (Some xml) /\
           String.eqb xml "" = false /\
           Builder.find_total_float lib xml = Builder.Return (Some (Some text)) /\
           Builder.float_of_str lib text = Builder.Return v) /\
  (Builder.fetch_float_shares_ib ib lib sym = ([], None)
   <-> exists q qs xml,
         Builder.qualifyContracts ib sym = Builder.Return (q :: qs) /\
         Builder.reqFundamentalData ib sym = Builder.Return (Some xml) /\
         String.eqb xml "" = false /\
         (Builder.find_total_float lib xml = Builder.Return None \/
          Builder.find_total_float lib xml = Builder.Return (Some None))).
Proof.
  unfold Builder.fetch_float_shares_ib, Builder.extract_float_shares_from_xml.
  split; [intros v; split; intros H
         | split; [intros v; split; intros H | split; intros H]];
    revert H;
    destruct (Builder.qualifyContracts ib sym) as [[|q qs]|exc] eqn:Hq;
    try destruct (Builder.reqFundamentalData ib sym) as [[xml|]|exc'] eqn:Hx;
    try destruct (String.eqb xml "") eqn:Hempty;
    try destruct (Builder.find_total_float lib xml) as [[[text|]|]|[]] eqn:Hf;
    try destruct (Builder.float_of_str lib text) as [v'|[]] eqn:Hv;
    cbn; intros H;
    repeat match goal with
           | H : exists _, _ |- _ => destruct H
           | H : _ /\ _ |- _ => destruct H
           | H : _ \/ _ |- _ => destruct H
           end;
    simplify_eq; try congruence; eauto 12.
Qed.

(** X17: Loading the tickers returns, entry by entry and in order, the value under
    "ticker"; it raises a key error for "ticker", and nothing else, when some
    entry has no such key. *)
Theorem load_tickers_needs_every_ticker (data : list (string * gmap string string)) :
  match Builder.load_tickers data with
  | Builder.Return tickers =>
      Forall2 (fun entry ticker => entry.2 !! "ticker"%string = Some ticker)
        data tickers
  | Builder.Raise exc =>
      exc = Builder.KeyError "ticker" /\
      Exists (fun entry => entry.2 !! "ticker"%string = None) data
  end.
Proof.
  induction data as [|[key entry] rest IH]; cbn; [constructor|].
  destruct (entry !! "ticker"%string) as [ticker|] eqn:Hticker.
  - destruct (Builder.load_tickers rest) as [tickers|exc].
    + now constructor.
    + destruct IH as [-> IH]. split; [reflexivity|]. now apply Exists_cons_tl.
  - split; [reflexivity|]. now apply Exists_cons_hd.
Qed.
